(** * Tax Document Phrase Extractor: the analysis pipeline of [main.py]

    A shallow embedding of [DocumentAnalyzer] (validation, truncation, the
    five category extractors and their order-preserving deduplication) and
    the properties of it that the specification states.

    Modelling conventions.
    - A Python [str] is a Rocq [string]; each [ascii] is one code point in
      the range 0..255, so [String.length] is Python's [len].  The
      functions of the Python runtime that the analyzer calls ([str.strip],
      [str.lower], [in], [str.split], the [re] module) are written out for
      that range, where they are exact.
    - [results.append] inside a [for] loop is a left fold that threads the
      list [results].
    - The [seen] sets of the deduplication loops are stdpp [gset]s.
    - spaCy's pipeline [nlp] is a collaborator outside the repository: it
      is a parameter of [analyze_document]; a [Doc] is its token list and
      its entity spans. *)

From stdpp Require Import gmap strings list.
From Stdlib Require Import Ascii String NArith ZArith Lia DecimalString.

Local Open Scope string_scope.
Local Open Scope list_scope.

(** ** Characters *)

Module Char.

Definition code (c : ascii) : N := N_of_ascii c.

(** [Py_UNICODE_ISSPACE] on 0..255: it decides [str.strip] and [\s]. *)
Definition isspace (c : ascii) : bool :=
  let n := code c in
  (((9 <=? n) && (n <=? 13)) || ((28 <=? n) && (n <=? 32))
   || (n =? 133) || (n =? 160))%N.

(** [\d]: the decimal digits of 0..255 are the ASCII ones. *)
Definition isdigit (c : ascii) : bool :=
  let n := code c in ((48 <=? n) && (n <=? 57))%N.

Definition isupper_ascii (c : ascii) : bool :=
  let n := code c in ((65 <=? n) && (n <=? 90))%N.

Definition islower_ascii (c : ascii) : bool :=
  let n := code c in ((97 <=? n) && (n <=? 122))%N.

(** One character of [str.lower]: A-Z, and the Latin-1 capitals
    U+00C0..U+00DE except the multiplication sign U+00D7. *)
Definition lower (c : ascii) : ascii :=
  let n := code c in
  if (((65 <=? n) && (n <=? 90))
      || ((192 <=? n) && (n <=? 222) && negb (n =? 215)))%N
  then ascii_of_N (n + 32) else c.

Definition eqb (a b : ascii) : bool := Ascii.eqb a b.

End Char.

(** ** The [str] methods used by the analyzer *)

Module Str.

(** [len(s)] *)
Definition len (s : string) : nat := String.length s.

(** [s.lower()] *)
Fixpoint lower (s : string) : string :=
  match s with
  | EmptyString => EmptyString
  | String c s' => String (Char.lower c) (lower s')
  end.

Fixpoint lstrip (s : string) : string :=
  match s with
  | EmptyString => EmptyString
  | String c s' => if Char.isspace c then lstrip s' else s
  end.

Fixpoint rstrip (s : string) : string :=
  match s with
  | EmptyString => EmptyString
  | String c s' =>
      match rstrip s' with
      | EmptyString => if Char.isspace c then EmptyString else String c EmptyString
      | r => String c r
      end
  end.

(** [s.strip()]: leading and trailing whitespace removed. *)
Definition strip (s : string) : string := rstrip (lstrip s).

(** [s.startswith(p)] *)
Fixpoint startswith (p s : string) : bool :=
  match p, s with
  | EmptyString, _ => true
  | String a p', String b s' => Char.eqb a b && startswith p' s'
  | String _ _, EmptyString => false
  end.

(** [sub in s] *)
Fixpoint contains (sub s : string) : bool :=
  startswith sub s ||
  match s with
  | EmptyString => false
  | String _ s' => contains sub s'
  end.

(** [s.split(sep)] for a one-character separator: never empty. *)
Fixpoint split (sep : ascii) (s : string) : list string :=
  match s with
  | EmptyString => [EmptyString]
  | String c s' =>
      if Char.eqb c sep then EmptyString :: split sep s'
      else match split sep s' with
           | h :: t => String c h :: t
           | [] => [String c EmptyString]
           end
  end.

(** [s.split(sep, 1)]: at most one cut, at the first separator. *)
Fixpoint split1 (sep : ascii) (s : string) : list string :=
  match s with
  | EmptyString => [EmptyString]
  | String c s' =>
      if Char.eqb c sep then [EmptyString; s']
      else match split1 sep s' with
           | h :: t => String c h :: t
           | [] => [String c EmptyString]
           end
  end.

(** [l[-1]] on a list of strings ([IndexError] cannot arise: the lists
    indexed this way come from [split1]). *)
Definition last_item (l : list string) : string := List.last l EmptyString.

(** [s[:n]] *)
Fixpoint take (n : nat) (s : string) : string :=
  match n, s with
  | O, _ => EmptyString
  | S n', String c s' => String c (take n' s')
  | S _, EmptyString => EmptyString
  end.

(** [s[:-1]] *)
Definition drop_last (s : string) : string := take (len s - 1) s.

(** ["".join(l)] *)
Definition concat (l : list string) : string :=
  List.fold_right String.append EmptyString l.

End Str.

(** ** The fragment of [re] used by the patterns *)

Module Re.

(** Pattern syntax after parsing.  A character test carries the effect of
    [re.IGNORECASE]; [Star] is the greedy star; [Grp] is capture group 1. *)
Inductive regex : Type :=
| Eps
| Chr (p : ascii -> bool)
| Cat (r1 r2 : regex)
| Alt (r1 r2 : regex)
| Star (r : regex)
| Grp (r : regex).

Definition Plus (r : regex) : regex := Cat r (Star r).
Definition Opt (r : regex) : regex := Alt r Eps.

(** [r{lo,hi}] for the small counted repetitions of the date patterns:
    [lo] mandatory copies, then up to [extra] optional greedy ones. *)
Fixpoint UpTo (extra : nat) (r : regex) : regex :=
  match extra with
  | O => Eps
  | S n => Opt (Cat r (UpTo n r))
  end.

Fixpoint Exactly (n : nat) (r : regex) : regex :=
  match n with
  | O => Eps
  | S n' => Cat r (Exactly n' r)
  end.

Definition Rep (lo hi : nat) (r : regex) : regex :=
  Cat (Exactly lo r) (UpTo (hi - lo) r).

(** A literal character, case-sensitive and under [re.IGNORECASE].  On the
    code points 0..255 of this model a letter matches its two cases and
    nothing else.  The engine knows two further matches, both above 255:
    U+017F for [s] and U+212A for [k]; a statement that relies on a pattern
    not matching says that the text in question is ASCII. *)
Definition lit (a : ascii) : regex := Chr (Char.eqb a).
Definition lit_i (a : ascii) : regex :=
  Chr (fun c => Char.eqb (Char.lower c) (Char.lower a)).

(** A literal word under [re.IGNORECASE]. *)
Fixpoint word_i (s : string) : regex :=
  match s with
  | EmptyString => Eps
  | String a s' => Cat (lit_i a) (word_i s')
  end.

Definition space : regex := Chr Char.isspace.      (* \s *)
Definition digit : regex := Chr Char.isdigit.      (* \d *)

(** A match in progress: the unread suffix, the number of characters read
    since the match began, and the text of group 1 (the empty string
    until the group closes). *)
Definition result : Type := (nat * string * string)%type.
Definition cont : Type := string -> nat -> string -> option result.

(** Greedy iteration of [body]: one more round if it reads input and the
    rest of the pattern then succeeds, otherwise stop here.  A round that
    reads nothing ends the iteration, so [S (len s)] rounds are never
    used up. *)
Fixpoint star_loop (body : string -> nat -> string -> cont -> option result)
         (fuel : nat) (s : string) (pos : nat) (g : string) (k : cont)
  : option result :=
  match fuel with
  | O => k s pos g
  | S fuel' =>
      match body s pos g (fun s' pos' g' =>
               if (pos <? pos')%nat then star_loop body fuel' s' pos' g' k
               else None) with
      | Some m => Some m
      | None => k s pos g
      end
  end.

(** The backtracking matcher: alternatives are tried left to right and
    the first way to complete the whole pattern wins, as in [sre]. *)
Fixpoint run (r : regex) (s : string) (pos : nat) (g : string) (k : cont)
  : option result :=
  match r with
  | Eps => k s pos g
  | Chr p =>
      match s with
      | String c s' => if p c then k s' (S pos) g else None
      | EmptyString => None
      end
  | Cat r1 r2 => run r1 s pos g (fun s' pos' g' => run r2 s' pos' g' k)
  | Alt r1 r2 =>
      match run r1 s pos g k with
      | Some m => Some m
      | None => run r2 s pos g k
      end
  | Star r1 => star_loop (run r1) (S (Str.len s)) s pos g k
  | Grp r1 =>
      run r1 s pos g (fun s' pos' _ => k s' pos' (Str.take (pos' - pos) s))
  end.

(** A match anchored at the start of [s]: the number of characters
    matched, the unread rest and group 1. *)
Definition match_at (r : regex) (s : string) : option result :=
  run r s 0 EmptyString (fun s' pos' g' => Some (pos', s', g')).

(** [re.match(r, s)] as a truth value. *)
Definition matches (r : regex) (s : string) : bool :=
  match match_at r s with Some _ => true | None => false end.

(** [re.search(r, s)] as a truth value: a match at some position. *)
Fixpoint search (r : regex) (s : string) : bool :=
  match match_at r s with
  | Some _ => true
  | None =>
      match s with
      | EmptyString => false
      | String _ s' => search r s'
      end
  end.

(** [[m.group(1) for m in re.finditer(r, s)]]: the leftmost match, then
    the scan resumes where it ended.  The patterns scanned this way start
    with a literal, so a match is never empty; an empty one would advance
    by one character. *)
Fixpoint finditer_from (fuel : nat) (r : regex) (s : string) : list string :=
  match fuel with
  | O => []
  | S fuel' =>
      match match_at r s with
      | Some (n, rest, g) =>
          if (0 <? n)%nat then g :: finditer_from fuel' r rest
          else match s with
               | EmptyString => [g]
               | String _ s' => g :: finditer_from fuel' r s'
               end
      | None =>
          match s with
          | EmptyString => []
          | String _ s' => finditer_from fuel' r s'
          end
      end
  end.

Definition finditer (r : regex) (s : string) : list string :=
  finditer_from (S (Str.len s)) r s.

End Re.

(** ** Items, documents and entities *)

(** An extracted item: [(heading, content)]. *)
Definition item : Type := (string * string)%type.

(** A spaCy token: its text and its trailing whitespace ([whitespace_]). *)
Record Token : Type := mkToken {
  tok_text : string;
  whitespace_ : string
}.

(** An entity span [ent]: [ent.label_], [ent.text] and the token indices
    [ent.start], [ent.end]. *)
Record Ent : Type := mkEnt {
  label_ : string;
  ent_text : string;
  ent_start : nat;
  ent_end : nat
}.

(** The [Doc] returned by [nlp]: [len(doc)] is the number of tokens. *)
Record Doc : Type := mkDoc {
  tokens : list Token;
  ents : list Ent
}.

Definition doc_len (doc : Doc) : nat := List.length (tokens doc).

(** [doc[start:end].text]: the tokens with their trailing whitespace,
    without the trailing whitespace of the last one. *)
Definition span_text (doc : Doc) (start end_ : nat) : string :=
  let span := take (end_ - start) (drop start (tokens doc)) in
  let text_with_ws :=
    Str.concat (map (fun t => tok_text t +:+ whitespace_ t) span) in
  match List.last (map Some span) None with
  | Some t => if String.eqb (whitespace_ t) "" then text_with_ws
              else Str.drop_last text_with_ws
  | None => text_with_ws
  end.

(** [any(kw in s for kw in keywords)] *)
Definition any_in (keywords : list string) (s : string) : bool :=
  existsb (fun kw => Str.contains kw s) keywords.

Definition newline : ascii := ascii_of_nat 10.

(** ** The keyword lists of [DocumentAnalyzer.__init__] *)

Definition tax_keywords : list string :=
  ["tax"; "penalty"; "interest"; "assessment"; "liability";
   "payment"; "amount due"; "balance"; "deficiency"; "refund"].

Definition date_keywords : list string :=
  ["deadline"; "due date"; "filing date"; "hearing"; "trial date";
   "effective date"; "tax year"; "period"].

(** ** The pattern tables *)

Module Pat.
Import Re.

Definition seq (rs : list regex) : regex := List.fold_right Cat Eps rs.

Fixpoint alts (rs : list regex) : regex :=
  match rs with
  | [] => Chr (fun _ => false)
  | [r] => r
  | r :: rs' => Alt r (alts rs')
  end.

(** [[:.]] *)
Definition colon_or_dot : regex :=
  Chr (fun c => Char.eqb c ":" || Char.eqb c ".").

(** [[A-Z0-9-]] under [re.IGNORECASE]: on 0..255 the ASCII letters, the
    digits and the hyphen.  Above 255 the engine also takes U+0130,
    U+0131, U+017F and U+212A for letters of the class. *)
Definition ident_char : regex :=
  Chr (fun c => Char.isupper_ascii c || Char.islower_ascii c
                || Char.isdigit c || Char.eqb c "-").

(** [[a-z0-9]] under [re.IGNORECASE] *)
Definition alnum_char : regex :=
  Chr (fun c => Char.islower_ascii c || Char.isupper_ascii c || Char.isdigit c).

(** [[\d,]] *)
Definition digit_or_comma : regex :=
  Chr (fun c => Char.isdigit c || Char.eqb c ",").

(** [case_patterns] of [extract_case_info], used with [re.IGNORECASE]. *)

(* Case\s+No\.?\s*[:.]?\s*([A-Z0-9-]+) *)
Definition case_no_pattern : regex :=
  seq [word_i "Case"; Plus space; word_i "No"; Opt (lit "."); Star space;
       Opt colon_or_dot; Star space; Grp (Plus ident_char)].

(* Docket\s+No\.?\s*[:.]?\s*([A-Z0-9-]+) *)
Definition docket_no_pattern : regex :=
  seq [word_i "Docket"; Plus space; word_i "No"; Opt (lit "."); Star space;
       Opt colon_or_dot; Star space; Grp (Plus ident_char)].

(* Case\s+Number\s*[:.]?\s*([A-Z0-9-]+) *)
Definition case_number_pattern : regex :=
  seq [word_i "Case"; Plus space; word_i "Number"; Star space;
       Opt colon_or_dot; Star space; Grp (Plus ident_char)].

Definition case_patterns : list regex :=
  [case_no_pattern; docket_no_pattern; case_number_pattern].

(** [money_patterns] of [extract_tax_amounts], used with [re.IGNORECASE]. *)
Definition money_patterns : list regex :=
  [ (* \$\s*[\d,]+\.?\d* *)
    seq [lit "$"; Star space; Plus digit_or_comma; Opt (lit "."); Star digit];
    (* USD\s*[\d,]+\.?\d* *)
    seq [word_i "USD"; Star space; Plus digit_or_comma; Opt (lit "."); Star digit];
    (* [\d,]+\.?\d*\s*dollars? *)
    seq [Plus digit_or_comma; Opt (lit "."); Star digit; Star space;
         word_i "dollar"; Opt (lit_i "s")] ].

(** (January|February|...|December) *)
Definition month : regex :=
  Grp (alts (map word_i
    ["January"; "February"; "March"; "April"; "May"; "June"; "July";
     "August"; "September"; "October"; "November"; "December"])).

(** [date_patterns] of [extract_dates], used with [re.IGNORECASE]. *)
Definition date_patterns : list regex :=
  [ (* \d{1,2}/\d{1,2}/\d{2,4} *)
    seq [Rep 1 2 digit; lit "/"; Rep 1 2 digit; lit "/"; Rep 2 4 digit];
    (* \d{1,2}-\d{1,2}-\d{2,4} *)
    seq [Rep 1 2 digit; lit "-"; Rep 1 2 digit; lit "-"; Rep 2 4 digit];
    (* (January|...|December)\s+\d{1,2},?\s+\d{4} *)
    seq [month; Plus space; Rep 1 2 digit; Opt (lit ","); Plus space;
         Rep 4 4 digit];
    (* \d{1,2}\s+(January|...|December)\s+\d{4} *)
    seq [Rep 1 2 digit; Plus space; month; Plus space; Rep 4 4 digit] ].

(** The source file spells the section sign as the two code points
    U+00AC U+00DF; in [U+00AC U+00DF ?] the [?] binds the second only. *)
Definition c_AC : ascii := ascii_of_nat 172.
Definition c_DF : ascii := ascii_of_nat 223.
Definition sect_sign : regex := seq [lit_i c_AC; lit_i c_DF].
Definition sect_sign_opt : regex := seq [lit_i c_AC; Opt (lit_i c_DF)].

(** (?:\([a-z0-9]+\))? *)
Definition paren_opt : regex :=
  Opt (seq [lit "("; Plus alnum_char; lit ")"]).

(** (?:\.\d+)* *)
Definition dotted : regex := Star (seq [lit "."; Plus digit]).

(** [legal_patterns] of [extract_legal_references], in the source's
    order, used with [re.IGNORECASE]. *)

(* (?:Section|Sec\.|<sect>)\s*\d+(?:\.\d+)*(?:\([a-z0-9]+\))? *)
Definition section_pattern : regex :=
  seq [alts [word_i "Section"; seq [word_i "Sec"; lit "."]; sect_sign];
       Star space; Plus digit; dotted; paren_opt].

(* \d+\s+U\.?S\.?C\.?\s*<sect>?\s*\d+ *)
Definition usc_pattern : regex :=
  seq [Plus digit; Plus space; lit_i "U"; Opt (lit "."); lit_i "S";
       Opt (lit "."); lit_i "C"; Opt (lit "."); Star space;
       sect_sign_opt; Star space; Plus digit].

(* IRC\s*<sect>?\s*\d+(?:\([a-z0-9]+\))? *)
Definition irc_pattern : regex :=
  seq [word_i "IRC"; Star space; sect_sign_opt; Star space; Plus digit;
       paren_opt].

(* \d+\s+CFR\s+\d+(?:\.\d+)* *)
Definition cfr_pattern : regex :=
  seq [Plus digit; Plus space; word_i "CFR"; Plus space; Plus digit; dotted].

(* Title\s+\d+(?:,\s*(?:Section|<sect>)\s*\d+)? *)
Definition title_pattern : regex :=
  seq [word_i "Title"; Plus space; Plus digit;
       Opt (seq [lit ","; Star space; alts [word_i "Section"; sect_sign];
                 Star space; Plus digit])].

(* (?:Pub\.|Public)\s*L\.\s*(?:No\.\s{0,})?\d+-\d+ *)
Definition public_law_pattern : regex :=
  seq [alts [seq [word_i "Pub"; lit "."]; word_i "Public"]; Star space;
       lit_i "L"; lit "."; Star space;
       Opt (seq [word_i "No"; lit "."; Star space]);
       Plus digit; lit "-"; Plus digit].

Definition legal_patterns : list (regex * string) :=
  [ (section_pattern, "Section");
    (usc_pattern, "USC Reference");
    (irc_pattern, "IRC Section");
    (cfr_pattern, "CFR Reference");
    (title_pattern, "Title Reference");
    (public_law_pattern, "Public Law") ].

(** The list-marker pattern of [extract_other_details], used with
    [re.match] and no flag: ^(?:\d+\.|[A-Z]\.|<bullet>|<asterisk>).  The source
    file spells the bullet as U+201A U+00C4 U+00A2; the first of them is
    not a code point of 0..255, so that alternative matches no text of
    the model. *)
Definition list_marker : regex :=
  alts [seq [Plus digit; lit "."];
        seq [Chr Char.isupper_ascii; lit "."];
        seq [Chr (fun _ => false); lit (ascii_of_nat 196); lit (ascii_of_nat 162)];
        lit "*"].

End Pat.

(** ** Deduplication

    The loop shared by the five extractors:
    [seen = set(); unique_results = []; for heading, content in results:
     if key not in seen: seen.add(key); unique_results.append(...)].
    The state threaded through the loop is [(seen, unique_results)]. *)

Section Dedup.
Context {K : Type} `{Countable K}.
Variable key : item -> K.

Definition dedup_step (st : gset K * list item) (it : item)
  : gset K * list item :=
  let '(seen, unique_results) := st in
  if decide (key it ∈ seen) then (seen, unique_results)
  else ({[ key it ]} ∪ seen, unique_results ++ [it]).

Definition dedup_loop (results : list item) (st : gset K * list item)
  : gset K * list item :=
  fold_left dedup_step results st.

Definition unique (results : list item) : list item :=
  snd (dedup_loop results (∅, [])).
End Dedup.

(** [key = (heading, content)] in [extract_case_info]; [content] alone in
    the other four extractors. *)
Definition pair_key (it : item) : string * string := it.
Definition content_key (it : item) : string := snd it.

(** ** [extract_case_info] *)

(** [line.strip().split(':', 1)[-1].strip() if ':' in line else line.strip()] *)
Definition party_content (line : string) : string :=
  if Str.contains ":" line
  then Str.strip (Str.last_item (Str.split1 ":" (Str.strip line)))
  else Str.strip line.

(** The body of [for line in lines[:50]]. *)
Definition case_party_step (results : list item) (line : string) : list item :=
  let line_lower := Str.lower line in
  let short := (Str.len (Str.strip line) <? 100)%nat
               && (5 <? Str.len (Str.strip line))%nat in
  if Str.contains "plaintiff" line_lower && short
  then results ++ [("Plaintiff", party_content line)]
  else if Str.contains "defendant" line_lower && short
  then results ++ [("Defendant", party_content line)]
  else if Str.contains "petitioner" line_lower && short
  then results ++ [("Petitioner", party_content line)]
  else if Str.contains "respondent" line_lower && short
  then results ++ [("Respondent", party_content line)]
  else results.

(** The body of [for pattern in case_patterns]. *)
Definition case_number_step (text : string) (results : list item)
           (pattern : Re.regex) : list item :=
  fold_left (fun results g => results ++ [("Case Number", g)])
            (Re.finditer pattern text) results.

(** The body of [for ent in doc.ents]. *)
Definition case_court_step (results : list item) (ent : Ent) : list item :=
  if String.eqb (label_ ent) "ORG"
     && any_in ["court"; "tribunal"] (Str.lower (ent_text ent))
  then results ++ [("Court", ent_text ent)]
  else results.

(** [results] of [extract_case_info] when the three loops have run. *)
Definition case_info_results (text : string) (doc : Doc) : list item :=
  let results := [] in
  let lines := Str.split newline text in
  let results := fold_left (case_number_step text) Pat.case_patterns results in
  let results := fold_left case_party_step (take 50 lines) results in
  let results := fold_left case_court_step (ents doc) results in
  results.

Definition extract_case_info (text : string) (doc : Doc) : list item :=
  take 15 (unique pair_key (case_info_results text doc)).

(** ** [extract_tax_amounts] *)

(** [for pattern in patterns: if re.search(pattern, line, re.IGNORECASE):
     results.append(it); break] *)
Fixpoint append_on_first_match (patterns : list Re.regex) (line : string)
         (it : item) (results : list item) : list item :=
  match patterns with
  | [] => results
  | pattern :: rest =>
      if Re.search pattern line then results ++ [it]
      else append_on_first_match rest line it results
  end.

(** The heading cascade of the tax line scan. *)
Definition tax_line_heading (line_lower : string) : string :=
  if Str.contains "penalty" line_lower || Str.contains "penalties" line_lower
  then "Penalty"
  else if Str.contains "interest" line_lower then "Interest"
  else if Str.contains "unpaid" line_lower || Str.contains "owed" line_lower
          || Str.contains "due" line_lower
  then "Amount Due"
  else if Str.contains "refund" line_lower then "Refund"
  else if Str.contains "assessment" line_lower then "Assessment"
  else if Str.contains "payment" line_lower then "Payment"
  else if Str.contains "liability" line_lower then "Liability"
  else if Str.contains "deficiency" line_lower then "Deficiency"
  else "Amount".

(** The body of [for line in lines]. *)
Definition tax_line_step (results : list item) (line : string) : list item :=
  let line_lower := Str.lower line in
  let line_stripped := Str.strip line in
  if (Str.len line_stripped <? 10)%nat || (200 <? Str.len line_stripped)%nat
  then results
  else
    let heading := tax_line_heading line_lower in
    if any_in tax_keywords line_lower
    then append_on_first_match Pat.money_patterns line
                               (heading, line_stripped) results
    else results.

(** The body of [for ent in doc.ents]. *)
Definition tax_ent_step (doc : Doc) (results : list item) (ent : Ent)
  : list item :=
  if String.eqb (label_ ent) "MONEY" then
    let start := Nat.max 0 (ent_start ent - 10) in
    let end_ := Nat.min (doc_len doc) (ent_end ent + 10) in
    let context := Str.strip (span_text doc start end_) in
    let context_lower := Str.lower context in
    if any_in tax_keywords context_lower && (Str.len context <? 200)%nat then
      let heading :=
        if Str.contains "penalty" context_lower then "Penalty"
        else if Str.contains "interest" context_lower then "Interest"
        else if Str.contains "due" context_lower
                || Str.contains "owed" context_lower then "Amount Due"
        else "Amount" in
      results ++ [(heading, context)]
    else results
  else results.

Definition tax_amounts_results (text : string) (doc : Doc) : list item :=
  let results := [] in
  let lines := Str.split newline text in
  let results := fold_left tax_line_step lines results in
  let results := fold_left (tax_ent_step doc) (ents doc) results in
  results.

Definition extract_tax_amounts (text : string) (doc : Doc) : list item :=
  take 20 (unique content_key (tax_amounts_results text doc)).

(** ** [extract_dates] *)

(** The heading cascade of the date line scan. *)
Definition date_line_heading (line_lower : string) : string :=
  if Str.contains "deadline" line_lower then "Deadline"
  else if Str.contains "due date" line_lower
          || Str.contains "filing date" line_lower then "Filing Date"
  else if Str.contains "hearing" line_lower then "Hearing Date"
  else if Str.contains "trial" line_lower then "Trial Date"
  else if Str.contains "effective" line_lower then "Effective Date"
  else if Str.contains "tax year" line_lower
          || Str.contains "taxable year" line_lower then "Tax Year"
  else "Date".

(** The body of [for line in lines]. *)
Definition date_line_step (results : list item) (line : string) : list item :=
  let line_lower := Str.lower line in
  let line_stripped := Str.strip line in
  if (Str.len line_stripped <? 10)%nat || (200 <? Str.len line_stripped)%nat
  then results
  else
    let heading := date_line_heading line_lower in
    if any_in date_keywords line_lower
    then append_on_first_match Pat.date_patterns line
                               (heading, line_stripped) results
    else results.

(** The body of [for ent in doc.ents]. *)
Definition date_ent_step (doc : Doc) (results : list item) (ent : Ent)
  : list item :=
  if String.eqb (label_ ent) "DATE" then
    let start := Nat.max 0 (ent_start ent - 8) in
    let end_ := Nat.min (doc_len doc) (ent_end ent + 8) in
    let context := Str.strip (span_text doc start end_) in
    let context_lower := Str.lower context in
    if any_in date_keywords context_lower && (Str.len context <? 200)%nat then
      let heading :=
        if Str.contains "deadline" context_lower then "Deadline"
        else if Str.contains "filing" context_lower then "Filing Date"
        else "Date" in
      results ++ [(heading, context)]
    else results
  else results.

Definition dates_results (text : string) (doc : Doc) : list item :=
  let results := [] in
  let lines := Str.split newline text in
  let results := fold_left date_line_step lines results in
  let results := fold_left (date_ent_step doc) (ents doc) results in
  results.

Definition extract_dates (text : string) (doc : Doc) : list item :=
  take 20 (unique content_key (dates_results text doc)).

(** ** [extract_legal_references] *)

(** [for pattern, heading in legal_patterns: if re.search(...):
     results.append((heading, line_stripped)); break] *)
Fixpoint legal_first_match (patterns : list (Re.regex * string))
         (line line_stripped : string) (results : list item) : list item :=
  match patterns with
  | [] => results
  | (pattern, heading) :: rest =>
      if Re.search pattern line then results ++ [(heading, line_stripped)]
      else legal_first_match rest line line_stripped results
  end.

(** The body of [for line in lines]. *)
Definition legal_line_step (results : list item) (line : string) : list item :=
  let line_stripped := Str.strip line in
  if (Str.len line_stripped <? 10)%nat || (200 <? Str.len line_stripped)%nat
  then results
  else legal_first_match Pat.legal_patterns line line_stripped results.

Definition legal_refs_results (text : string) : list item :=
  let results := [] in
  let lines := Str.split newline text in
  fold_left legal_line_step lines results.

Definition extract_legal_references (text : string) : list item :=
  take 25 (unique content_key (legal_refs_results text)).

(** ** [extract_other_details] *)

(** The body of [for line in lines]. *)
Definition other_line_step (results : list item) (line : string) : list item :=
  let line_stripped := Str.strip line in
  if (20 <? Str.len line_stripped)%nat && (Str.len line_stripped <? 150)%nat
  then if Re.matches Pat.list_marker line_stripped
       then results ++ [("Key Point", line_stripped)]
       else results
  else results.

(** The body of [for ent in doc.ents]: both branches test [len(results)],
    the length of the whole list collected so far. *)
Definition other_ent_step (results : list item) (ent : Ent) : list item :=
  if String.eqb (label_ ent) "PERSON" && (List.length results <? 30)%nat
  then results ++ [("Person", ent_text ent)]
  else if String.eqb (label_ ent) "ORG" && (List.length results <? 30)%nat
  then if negb (Str.contains "court" (Str.lower (ent_text ent)))
       then results ++ [("Organization", ent_text ent)]
       else results
  else results.

(** [results] after the line scan, and after the entity scan. *)
Definition other_line_results (text : string) : list item :=
  fold_left other_line_step (Str.split newline text) [].

Definition other_results (text : string) (doc : Doc) : list item :=
  fold_left other_ent_step (ents doc) (other_line_results text).

Definition extract_other_details (text : string) (doc : Doc) : list item :=
  take 15 (unique content_key (other_results text doc)).

(** ** [analyze_document] *)

Inductive exn : Type :=
| ValueError (msg : string).

Inductive outcome (A : Type) : Type :=
| Raise (e : exn)
| Return (a : A).
Arguments Raise {A} e.
Arguments Return {A} a.

Definition max_length : Z := 1000000.

(** The dict literal that [analyze_document] returns. *)
Definition results_dict (text : string) (doc : Doc) : gmap string (list item) :=
  <[ "case_info" := extract_case_info text doc ]>
  (<[ "tax_amounts" := extract_tax_amounts text doc ]>
  (<[ "dates" := extract_dates text doc ]>
  (<[ "legal_refs" := extract_legal_references text ]>
  (<[ "other" := extract_other_details text doc ]> ∅)))).

Section Analyze.
(** The spaCy pipeline. *)
Variable nlp : string -> Doc.

(** The text that reaches [nlp] and the extractors. *)
Definition truncate (text : string) : string :=
  if (Z.of_nat (Str.len text) >? max_length)%Z
  then Str.take (Z.to_nat max_length) text
  else text.

Definition analyze_document (text : string)
  : outcome (gmap string (list item)) :=
  if String.eqb text "" || (Str.len (Str.strip text) <? 100)%nat
  then Raise (ValueError "Document text is too short or empty")
  else
    let text := truncate text in
    let doc := nlp text in
    Return (results_dict text doc).
End Analyze.

(** ** The properties as the specification words them *)

(** First-occurrence order: an item is kept and every later item with the
    same dedup key is dropped. *)
Fixpoint first_occurrences {K : Type} `{EqDecision K} (key : item -> K)
         (l : list item) : list item :=
  match l with
  | [] => []
  | x :: l' => x :: filter (fun y => key y ≠ key x) (first_occurrences key l')
  end.

(** What the specification asks of a category's list [out], given the
    stream [stream] of collected items, the dedup key and the cap. *)
Definition category_ok {K : Type} `{EqDecision K} (key : item -> K)
           (cap : nat) (stream out : list item) : Prop :=
  NoDup (key <$> out)
  ∧ (List.length out ≤ cap)%nat
  ∧ out = take cap (first_occurrences key stream)
  ∧ sublist out stream.

(** The dedup loop started from a given [seen] set, as a recursion on the
    stream. *)
Fixpoint unique_from {K : Type} `{Countable K} (key : item -> K)
         (seen : gset K) (l : list item) : list item :=
  match l with
  | [] => []
  | x :: l' =>
      if decide (key x ∈ seen) then unique_from key seen l'
      else x :: unique_from key ({[ key x ]} ∪ seen) l'
  end.

(** A keyword-priority cascade as a decision table: the first row one of
    whose keywords occurs in [s] gives the heading. *)
Fixpoint first_heading (table : list (list string * string))
         (default s : string) : string :=
  match table with
  | [] => default
  | (keywords, heading) :: rest =>
      if any_in keywords s then heading else first_heading rest default s
  end.

Definition tax_heading_table : list (list string * string) :=
  [ (["penalty"; "penalties"], "Penalty");
    (["interest"], "Interest");
    (["unpaid"; "owed"; "due"], "Amount Due");
    (["refund"], "Refund");
    (["assessment"], "Assessment");
    (["payment"], "Payment");
    (["liability"], "Liability");
    (["deficiency"], "Deficiency") ].

Definition date_heading_table : list (list string * string) :=
  [ (["deadline"], "Deadline");
    (["due date"; "filing date"], "Filing Date");
    (["hearing"], "Hearing Date");
    (["trial"], "Trial Date");
    (["effective"], "Effective Date");
    (["tax year"; "taxable year"], "Tax Year") ].

(** [any(re.search(p, line) for p in patterns)] *)
Definition any_search (patterns : list Re.regex) (line : string) : bool :=
  existsb (fun p => Re.search p line) patterns.

(** The heading of the first pattern of an ordered table that matches. *)
Fixpoint first_pattern_heading (patterns : list (Re.regex * string))
         (line : string) : option string :=
  match patterns with
  | [] => None
  | (pattern, heading) :: rest =>
      if Re.search pattern line then Some heading
      else first_pattern_heading rest line
  end.

(** The length window of the tax, date and legal line scans as the code
    tests it, and read as an open interval ("strictly between 10 and
    200"). *)
Definition in_window (line : string) : bool :=
  (10 <=? Str.len (Str.strip line))%nat && (Str.len (Str.strip line) <=? 200)%nat.

Definition strictly_in_window (line : string) : bool :=
  (10 <? Str.len (Str.strip line))%nat && (Str.len (Str.strip line) <? 200)%nat.

(** The items the entity scan of [extract_other_details] can add. *)
Definition other_ent_items (es : list Ent) : list item :=
  flat_map (fun ent =>
    if String.eqb (label_ ent) "PERSON" then [("Person", ent_text ent)]
    else if String.eqb (label_ ent) "ORG"
            && negb (Str.contains "court" (Str.lower (ent_text ent)))
    then [("Organization", ent_text ent)]
    else []) es.

(** The entity scan of [extract_other_details] as the specification words
    its gate: the count that is compared with 30 is the number of items
    added by the entity scan itself. *)
Definition other_ent_step_as_specified (st : list item * nat) (ent : Ent)
  : list item * nat :=
  let '(results, added) := st in
  if String.eqb (label_ ent) "PERSON" && (added <? 30)%nat
  then (results ++ [("Person", ent_text ent)], S added)
  else if String.eqb (label_ ent) "ORG" && (added <? 30)%nat
  then if negb (Str.contains "court" (Str.lower (ent_text ent)))
       then (results ++ [("Organization", ent_text ent)], S added)
       else st
  else st.

Definition other_results_as_specified (text : string) (doc : Doc) : list item :=
  fst (fold_left other_ent_step_as_specified (ents doc)
                 (other_line_results text, 0)).

(** The passes of each extractor, each run on an empty [results]: the
    scan of the text (patterns and lines), and the scan of [doc.ents]. *)
Definition case_text_pass (text : string) : list item :=
  fold_left case_party_step (take 50 (Str.split newline text))
            (fold_left (case_number_step text) Pat.case_patterns []).

Definition case_entity_pass (doc : Doc) : list item :=
  fold_left case_court_step (ents doc) [].

Definition tax_text_pass (text : string) : list item :=
  fold_left tax_line_step (Str.split newline text) [].

Definition tax_entity_pass (doc : Doc) : list item :=
  fold_left (tax_ent_step doc) (ents doc) [].

Definition date_text_pass (text : string) : list item :=
  fold_left date_line_step (Str.split newline text) [].

Definition date_entity_pass (doc : Doc) : list item :=
  fold_left (date_ent_step doc) (ents doc) [].

(** The matches of the three case-number patterns, pattern by pattern. *)
Definition case_number_items (text : string) : list item :=
  flat_map (fun pattern =>
              map (fun g => ("Case Number", g)) (Re.finditer pattern text))
           Pat.case_patterns.

(** ** Sample documents *)

Definition nl : string := String newline "".

(** The lines of a document, each ended by a newline. *)
Definition unlines (ls : list string) : string :=
  Str.concat (map (fun l => l +:+ nl) ls).

(** A recognizer that finds no token and no entity. *)
Definition no_entities (_ : string) : Doc := mkDoc [] [].

(** A line of 103 characters that no extractor reacts to. *)
Definition filler : string :=
  "This document is a notice of the matters listed above and it is long enough to be analysed by the tool.".

(** Decimal numeral of [n]. *)
Definition numeral (n : nat) : string :=
  DecimalString.NilEmpty.string_of_uint (Nat.to_uint n).

(** A string of [n] copies of [c]. *)
Fixpoint replicate_char (n : nat) (c : ascii) : string :=
  match n with
  | O => EmptyString
  | S n' => String c (replicate_char n' c)
  end.

(** A text of 1,000,001 characters. *)
Definition long_text : string := replicate_char (Z.to_nat 1000001) "a".

(** A small notice that every extractor finds something in. *)
Definition notice : string :=
  unlines [ "Case No.: 2024-TX-00123";
            "Plaintiff:";
            "Penalty assessed: $1,250.00 due immediately";
            "Filing deadline: 04/15/2024";
            "See Section 501(c)(3) for exemption details";
            "Penalty assessed: $1,250.00 due immediately";
            "1. the first numbered key point of it";
            filler ].

(** Thirty times the same list item, then the filler line. *)
Definition key_point_line : string := "1. the first numbered key point of it".

Definition thirty_key_points : string :=
  unlines (replicate 30 key_point_line ++ [filler]).

(** A recognizer that finds one person. *)
Definition one_person (_ : string) : Doc :=
  mkDoc [mkToken "John" " "; mkToken "Smith" ""]
        [mkEnt "PERSON" "John Smith" 0 2].

(** The lines of the specification's scenarios. *)
Definition penalty_line : string := "Penalty assessed: $1,250.00 due immediately".
Definition deadline_line : string := "Filing deadline: 04/15/2024".
Definition case_no_line : string := "Case No.: 2024-TX-00123".
Definition section_line : string := "See Section 501(c)(3) for exemption details".

(** A line with the keywords of two rows of the date cascade. *)
Definition filing_date_deadline_line : string :=
  "Filing date deadline: 04/15/2024".

(** A line that both the Section and the Title pattern match. *)
Definition title_and_section_line : string := "Title 26, Section 501 applies".

(** Twenty dated lines with distinct contents, then the deadline line. *)
Definition hearing_line (n : nat) : string :=
  "hearing on 01/02/" +:+ numeral (2000 + n).

Definition late_deadline : string :=
  unlines (map hearing_line (seq 1 20) ++ [deadline_line; filler]).

(** Twenty-five section lines with distinct contents, then the section
    line of the scenario. *)
Definition numbered_section_line (n : nat) : string :=
  "Section " +:+ numeral (100 + n) +:+ " applies".

Definition late_section : string :=
  unlines (map numbered_section_line (seq 1 25) ++ [section_line; filler]).

(** A header cut after "Case No." that runs into the case-number line. *)
Definition split_header : string :=
  unlines ["Case No."; case_no_line; filler].

(** Fifteen case-number lines with distinct identifiers before the
    case-number line of the scenario. *)
Definition earlier_case_line (n : nat) : string :=
  "Case No. D-" +:+ numeral (100 + n).

Definition late_case_no : string :=
  unlines (filler :: map earlier_case_line (seq 1 15) ++ [case_no_line]).

(** A complaint whose first line is the bare role with its colon. *)
Definition plaintiff_header : string := unlines ["Plaintiff:"; filler].

(** A line about a syntax error and its cost. *)
Definition syntax_line : string := "the syntax error costs $5 now".
Definition syntax_notice : string := unlines [syntax_line; filler].

(** What follows a complete line: the end of the text or a newline. *)
Definition at_line_end (tail : string) : bool :=
  match tail with
  | EmptyString => true
  | String c _ => Char.eqb c newline
  end.

(** ** The rest of [main.py]: text extraction, the HTML report and the
    [/analyze] endpoint *)

(** More [str] methods. *)
Module StrExt.

(** [s.endswith(suffix)] *)
Fixpoint endswith (suffix s : string) : bool :=
  String.eqb suffix s ||
  match s with
  | EmptyString => false
  | String _ s' => endswith suffix s'
  end.

(** [s.endswith((a, b, ...))] *)
Definition endswith_any (suffixes : list string) (s : string) : bool :=
  existsb (fun suffix => endswith suffix s) suffixes.

(** [sep.join(l)] *)
Fixpoint join (sep : string) (l : list string) : string :=
  match l with
  | [] => EmptyString
  | [x] => x
  | x :: rest => x +:+ sep +:+ join sep rest
  end.

(** [s.split()]: the maximal runs of non-whitespace characters. *)
Fixpoint split_ws (s : string) : list string :=
  match s with
  | EmptyString => []
  | String c s' =>
      if Char.isspace c then split_ws s'
      else match s' with
           | EmptyString => [String c EmptyString]
           | String d _ =>
               if Char.isspace d then String c EmptyString :: split_ws s'
               else match split_ws s' with
                    | w :: ws => String c w :: ws
                    | [] => [String c EmptyString]
                    end
           end
  end.

End StrExt.

(** What a Python callee can raise here: [ValueError], a plain
    [Exception], and FastAPI's [HTTPException]. *)
Inductive raised : Type :=
| RValueError (msg : string)
| RException (msg : string)
| RHTTPException (status_code : nat) (detail : string).

(** What the client receives: the page, or the status and detail of the
    [HTTPException] that leaves the handler. *)
Inductive response : Type :=
| HTMLResponse (content : string)
| HTTPError (status_code : nat) (detail : string).

(** The first token of each title in [format_results_html] is an icon
    whose code points lie outside 0..255; the five icons are parameters. *)
Record Icons : Type := mkIcons {
  icon_case_info : string;
  icon_tax_amounts : string;
  icon_dates : string;
  icon_legal_refs : string;
  icon_other : string
}.

(** The double quote, and the opening tags [<div class="c">] and
    [<span class="c">]. *)
Definition dq : string := String (ascii_of_nat 34) EmptyString.
Definition div_open (c : string) : string := "<div class=" +:+ dq +:+ c +:+ dq +:+ ">".
Definition span_open (c : string) : string := "<span class=" +:+ dq +:+ c +:+ dq +:+ ">".

Module Api.

Section Handlers.
(** The spaCy pipeline. *)
Variable nlp : string -> Doc.
(** PyMuPDF: [str(page.get_text())] of each page of the opened document,
    or [str(e)] of the exception that opening or reading raises. *)
Variable pdf_page_texts : list Byte.byte -> string + list string.
(** python-docx: [para.text] of each paragraph, or [str(e)] of the
    exception that opening raises. *)
Variable docx_paragraph_texts : list Byte.byte -> string + list string.
(** [str(e)] of an [HTTPException], which depends on the Starlette
    version. *)
Variable http_exception_str : nat -> string -> string.
Variable icons : Icons.

(** [str(e)] *)
Definition str_of (e : raised) : string :=
  match e with
  | RValueError msg => msg
  | RException msg => msg
  | RHTTPException status_code detail => http_exception_str status_code detail
  end.

(** [DocumentAnalyzer.extract_text_from_pdf] *)
Definition extract_text_from_pdf (file_bytes : list Byte.byte)
  : raised + string :=
  match pdf_page_texts file_bytes with
  | inr pages => inr (fold_left (fun text page => text +:+ page) pages "")
  | inl e => inl (RException ("Error extracting PDF: " +:+ e))
  end.

(** [DocumentAnalyzer.extract_text_from_docx] *)
Definition extract_text_from_docx (file_bytes : list Byte.byte)
  : raised + string :=
  match docx_paragraph_texts file_bytes with
  | inr paragraphs => inr (StrExt.join nl paragraphs)
  | inl e => inl (RException ("Error extracting DOCX: " +:+ e))
  end.

Definition categories : list (string * string * string) :=
  [ ("case_info", icon_case_info icons +:+ " Case Information",
     "No case information found");
    ("tax_amounts", icon_tax_amounts icons +:+ " Tax Amounts / Penalties",
     "No tax amounts found");
    ("dates", icon_dates icons +:+ " Important Dates / Deadlines",
     "No dates found");
    ("legal_refs", icon_legal_refs icons +:+ " Legal References",
     "No legal references found");
    ("other", icon_other icons +:+ " Other Key Details",
     "No additional details found") ].

(** The body of [for heading, content in items]. *)
Definition format_item_step (html_parts : list string) (it : item)
  : list string :=
  let '(heading, content) := it in
  html_parts
  ++ [ div_open "item-card";
       div_open "item-heading" +:+ heading +:+ "</div>";
       div_open "item-content" +:+ content +:+ "</div>";
       "</div>" ].

(** The body of [for key, title, empty_msg in categories].  A title has
    the words of the category name, so [title.split()[0]] exists. *)
Definition format_category_step (results : gmap string (list item))
           (html_parts : list string) (category : string * string * string)
  : list string :=
  let '(key, title, empty_msg) := category in
  let items := default [] (results !! key) in
  let html_parts :=
    html_parts
    ++ [ div_open "category";
         div_open "category-header";
         span_open "category-icon" +:+ hd "" (StrExt.split_ws title) +:+ "</span>";
         "<span>" +:+ StrExt.join " " (tl (StrExt.split_ws title)) +:+ "</span>";
         "</div>";
         div_open "category-content" ] in
  let html_parts :=
    match items with
    | _ :: _ =>
        fold_left format_item_step items (html_parts ++ [div_open "items-grid"])
        ++ ["</div>"]
    | [] => html_parts ++ [div_open "empty-state" +:+ empty_msg +:+ "</div>"]
    end in
  html_parts ++ ["</div>"; "</div>"].

(** [html_parts] when the loop over the categories has run. *)
Definition html_parts_of (results : gmap string (list item)) : list string :=
  fold_left (format_category_step results) categories [].

Definition format_results_html (results : gmap string (list item)) : string :=
  StrExt.join nl (html_parts_of results).

(** [file.filename] is present and ends, letter case apart, with [.pdf]
    or [.docx]. *)
Definition supported_name (filename : option string) : bool :=
  match filename with
  | None => false
  | Some name =>
      negb (String.eqb name "")
      && StrExt.endswith_any [".pdf"; ".docx"] (Str.lower name)
  end.

(** The extractor that the handler picks for a file name. *)
Definition extracted_text (name : string) (file_bytes : list Byte.byte)
  : raised + string :=
  if StrExt.endswith ".pdf" (Str.lower name)
  then extract_text_from_pdf file_bytes
  else extract_text_from_docx file_bytes.

(** The [try] block of the [/analyze] handler. *)
Definition analyze_body (filename : option string)
           (file_bytes : list Byte.byte) : raised + string :=
  match filename with
  | None => inl (RHTTPException 400 "Only PDF and DOCX files are supported")
  | Some name =>
      if String.eqb name ""
         || negb (StrExt.endswith_any [".pdf"; ".docx"] (Str.lower name))
      then inl (RHTTPException 400 "Only PDF and DOCX files are supported")
      else if (List.length file_bytes =? 0)%nat
      then inl (RHTTPException 400 "Empty file uploaded")
      else
        match extracted_text name file_bytes with
        | inl e => inl e
        | inr text =>
            match analyze_document nlp text with
            | Raise (ValueError msg) => inl (RValueError msg)
            | Return results => inr (format_results_html results)
            end
        end
  end.

(** The [/analyze] handler with its two [except] clauses. *)
Definition analyze_document (filename : option string)
           (file_bytes : list Byte.byte) : response :=
  match analyze_body filename file_bytes with
  | inr html => HTMLResponse html
  | inl (RValueError msg) => HTTPError 400 msg
  | inl e => HTTPError 500 ("Error processing document: " +:+ str_of e)
  end.

End Handlers.
End Api.

(** ** What a pattern can match

    [derives r u g g']: the pattern [r] matches exactly the string [u],
    and the text of group 1 goes from [g] to [g']. *)
Inductive derives : Re.regex -> string -> string -> string -> Prop :=
| derives_eps (g : string) : derives Re.Eps "" g g
| derives_chr (p : ascii -> bool) (c : ascii) (g : string) :
    p c = true -> derives (Re.Chr p) (String c "") g g
| derives_cat (r1 r2 : Re.regex) (u v g g1 g2 : string) :
    derives r1 u g g1 -> derives r2 v g1 g2 ->
    derives (Re.Cat r1 r2) (u +:+ v) g g2
| derives_alt_l (r1 r2 : Re.regex) (u g g' : string) :
    derives r1 u g g' -> derives (Re.Alt r1 r2) u g g'
| derives_alt_r (r1 r2 : Re.regex) (u g g' : string) :
    derives r2 u g g' -> derives (Re.Alt r1 r2) u g g'
| derives_star_stop (r : Re.regex) (g : string) : derives (Re.Star r) "" g g
| derives_star_more (r : Re.regex) (u v g g1 g2 : string) :
    derives r u g g1 -> derives (Re.Star r) v g1 g2 ->
    derives (Re.Star r) (u +:+ v) g g2
| derives_grp (r : Re.regex) (u g g1 : string) :
    derives r u g g1 -> derives (Re.Grp r) u g u.

(** Some character of [s] passes the test [P]; all of them do. *)
Fixpoint has_char (P : ascii -> bool) (s : string) : bool :=
  match s with
  | EmptyString => false
  | String c s' => P c || has_char P s'
  end.

Fixpoint all_char (P : ascii -> bool) (s : string) : bool :=
  match s with
  | EmptyString => true
  | String c s' => P c && all_char P s'
  end.

(** The 256 characters of the model. *)
Definition all_chars : list ascii := map ascii_of_nat (seq 0 256).

(** A sufficient test that every string matched by [r] has a character
    that passes [P]. *)
Fixpoint always_has (P : ascii -> bool) (r : Re.regex) : bool :=
  match r with
  | Re.Eps => false
  | Re.Chr p => forallb (fun c => implb (p c) (P c)) all_chars
  | Re.Cat r1 r2 => always_has P r1 || always_has P r2
  | Re.Alt r1 r2 => always_has P r1 && always_has P r2
  | Re.Star _ => false
  | Re.Grp r1 => always_has P r1
  end.

(** The character tests of the scans: [[\d,]] and [[A-Za-z0-9-]]. *)
Definition is_digit_or_comma (c : ascii) : bool :=
  Char.isdigit c || Char.eqb c ",".

Definition is_ident_char (c : ascii) : bool :=
  Char.isupper_ascii c || Char.islower_ascii c || Char.isdigit c
  || Char.eqb c "-".

(** The number of parts that the report gives to the items of a category:
    the empty-state line, or the grid with four lines for a card. *)
Definition grid_lines (items : list item) : nat :=
  match items with
  | [] => 1
  | _ :: _ => 2 + 4 * List.length items
  end.

(** The five category keys, in the report's order. *)
Definition category_keys : list string :=
  ["case_info"; "tax_amounts"; "dates"; "legal_refs"; "other"].

(** The content of an item of a line scan: the trimmed form of a line of
    the text. *)
Definition is_line_of (text : string) (it : item) : Prop :=
  exists line, line ∈ Str.split newline text ∧ snd it = Str.strip line.

(** A text whose plaintiff is named on line 51. *)
Definition late_plaintiff : string :=
  unlines (replicate 50 filler ++ ["Plaintiff: John Smith"]).

(** Stand-ins for the collaborators of the handler: icons, a PDF reader
    that finds the notice on one page, a DOCX reader that fails, and
    [str] of an [HTTPException] as "status: detail". *)
Definition plain_icons : Icons := mkIcons "#" "$" "@" "%" "&".
Definition one_page_pdf (_ : list Byte.byte) : string + list string :=
  inr [notice].
Definition broken_docx (_ : list Byte.byte) : string + list string :=
  inl "File is not a zip file".
Definition status_and_detail (status_code : nat) (detail : string) : string :=
  numeral status_code +:+ ": " +:+ detail.

(** ** Further sample documents and measures *)

(** 1,000,000 blanks and then 100 letters: longer than the bound, and
    valid as a whole. *)
Definition blank_head : string :=
  replicate_char (Z.to_nat max_length) " " +:+ replicate_char 100 "a".

(** A notice whose case-number line is the second line. *)
Definition headed_notice : string :=
  unlines ["Notice of deficiency"; case_no_line; filler].

(** The syntax line with its keyword spoilt. *)
Definition syntx_line : string := "the syntx error costs $5 now".
Definition syntx_notice : string := unlines [syntx_line; filler].

(** [s.isascii()] *)
Definition isascii (s : string) : bool :=
  all_char (fun c => (Char.code c <? 128)%N) s.

(** [s.count('\n')], and the line breaks in the two texts of an item. *)
Fixpoint line_breaks (s : string) : nat :=
  match s with
  | EmptyString => 0
  | String c s' => (if Char.eqb c newline then 1 else 0) + line_breaks s'
  end.

Definition item_line_breaks (it : item) : nat :=
  line_breaks (fst it) + line_breaks (snd it).

(** [len(page.split('\n'))]: the lines of a page. *)
Definition page_lines (page : string) : nat :=
  List.length (Str.split newline page).

(** The line breaks inside the items of the five categories. *)
Definition result_line_breaks (results : gmap string (list item)) : nat :=
  sum_list_with (fun key =>
                   sum_list_with item_line_breaks (default [] (results !! key)))
                category_keys.

(** * Proofs *)

#[local] Arguments String.append !_ _ / : simpl nomatch.

(** * Facts about the loops *)

(** A loop whose body only appends is a [flat_map]. *)
Lemma fold_left_emit {A : Type} (step : list item -> A -> list item)
      (emit : A -> list item) :
  (forall results x, step results x = results ++ emit x) ->
  forall xs results, fold_left step xs results = results ++ flat_map emit xs.
Proof.
  intros Hstep xs. induction xs as [|x xs IH]; intros results; simpl.
  - by rewrite app_nil_r.
  - rewrite IH, Hstep. by rewrite <- app_assoc.
Qed.

Section DedupFacts.
Context {K : Type} `{Countable K}.
Variable key : item -> K.

Lemma dedup_loop_unique_from (l : list item) (seen : gset K) (acc : list item) :
  snd (dedup_loop key l (seen, acc)) = acc ++ unique_from key seen l.
Proof.
  revert seen acc. induction l as [|x l IH]; intros seen acc; simpl.
  - by rewrite app_nil_r.
  - unfold dedup_loop in *. simpl. destruct (decide (key x ∈ seen)).
    + apply IH.
    + rewrite IH. by rewrite <- app_assoc.
Qed.

Lemma unique_unique_from (l : list item) : unique key l = unique_from key ∅ l.
Proof. unfold unique. by rewrite dedup_loop_unique_from. Qed.

Lemma unique_from_sublist (l : list item) (seen : gset K) :
  sublist (unique_from key seen l) l.
Proof.
  revert seen. induction l as [|x l IH]; intros seen; simpl.
  - constructor.
  - destruct (decide (key x ∈ seen)).
    + by apply sublist_cons.
    + by apply sublist_skip.
Qed.

Lemma unique_from_fresh (l : list item) (seen : gset K) (y : item) :
  y ∈ unique_from key seen l -> key y ∉ seen.
Proof.
  revert seen. induction l as [|x l IH]; intros seen; simpl.
  - by intros ?%elem_of_nil.
  - destruct (decide (key x ∈ seen)).
    + apply IH.
    + intros [->|Hy]%elem_of_cons; [done|].
      apply IH in Hy. set_solver.
Qed.

Lemma unique_from_NoDup (l : list item) (seen : gset K) :
  NoDup (key <$> unique_from key seen l).
Proof.
  revert seen. induction l as [|x l IH]; intros seen; simpl.
  - constructor.
  - destruct (decide (key x ∈ seen)); [apply IH|].
    rewrite fmap_cons. constructor; [|apply IH].
    intros (y & Hk & Hy)%list_elem_of_fmap.
    apply unique_from_fresh in Hy. set_solver.
Qed.

Lemma unique_from_first_occurrences (l : list item) (seen : gset K) :
  unique_from key seen l
  = filter (fun y => key y ∉ seen) (first_occurrences key l).
Proof.
  revert seen. induction l as [|x l IH]; intros seen; simpl; [done|].
  destruct (decide (key x ∈ seen)) as [Hin|Hin].
  - rewrite filter_cons_False by (intros ?; done).
    rewrite IH, list_filter_filter. apply list_filter_iff.
    intros y. split; [|tauto]. intros Hy. split; [done|congruence].
  - rewrite filter_cons_True by done. f_equal.
    rewrite IH, list_filter_filter. apply list_filter_iff.
    intros y. rewrite not_elem_of_union, not_elem_of_singleton. tauto.
Qed.

Lemma unique_first_occurrences (l : list item) :
  unique key l = first_occurrences key l.
Proof.
  rewrite unique_unique_from, unique_from_first_occurrences.
  induction (first_occurrences key l) as [|y l' IH]; [done|].
  rewrite filter_cons_True by set_solver. by f_equal.
Qed.

(** An item of the first part of the stream that is the only one of its
    key there survives deduplication. *)
Lemma unique_from_keeps (l1 l2 : list item) (seen : gset K) (x : item) :
  x ∈ l1 -> key x ∉ seen ->
  (forall y, y ∈ l1 -> key y = key x -> y = x) ->
  x ∈ unique_from key seen (l1 ++ l2).
Proof.
  revert seen. induction l1 as [|y l1 IH]; intros seen Hx Hseen Honly; simpl.
  - by apply elem_of_nil in Hx.
  - destruct (decide (key y ∈ seen)) as [Hy|Hy].
    + apply IH; [|done|].
      * apply elem_of_cons in Hx as [->|Hx]; done.
      * intros z Hz. apply Honly. by right.
    + destruct (decide (key y = key x)) as [Heq|Hne].
      * rewrite (Honly y) by (done || by left). by left.
      * right. apply IH.
        -- apply elem_of_cons in Hx as [->|Hx]; done.
        -- rewrite not_elem_of_union, not_elem_of_singleton.
           split; [congruence|done].
        -- intros z Hz. apply Honly. by right.
Qed.

(** The list an extractor returns meets the specification of a category. *)
Lemma take_unique_category_ok (cap : nat) (stream : list item) :
  category_ok key cap stream (take cap (unique key stream)).
Proof.
  unfold category_ok. repeat split.
  - rewrite fmap_take. apply (sublist_NoDup _ (key <$> unique key stream)).
    + rewrite unique_unique_from. apply unique_from_NoDup.
    + apply sublist_take.
  - rewrite length_take. lia.
  - by rewrite unique_first_occurrences.
  - etrans; [apply sublist_take|].
    rewrite unique_unique_from. apply unique_from_sublist.
Qed.

End DedupFacts.

(** * Facts about strings *)


Lemma len_app (s t : string) : Str.len (s +:+ t) = (Str.len s + Str.len t)%nat.
Proof. induction s as [|c s IH]; simpl; [done|]. unfold Str.len in *. simpl. lia. Qed.

Lemma len_take (n : nat) (s : string) :
  Str.len (Str.take n s) = Nat.min n (Str.len s).
Proof.
  revert s. induction n as [|n IH]; intros [|c s]; simpl; try done.
  unfold Str.len in *. simpl. by rewrite IH.
Qed.

Lemma take_all (n : nat) (s : string) :
  (Str.len s <= n)%nat -> Str.take n s = s.
Proof.
  revert s. induction n as [|n IH]; intros [|c s]; unfold Str.len; simpl; intros Hn;
    try done; try lia.
  f_equal. apply IH. unfold Str.len. lia.
Qed.

Lemma take_take (n : nat) (s : string) :
  Str.take n (Str.take n s) = Str.take n s.
Proof. apply take_all. rewrite len_take. lia. Qed.

Lemma take_app_exact (s t : string) : Str.take (Str.len s) (s +:+ t) = s.
Proof.
  unfold Str.len. induction s as [|c s IH]; simpl; [done|]. by rewrite IH.
Qed.

Lemma lstrip_suffix (s : string) : exists pre, s = pre +:+ Str.lstrip s.
Proof.
  induction s as [|c s [pre IH]]; simpl.
  - by exists "".
  - destruct (Char.isspace c).
    + exists (String c pre). simpl. by f_equal.
    + by exists "".
Qed.

Lemma rstrip_prefix (s : string) : exists post, s = Str.rstrip s +:+ post.
Proof.
  induction s as [|c s [post IH]]; simpl.
  - by exists "".
  - destruct (Str.rstrip s) as [|d r] eqn:Hr.
    + destruct (Char.isspace c).
      * exists (String c s). done.
      * exists s. done.
    + exists post. simpl in *. by f_equal.
Qed.

Lemma app_assoc_str (a b c : string) : (a +:+ b) +:+ c = a +:+ (b +:+ c).
Proof. induction a as [|x a IH]; simpl; [done|by f_equal]. Qed.

(** A line is its trimmed form between two margins. *)
Lemma strip_decompose (s : string) :
  exists pre post, s = pre +:+ (Str.strip s +:+ post).
Proof.
  destruct (lstrip_suffix s) as [pre Hpre].
  destruct (rstrip_prefix (Str.lstrip s)) as [post Hpost].
  exists pre, post. unfold Str.strip. by rewrite <- Hpost.
Qed.

Lemma lower_app (s t : string) : Str.lower (s +:+ t) = Str.lower s +:+ Str.lower t.
Proof. induction s as [|c s IH]; simpl; [done|by f_equal]. Qed.

Lemma startswith_app (p s t : string) :
  Str.startswith p s = true -> Str.startswith p (s +:+ t) = true.
Proof.
  revert s. induction p as [|a p IH]; intros [|b s]; simpl; try done.
  intros [-> Hp]%andb_true_iff. simpl. by apply IH.
Qed.

Lemma startswith_contains (sub s : string) :
  Str.startswith sub s = true -> Str.contains sub s = true.
Proof. intros Hs. destruct s; simpl in *; by rewrite Hs. Qed.

Lemma contains_app_r (sub s t : string) :
  Str.contains sub s = true -> Str.contains sub (s +:+ t) = true.
Proof.
  induction s as [|c s IH].
  - simpl. rewrite orb_false_r. intros Hs.
    apply startswith_contains. by apply (startswith_app _ "" t).
  - simpl. intros [Hs|Hc]%orb_true_iff.
    + apply (startswith_app _ _ t) in Hs. simpl in Hs. by rewrite Hs.
    + rewrite (IH Hc). apply orb_true_r.
Qed.

Lemma contains_app_l (sub pre s : string) :
  Str.contains sub s = true -> Str.contains sub (pre +:+ s) = true.
Proof.
  intros Hs. induction pre as [|c pre IH]; simpl; [done|].
  rewrite IH. apply orb_true_r.
Qed.

(** A keyword of the trimmed, lower-cased line occurs in the lower-cased
    line. *)
Lemma contains_lower_strip (kw line : string) :
  Str.contains kw (Str.lower (Str.strip line)) = true ->
  Str.contains kw (Str.lower line) = true.
Proof.
  intros Hkw. destruct (strip_decompose line) as (pre & post & Hline).
  rewrite Hline at 1. rewrite !lower_app.
  by apply contains_app_l, contains_app_r.
Qed.

Lemma search_skip (r : Re.regex) (c : ascii) (s : string) :
  Re.search r s = true -> Re.search r (String c s) = true.
Proof. intros Hs. simpl. rewrite Hs. by destruct (Re.match_at r (String c s)). Qed.

Lemma search_app_l (r : Re.regex) (pre s : string) :
  Re.search r s = true -> Re.search r (pre +:+ s) = true.
Proof.
  intros Hs. induction pre as [|c pre IH]; [done|]. by apply search_skip.
Qed.

Lemma lstrip_replicate (n : nat) (c : ascii) :
  Char.isspace c = false -> Str.lstrip (replicate_char n c) = replicate_char n c.
Proof. intros Hc. destruct n; simpl; [done|]. by rewrite Hc. Qed.

Lemma rstrip_replicate (n : nat) (c : ascii) :
  Char.isspace c = false -> Str.rstrip (replicate_char n c) = replicate_char n c.
Proof.
  intros Hc. induction n as [|n IH]; simpl; [done|].
  rewrite IH. destruct (replicate_char n c); [by rewrite Hc|done].
Qed.

Lemma len_replicate (n : nat) (c : ascii) : Str.len (replicate_char n c) = n.
Proof. induction n as [|n IH]; [done|]. unfold Str.len in *. simpl. by rewrite IH. Qed.

Lemma lstrip_spaces (n : nat) (c : ascii) (s : string) :
  Char.isspace c = true ->
  Str.lstrip (replicate_char n c +:+ s) = Str.lstrip s.
Proof. intros Hc. induction n as [|n IH]; simpl; [done|]. by rewrite Hc. Qed.

Lemma take_replicate_app (n : nat) (c : ascii) (s : string) :
  Str.take n (replicate_char n c +:+ s) = replicate_char n c.
Proof.
  rewrite <- (len_replicate n c) at 1. apply take_app_exact.
Qed.

(** * The loop bodies as emitters *)

Lemma append_on_first_match_emit (patterns : list Re.regex) (line : string)
      (it : item) (results : list item) :
  append_on_first_match patterns line it results
  = results ++ (if any_search patterns line then [it] else []).
Proof.
  induction patterns as [|p ps IH]; simpl.
  - by rewrite app_nil_r.
  - destruct (Re.search p line); simpl; [done|apply IH].
Qed.

Lemma legal_first_match_emit (patterns : list (Re.regex * string))
      (line line_stripped : string) (results : list item) :
  legal_first_match patterns line line_stripped results
  = results ++ match first_pattern_heading patterns line with
               | Some heading => [(heading, line_stripped)]
               | None => []
               end.
Proof.
  induction patterns as [|[p h] ps IH]; simpl.
  - by rewrite app_nil_r.
  - destruct (Re.search p line); [done|apply IH].
Qed.

Lemma window_test (line : string) :
  (Str.len (Str.strip line) <? 10)%nat || (200 <? Str.len (Str.strip line))%nat
  = negb (in_window line).
Proof.
  unfold in_window.
  destruct (Nat.ltb_spec (Str.len (Str.strip line)) 10),
           (Nat.ltb_spec 200 (Str.len (Str.strip line))),
           (Nat.leb_spec 10 (Str.len (Str.strip line))),
           (Nat.leb_spec (Str.len (Str.strip line)) 200); simpl; try done; lia.
Qed.

Lemma tax_line_heading_table (s : string) :
  tax_line_heading s = first_heading tax_heading_table "Amount" s.
Proof.
  unfold tax_line_heading, tax_heading_table, first_heading, any_in, existsb.
  rewrite !orb_false_r. rewrite <- orb_assoc. done.
Qed.

Lemma date_line_heading_table (s : string) :
  date_line_heading s = first_heading date_heading_table "Date" s.
Proof.
  unfold date_line_heading, date_heading_table, first_heading, any_in, existsb.
  by rewrite !orb_false_r.
Qed.

Lemma tax_line_step_nil (line : string) :
  tax_line_step [] line
  = if in_window line && any_in tax_keywords (Str.lower line)
       && any_search Pat.money_patterns line
    then [(first_heading tax_heading_table "Amount" (Str.lower line),
           Str.strip line)]
    else [].
Proof.
  unfold tax_line_step. rewrite window_test, append_on_first_match_emit.
  rewrite tax_line_heading_table, app_nil_l.
  destruct (in_window line); cbn [negb andb]; [|done].
  by destruct (any_in tax_keywords (Str.lower line)).
Qed.

Lemma tax_line_step_emit (results : list item) (line : string) :
  tax_line_step results line = results ++ tax_line_step [] line.
Proof.
  unfold tax_line_step. rewrite window_test, !append_on_first_match_emit.
  destruct (in_window line); cbn [negb]; [|by rewrite app_nil_r].
  destruct (any_in tax_keywords (Str.lower line)); [done|by rewrite app_nil_r].
Qed.

Lemma date_line_step_nil (line : string) :
  date_line_step [] line
  = if in_window line && any_in date_keywords (Str.lower line)
       && any_search Pat.date_patterns line
    then [(first_heading date_heading_table "Date" (Str.lower line),
           Str.strip line)]
    else [].
Proof.
  unfold date_line_step. rewrite window_test, append_on_first_match_emit.
  rewrite date_line_heading_table, app_nil_l.
  destruct (in_window line); cbn [negb andb]; [|done].
  by destruct (any_in date_keywords (Str.lower line)).
Qed.

Lemma date_line_step_emit (results : list item) (line : string) :
  date_line_step results line = results ++ date_line_step [] line.
Proof.
  unfold date_line_step. rewrite window_test, !append_on_first_match_emit.
  destruct (in_window line); cbn [negb]; [|by rewrite app_nil_r].
  destruct (any_in date_keywords (Str.lower line)); [done|by rewrite app_nil_r].
Qed.

Lemma legal_line_step_nil (line : string) :
  legal_line_step [] line
  = if in_window line
    then match first_pattern_heading Pat.legal_patterns line with
         | Some heading => [(heading, Str.strip line)]
         | None => []
         end
    else [].
Proof.
  unfold legal_line_step. rewrite window_test, legal_first_match_emit.
  rewrite app_nil_l. by destruct (in_window line).
Qed.

Lemma legal_line_step_emit (results : list item) (line : string) :
  legal_line_step results line = results ++ legal_line_step [] line.
Proof.
  unfold legal_line_step. rewrite window_test, !legal_first_match_emit.
  destruct (in_window line); cbn [negb]; [done|by rewrite app_nil_r].
Qed.

Lemma tax_ent_step_emit (doc : Doc) (results : list item) (ent : Ent) :
  tax_ent_step doc results ent = results ++ tax_ent_step doc [] ent.
Proof.
  unfold tax_ent_step.
  repeat match goal with
         | |- context [if ?b then _ else _] => destruct b
         end; by rewrite ?app_nil_r.
Qed.

Lemma date_ent_step_emit (doc : Doc) (results : list item) (ent : Ent) :
  date_ent_step doc results ent = results ++ date_ent_step doc [] ent.
Proof.
  unfold date_ent_step.
  repeat match goal with
         | |- context [if ?b then _ else _] => destruct b
         end; by rewrite ?app_nil_r.
Qed.

Lemma case_party_step_emit (results : list item) (line : string) :
  case_party_step results line = results ++ case_party_step [] line.
Proof.
  unfold case_party_step.
  repeat match goal with
         | |- context [if ?b then _ else _] => destruct b
         end; by rewrite ?app_nil_r.
Qed.

Lemma case_court_step_emit (results : list item) (ent : Ent) :
  case_court_step results ent = results ++ case_court_step [] ent.
Proof.
  unfold case_court_step.
  destruct (_ && _); by rewrite ?app_nil_r.
Qed.

Lemma case_number_step_emit (text : string) (results : list item)
      (pattern : Re.regex) :
  case_number_step text results pattern
  = results ++ map (fun g => ("Case Number", g)) (Re.finditer pattern text).
Proof.
  unfold case_number_step.
  rewrite (fold_left_emit _ (fun g => [("Case Number", g)])) by done.
  by f_equal.
Qed.

Lemma other_line_step_emit (results : list item) (line : string) :
  other_line_step results line = results ++ other_line_step [] line.
Proof.
  unfold other_line_step.
  repeat match goal with
         | |- context [if ?b then _ else _] => destruct b
         end; by rewrite ?app_nil_r.
Qed.

(** ** The collected streams: the text passes first, the entity pass last *)

Lemma case_info_results_passes (text : string) (doc : Doc) :
  case_info_results text doc
  = case_number_items text
    ++ flat_map (case_party_step []) (take 50 (Str.split newline text))
    ++ flat_map (case_court_step []) (ents doc).
Proof.
  unfold case_info_results, case_number_items.
  rewrite (fold_left_emit _ _ case_court_step_emit).
  rewrite (fold_left_emit _ _ case_party_step_emit).
  rewrite (fold_left_emit _ _ (case_number_step_emit text)).
  simpl. by rewrite <- app_assoc.
Qed.

Lemma tax_amounts_results_passes (text : string) (doc : Doc) :
  tax_amounts_results text doc
  = flat_map (tax_line_step []) (Str.split newline text)
    ++ flat_map (tax_ent_step doc []) (ents doc).
Proof.
  unfold tax_amounts_results.
  rewrite (fold_left_emit _ _ (tax_ent_step_emit doc)).
  by rewrite (fold_left_emit _ _ tax_line_step_emit).
Qed.

Lemma dates_results_passes (text : string) (doc : Doc) :
  dates_results text doc
  = flat_map (date_line_step []) (Str.split newline text)
    ++ flat_map (date_ent_step doc []) (ents doc).
Proof.
  unfold dates_results.
  rewrite (fold_left_emit _ _ (date_ent_step_emit doc)).
  by rewrite (fold_left_emit _ _ date_line_step_emit).
Qed.

Lemma legal_refs_results_passes (text : string) :
  legal_refs_results text
  = flat_map (legal_line_step []) (Str.split newline text).
Proof.
  unfold legal_refs_results.
  by rewrite (fold_left_emit _ _ legal_line_step_emit).
Qed.

Lemma other_line_results_passes (text : string) :
  other_line_results text
  = flat_map (other_line_step []) (Str.split newline text).
Proof.
  unfold other_line_results.
  by rewrite (fold_left_emit _ _ other_line_step_emit).
Qed.

(** The entity scan of [extract_other_details] adds entity items while the
    whole list is shorter than 30. *)
Lemma other_ent_fold (es : list Ent) (results : list item) :
  fold_left other_ent_step es results
  = results ++ take (30 - List.length results) (other_ent_items es).
Proof.
  revert results. induction es as [|ent es IH]; intros results.
  - simpl. by rewrite take_nil, app_nil_r.
  - simpl fold_left. rewrite IH. unfold other_ent_step, other_ent_items.
    simpl flat_map. fold (other_ent_items es).
    destruct (Nat.ltb_spec (List.length results) 30) as [Hlt|Hge].
    + destruct (String.eqb (label_ ent) "PERSON") eqn:Hp; simpl.
      * rewrite length_app. simpl.
        replace (30 - List.length results) with (S (30 - (List.length results + 1))) by lia.
        simpl. by rewrite <- app_assoc.
      * rewrite andb_true_r.
        destruct (String.eqb (label_ ent) "ORG") eqn:Ho; simpl; [|done].
        destruct (negb _); simpl; [|done].
        rewrite length_app. simpl.
        replace (30 - List.length results) with (S (30 - (List.length results + 1))) by lia.
        simpl. by rewrite <- app_assoc.
    + rewrite !andb_false_r.
      replace (30 - List.length results) with 0 by lia.
      by rewrite !take_0.
Qed.

(** * The orchestrator *)

Lemma results_dict_lookup (text : string) (doc : Doc) :
  results_dict text doc !! "case_info" = Some (extract_case_info text doc)
  ∧ results_dict text doc !! "tax_amounts" = Some (extract_tax_amounts text doc)
  ∧ results_dict text doc !! "dates" = Some (extract_dates text doc)
  ∧ results_dict text doc !! "legal_refs" = Some (extract_legal_references text)
  ∧ results_dict text doc !! "other" = Some (extract_other_details text doc).
Proof. unfold results_dict. repeat split; by simplify_map_eq. Qed.

Lemma analyze_document_cases (nlp : string -> Doc) (text : string) :
  (text = "" ∨ (Str.len (Str.strip text) < 100)%nat)
  ∧ analyze_document nlp text
    = Raise (ValueError "Document text is too short or empty")
  ∨ (text ≠ "" ∧ (100 <= Str.len (Str.strip text))%nat)
  ∧ analyze_document nlp text
    = Return (results_dict (truncate text) (nlp (truncate text))).
Proof.
  unfold analyze_document.
  destruct (String.eqb_spec text "") as [->|Hne]; [left; split; [by left|done]|].
  destruct (Nat.ltb_spec (Str.len (Str.strip text)) 100) as [Hlt|Hge].
  - left. split; [by right|done].
  - right. done.
Qed.

(** The five lists of a result. *)
Lemma analysis_result (nlp : string -> Doc) (text : string)
      (r : gmap string (list item)) :
  analyze_document nlp text = Return r ->
  r !! "case_info"
  = Some (extract_case_info (truncate text) (nlp (truncate text)))
  ∧ r !! "tax_amounts"
    = Some (extract_tax_amounts (truncate text) (nlp (truncate text)))
  ∧ r !! "dates" = Some (extract_dates (truncate text) (nlp (truncate text)))
  ∧ r !! "legal_refs" = Some (extract_legal_references (truncate text))
  ∧ r !! "other"
    = Some (extract_other_details (truncate text) (nlp (truncate text))).
Proof.
  intros Hr.
  destruct (analyze_document_cases nlp text) as [[_ Hraise]|[_ Hret]];
    [congruence|].
  rewrite Hret in Hr. injection Hr as <-. apply results_dict_lookup.
Qed.

(** C1. [analyze_document] raises its validation error exactly when the
    text is empty or its trimmed length is below 100; every other text
    yields a result; the text "short" is rejected and yields no result. *)
Theorem analyze_document_validation (nlp : string -> Doc) (text : string) :
  (analyze_document nlp text
     = Raise (ValueError "Document text is too short or empty")
   ↔ text = "" ∨ (Str.len (Str.strip text) < 100)%nat)
  ∧ ((exists e, analyze_document nlp text = Raise e)
     ↔ text = "" ∨ (Str.len (Str.strip text) < 100)%nat)
  ∧ ((exists r, analyze_document nlp text = Return r)
     ↔ (100 <= Str.len (Str.strip text))%nat)
  ∧ analyze_document nlp "short"
    = Raise (ValueError "Document text is too short or empty")
  ∧ (forall r, analyze_document nlp "short" ≠ Return r).
Proof.
  assert (Hempty : Str.len (Str.strip "") = 0%nat) by done.
  destruct (analyze_document_cases nlp text) as [[Hbad ->]|[[Hne Hlen] ->]].
  - repeat split; try done; try (intros _; done).
    + intros _. by eexists.
    + by intros [r Hr].
    + intros Hlen. destruct Hbad as [->|Hlt]; [rewrite Hempty in Hlen|]; lia.
  - repeat split; try done.
    + intros [->|Hlt]; [done|lia].
    + by intros [e He].
    + intros [->|Hlt]; [done|lia].
    + intros _. by eexists.
Qed.

(** * Truncation *)

Lemma truncate_long (text : string) :
  (Z.of_nat (Str.len text) > max_length)%Z ->
  truncate text = Str.take (Z.to_nat max_length) text.
Proof.
  intros Hlong. unfold truncate.
  destruct (Z.gtb_spec (Z.of_nat (Str.len text)) max_length); [done|lia].
Qed.

Lemma truncate_short (text : string) :
  (Z.of_nat (Str.len text) <= max_length)%Z -> truncate text = text.
Proof.
  intros Hshort. unfold truncate.
  destruct (Z.gtb_spec (Z.of_nat (Str.len text)) max_length); [lia|done].
Qed.

(** Whatever the length, the text that is analysed is the first 1,000,000
    characters. *)
Lemma truncate_take (text : string) :
  truncate text = Str.take (Z.to_nat max_length) text.
Proof.
  destruct (Z.gtb_spec (Z.of_nat (Str.len text)) max_length) as [Hgt|Hle].
  - apply truncate_long. lia.
  - rewrite truncate_short by done. symmetry. apply take_all. lia.
Qed.

Lemma strip_blanks (n : nat) : Str.strip (replicate_char n " ") = "".
Proof. unfold Str.strip. induction n as [|n IH]; [done|exact IH]. Qed.

Lemma strip_blank_head : Str.strip blank_head = replicate_char 100 "a".
Proof.
  unfold blank_head, Str.strip.
  rewrite lstrip_spaces by done.
  by rewrite lstrip_replicate, rstrip_replicate.
Qed.

(** Validation decides between the two outcomes. *)
Lemma accepted_iff (nlp : string -> Doc) (text : string) :
  analyze_document nlp text
  = Return (results_dict (Str.take (Z.to_nat max_length) text)
                         (nlp (Str.take (Z.to_nat max_length) text)))
  <-> (100 <= Str.len (Str.strip text))%nat.
Proof.
  destruct (analyze_document_cases nlp text) as [[Hbad ->]|[[_ Hlen] ->]].
  - split; [done|]. intros Hlen. destruct Hbad as [->|Hlt]; [|lia].
    assert (Str.len (Str.strip "") = 0%nat) by done. lia.
  - rewrite truncate_take. by split.
Qed.

(** C2 (amended). A text longer than 1,000,000 characters that passes
    validation is analysed as its first 1,000,000 characters: the result
    is the five extractors run on that prefix and on the entities
    recognized in that prefix; any accepted text with the same first
    1,000,000 characters has the same result; and the result depends on
    the recognizer only through what it returns on the prefix.  Analysing
    the prefix alone gives the same outcome exactly when the prefix passes
    validation by itself: validation reads the whole text. *)
Theorem truncation_first_million (nlp : string -> Doc) (text : string) :
  (Z.of_nat (Str.len text) > max_length)%Z ->
  (100 <= Str.len (Str.strip text))%nat ->
  analyze_document nlp text
  = Return (results_dict (Str.take (Z.to_nat max_length) text)
                         (nlp (Str.take (Z.to_nat max_length) text)))
  ∧ (forall text' : string,
        (100 <= Str.len (Str.strip text'))%nat ->
        Str.take (Z.to_nat max_length) text'
        = Str.take (Z.to_nat max_length) text ->
        analyze_document nlp text' = analyze_document nlp text)
  ∧ (analyze_document nlp (Str.take (Z.to_nat max_length) text)
     = analyze_document nlp text
     <-> (100 <= Str.len (Str.strip (Str.take (Z.to_nat max_length) text)))%nat)
  ∧ ((Str.len (Str.strip (Str.take (Z.to_nat max_length) text)) < 100)%nat ->
     analyze_document nlp (Str.take (Z.to_nat max_length) text)
     = Raise (ValueError "Document text is too short or empty"))
  ∧ (forall nlp' : string -> Doc,
        nlp' (Str.take (Z.to_nat max_length) text)
        = nlp (Str.take (Z.to_nat max_length) text) ->
        analyze_document nlp' text = analyze_document nlp text).
Proof.
  intros Hlong Hvalid.
  assert (Hrun : forall f t, (100 <= Str.len (Str.strip t))%nat ->
            analyze_document f t
            = Return (results_dict (Str.take (Z.to_nat max_length) t)
                                   (f (Str.take (Z.to_nat max_length) t))))
    by (intros f t Ht; by apply accepted_iff).
  split; [by apply Hrun|]. split; [|split; [|split]].
  - intros text' Hvalid' Hsame. rewrite !Hrun by done. by rewrite Hsame.
  - rewrite (Hrun nlp text Hvalid). split.
    + intros Hsame. apply (accepted_iff nlp).
      by rewrite Hsame, take_take.
    + intros Hhead. rewrite Hrun by done. by rewrite take_take.
  - intros Hshort.
    destruct (analyze_document_cases
                nlp (Str.take (Z.to_nat max_length) text))
      as [[_ ->]|[[_ Hlen] _]]; [done|lia].
  - intros nlp' Hsame. rewrite !Hrun by done. by rewrite Hsame.
Qed.

(** C2 (counterexample). 1,000,000 blanks followed by 100 letters: the
    text is longer than the bound and is analysed, and its first 1,000,000
    characters alone are rejected. *)
Lemma truncation_counterexample :
  (Z.of_nat (Str.len blank_head) > max_length)%Z
  ∧ (100 <= Str.len (Str.strip blank_head))%nat
  ∧ analyze_document no_entities blank_head
    = Return (results_dict (Str.take (Z.to_nat max_length) blank_head)
                (no_entities (Str.take (Z.to_nat max_length) blank_head)))
  ∧ analyze_document no_entities (Str.take (Z.to_nat max_length) blank_head)
    = Raise (ValueError "Document text is too short or empty").
Proof.
  assert (Hvalid : (100 <= Str.len (Str.strip blank_head))%nat).
  { rewrite strip_blank_head, len_replicate. lia. }
  split.
  { unfold blank_head. rewrite len_app, !len_replicate.
    unfold max_length. lia. }
  split; [exact Hvalid|]. split; [apply accepted_iff; exact Hvalid|].
  assert (Hhead : Str.take (Z.to_nat max_length) blank_head
                  = replicate_char (Z.to_nat max_length) " ")
    by apply take_replicate_app.
  rewrite Hhead.
  destruct (analyze_document_cases
              no_entities (replicate_char (Z.to_nat max_length) " "))
    as [[_ ->]|[[_ Hlen] _]]; [done|].
  rewrite strip_blanks in Hlen. unfold Str.len in Hlen. simpl in Hlen. lia.
Qed.

Lemma long_text_long : (Z.of_nat (Str.len long_text) > max_length)%Z.
Proof. unfold long_text, max_length. rewrite len_replicate. lia. Qed.

Lemma long_text_valid : (100 <= Str.len (Str.strip long_text))%nat.
Proof.
  unfold long_text, Str.strip.
  rewrite lstrip_replicate, rstrip_replicate, len_replicate by done. lia.
Qed.

(** C2 (witness): a text of 1,000,001 letters. *)
Lemma truncation_first_million_witness :
  (Z.of_nat (Str.len long_text) > max_length)%Z
  ∧ (100 <= Str.len (Str.strip long_text))%nat
  ∧ analyze_document no_entities long_text
    = Return (results_dict (Str.take (Z.to_nat max_length) long_text)
                (no_entities (Str.take (Z.to_nat max_length) long_text))).
Proof.
  split; [exact long_text_long|]. split; [exact long_text_valid|].
  exact (proj1 (truncation_first_million no_entities long_text
                  long_text_long long_text_valid)).
Defined.

(** * Deduplication, order and caps *)

Lemma case_info_results_split (text : string) (doc : Doc) :
  case_info_results text doc = case_text_pass text ++ case_entity_pass doc.
Proof.
  unfold case_info_results, case_text_pass, case_entity_pass.
  by rewrite !(fold_left_emit _ _ case_court_step_emit).
Qed.

Lemma tax_amounts_results_split (text : string) (doc : Doc) :
  tax_amounts_results text doc = tax_text_pass text ++ tax_entity_pass doc.
Proof.
  unfold tax_amounts_results, tax_text_pass, tax_entity_pass.
  by rewrite !(fold_left_emit _ _ (tax_ent_step_emit doc)).
Qed.

Lemma dates_results_split (text : string) (doc : Doc) :
  dates_results text doc = date_text_pass text ++ date_entity_pass doc.
Proof.
  unfold dates_results, date_text_pass, date_entity_pass.
  by rewrite !(fold_left_emit _ _ (date_ent_step_emit doc)).
Qed.

Lemma other_results_split (text : string) (doc : Doc) :
  other_results text doc
  = other_line_results text
    ++ take (30 - List.length (other_line_results text))
            (other_ent_items (ents doc)).
Proof. unfold other_results. apply other_ent_fold. Qed.

(** C3. In every category of a result the dedup keys are pairwise
    distinct, the list has at most the category's cap, and it is the first
    [cap] first occurrences of the collected stream, in the stream's order;
    the stream is the scan of the text followed by the scan of the
    entities. *)
Theorem categories_deduplicated_ordered_capped
        (nlp : string -> Doc) (text : string) (r : gmap string (list item)) :
  analyze_document nlp text = Return r ->
  (exists out, r !! "case_info" = Some out
     ∧ category_ok pair_key 15
         (case_text_pass (truncate text) ++ case_entity_pass (nlp (truncate text)))
         out)
  ∧ (exists out, r !! "tax_amounts" = Some out
     ∧ category_ok content_key 20
         (tax_text_pass (truncate text) ++ tax_entity_pass (nlp (truncate text)))
         out)
  ∧ (exists out, r !! "dates" = Some out
     ∧ category_ok content_key 20
         (date_text_pass (truncate text) ++ date_entity_pass (nlp (truncate text)))
         out)
  ∧ (exists out, r !! "legal_refs" = Some out
     ∧ category_ok content_key 25 (legal_refs_results (truncate text)) out)
  ∧ (exists out, r !! "other" = Some out
     ∧ category_ok content_key 15
         (other_line_results (truncate text)
          ++ take (30 - List.length (other_line_results (truncate text)))
                  (other_ent_items (ents (nlp (truncate text)))))
         out).
Proof.
  intros Hr.
  destruct (analysis_result nlp text r Hr) as (Hc & Ht & Hd & Hl & Ho).
  repeat split.
  - eexists. split; [exact Hc|].
    rewrite <- case_info_results_split. apply take_unique_category_ok.
  - eexists. split; [exact Ht|].
    rewrite <- tax_amounts_results_split. apply take_unique_category_ok.
  - eexists. split; [exact Hd|].
    rewrite <- dates_results_split. apply take_unique_category_ok.
  - eexists. split; [exact Hl|]. apply take_unique_category_ok.
  - eexists. split; [exact Ho|].
    rewrite <- other_results_split. apply take_unique_category_ok.
Qed.

Lemma notice_analysis :
  analyze_document no_entities notice
  = Return (results_dict notice (no_entities notice)).
Proof. vm_compute. reflexivity. Qed.

(** C3 (witness): the notice, whose penalty line occurs twice. *)
Lemma categories_deduplicated_ordered_capped_witness :
  analyze_document no_entities notice
  = Return (results_dict notice (no_entities notice))
  ∧ exists out,
      results_dict notice (no_entities notice) !! "tax_amounts" = Some out
      ∧ category_ok content_key 20
          (tax_text_pass (truncate notice)
           ++ tax_entity_pass (no_entities (truncate notice)))
          out.
Proof.
  split; [exact notice_analysis|].
  exact (proj1 (proj2 (categories_deduplicated_ordered_capped
                         no_entities notice _ notice_analysis))).
Defined.

(** * The 30-item test of the entity scan of [extract_other_details] *)

(** C4 (amended). The entity scan of [extract_other_details] adds the
    items of PERSON entities ("Person") and of ORG entities without "court"
    ("Organization") while the whole collected list, Key Point items of
    the line scan included, is shorter than 30; the cap of 15 is applied
    afterwards, to the deduplicated list. *)
Theorem other_entity_gate_counts_all_items (text : string) (doc : Doc) :
  other_results text doc
  = other_line_results text
    ++ take (30 - List.length (other_line_results text))
            (other_ent_items (ents doc))
  ∧ extract_other_details text doc
    = take 15 (unique content_key (other_results text doc)).
Proof. split; [apply other_results_split|done]. Qed.

(** C4 (counterexample). After thirty Key Point lines the entity scan has
    added nothing, yet the one PERSON entity is not added: the 30-item test
    counts the Key Point items.  Were only entity items counted, the person
    would be added and would reach the output. *)
Lemma other_entity_gate_counterexample :
  analyze_document one_person thirty_key_points
  = Return (results_dict thirty_key_points (one_person thirty_key_points))
  ∧ other_line_results thirty_key_points
    = replicate 30 ("Key Point", key_point_line)
  ∧ other_results thirty_key_points (one_person thirty_key_points)
    = replicate 30 ("Key Point", key_point_line)
  ∧ other_results_as_specified thirty_key_points (one_person thirty_key_points)
    = replicate 30 ("Key Point", key_point_line) ++ [("Person", "John Smith")]
  ∧ extract_other_details thirty_key_points (one_person thirty_key_points)
    = [("Key Point", key_point_line)]
  ∧ take 15 (unique content_key
               (other_results_as_specified thirty_key_points
                                           (one_person thirty_key_points)))
    = [("Key Point", key_point_line); ("Person", "John Smith")].
Proof. repeat split; vm_compute; reflexivity. Qed.

(** * The tax line scan *)

Lemma in_window_spec (line : string) :
  in_window line = true
  ↔ (10 <= Str.len (Str.strip line))%nat ∧ (Str.len (Str.strip line) <= 200)%nat.
Proof.
  unfold in_window. rewrite andb_true_iff, !Nat.leb_le. done.
Qed.

(** C5 (amended). A line is emitted by the tax line scan exactly when its
    trimmed length is between 10 and 200, bounds included, it contains a
    tax keyword and a money pattern matches it; the item is the heading of
    the first matching row of the cascade (else "Amount") with the trimmed
    line; the penalty line of the scenario yields its "Penalty" item, and
    no line of trimmed length below 10 is emitted. *)
Theorem tax_line_scan (line : string) :
  tax_line_step [] line
  = (if in_window line && any_in tax_keywords (Str.lower line)
        && any_search Pat.money_patterns line
     then [(first_heading tax_heading_table "Amount" (Str.lower line),
            Str.strip line)]
     else [])
  ∧ (in_window line = true
     ↔ (10 <= Str.len (Str.strip line))%nat
       ∧ (Str.len (Str.strip line) <= 200)%nat)
  ∧ (forall results, tax_line_step results line = results ++ tax_line_step [] line)
  ∧ tax_line_step [] penalty_line = [("Penalty", penalty_line)]
  ∧ ((Str.len (Str.strip line) < 10)%nat -> tax_line_step [] line = []).
Proof.
  split; [apply tax_line_step_nil|]. split; [apply in_window_spec|].
  split; [intros; apply tax_line_step_emit|]. split; [by vm_compute|].
  intros Hshort. rewrite tax_line_step_nil.
  destruct (in_window line) eqn:Hw; [|done].
  apply in_window_spec in Hw. lia.
Qed.

(** C5 (counterexample). A line of trimmed length exactly 10 is emitted. *)
Lemma tax_line_window_counterexample :
  Str.len (Str.strip "tax $5 due") = 10%nat
  ∧ strictly_in_window "tax $5 due" = false
  ∧ tax_line_step [] "tax $5 due" = [("Amount Due", "tax $5 due")].
Proof. repeat split; vm_compute; reflexivity. Qed.

(** C5 (witness): a line of six characters. *)
Lemma tax_line_scan_witness :
  (Str.len (Str.strip "tax $5") < 10)%nat ∧ tax_line_step [] "tax $5" = [].
Proof.
  assert (H : (Str.len (Str.strip "tax $5") < 10)%nat) by (vm_compute; lia).
  split; [exact H|].
  exact (proj2 (proj2 (proj2 (proj2 (tax_line_scan "tax $5")))) H).
Defined.

(** * Where a scenario line ends up *)

Lemma elem_of_flat_map {A B : Type} (f : A -> list B) (l : list A) (y : B) :
  y ∈ flat_map f l ↔ exists x, x ∈ l ∧ y ∈ f x.
Proof.
  rewrite list_elem_of_In, in_flat_map. split.
  - intros (x & Hx & Hy). exists x. by rewrite !list_elem_of_In.
  - intros (x & Hx & Hy). exists x. by rewrite <- !list_elem_of_In.
Qed.

Ltac decide_closed := apply (bool_decide_unpack _); vm_compute; reflexivity.

(** An item of the text pass that is the only one of its key there sits
    in the list of first occurrences, and reaches the output exactly when
    its position there is below the cap. *)
Lemma kept_item_position {K : Type} `{Countable K} (key : item -> K)
      (cap : nat) (l1 l2 : list item) (x : item) :
  x ∈ l1 ->
  (forall y, y ∈ l1 -> key y = key x -> y = x) ->
  exists i : nat,
    first_occurrences key (l1 ++ l2) !! i = Some x
    ∧ (x ∈ take cap (first_occurrences key (l1 ++ l2)) ↔ (i < cap)%nat).
Proof.
  intros Hx Honly.
  assert (Hin : x ∈ first_occurrences key (l1 ++ l2)).
  { rewrite <- unique_first_occurrences, unique_unique_from.
    apply unique_from_keeps; [done| |done]. apply not_elem_of_empty. }
  apply list_elem_of_lookup in Hin as [i Hi]. exists i. split; [done|].
  split.
  - intros (j & Hj & Hlt)%elem_of_take.
    assert (Hnd : NoDup (first_occurrences key (l1 ++ l2))).
    { apply (NoDup_fmap_1 key).
      rewrite <- unique_first_occurrences, unique_unique_from.
      apply unique_from_NoDup. }
    by rewrite (NoDup_lookup _ i j x Hnd Hi Hj).
  - intros Hlt. apply elem_of_take. by exists i.
Qed.

Lemma date_text_pass_lines (text : string) :
  date_text_pass text = flat_map (date_line_step []) (Str.split newline text).
Proof.
  unfold date_text_pass. by rewrite (fold_left_emit _ _ date_line_step_emit).
Qed.

(** Every line whose trimmed form is the deadline line gets the heading
    "Deadline". *)
Lemma deadline_heading (line : string) (h : string) :
  (h, deadline_line) ∈ date_line_step [] line -> h = "Deadline".
Proof.
  rewrite date_line_step_nil.
  destruct (_ && _); [|by intros ?%elem_of_nil].
  intros [= -> Hstrip]%list_elem_of_singleton.
  assert (Hkw : Str.contains "deadline" (Str.lower line) = true).
  { apply contains_lower_strip. rewrite <- Hstrip. by vm_compute. }
  unfold date_heading_table, first_heading, any_in, existsb.
  by rewrite Hkw.
Qed.

(** C6 (amended). The date line scan gives an emitted line the heading of
    the first matching row of the cascade (else "Date") and the trimmed
    line as content: a line with "filing date" and "deadline" gets
    "Deadline".  When the analysed text has the line "Filing
    deadline: 04/15/2024", the item ("Deadline", that line) is among the
    first occurrences of the collected dates, and it is in the dates
    category exactly when it is among the first 20 of them. *)
Theorem deadline_line_in_dates
        (nlp : string -> Doc) (text : string) (r : gmap string (list item)) :
  (forall line,
      date_line_step [] line
      = if in_window line && any_in date_keywords (Str.lower line)
           && any_search Pat.date_patterns line
        then [(first_heading date_heading_table "Date" (Str.lower line),
               Str.strip line)]
        else [])
  ∧ (Str.contains "filing date" (Str.lower filing_date_deadline_line) = true
     ∧ date_line_step [] filing_date_deadline_line
       = [("Deadline", filing_date_deadline_line)])
  ∧ (analyze_document nlp text = Return r ->
     deadline_line ∈ Str.split newline (truncate text) ->
     exists (out : list item) (i : nat),
       r !! "dates" = Some out
       ∧ out = take 20 (first_occurrences content_key
                          (date_text_pass (truncate text)
                           ++ date_entity_pass (nlp (truncate text))))
       ∧ first_occurrences content_key
           (date_text_pass (truncate text)
            ++ date_entity_pass (nlp (truncate text))) !! i
         = Some ("Deadline", deadline_line)
       ∧ (("Deadline", deadline_line) ∈ out ↔ (i < 20)%nat)).
Proof.
  split; [apply date_line_step_nil|]. split; [split; by vm_compute|].
  intros Hr Hline.
  destruct (analysis_result nlp text r Hr) as (_ & _ & Hout & _).
  destruct (kept_item_position content_key 20
              (date_text_pass (truncate text))
              (date_entity_pass (nlp (truncate text)))
              ("Deadline", deadline_line)) as (i & Hi & Hiff).
  - rewrite date_text_pass_lines. apply elem_of_flat_map.
    exists deadline_line. split; [done|]. decide_closed.
  - intros [h c]. rewrite date_text_pass_lines.
    intros (line & _ & Hy)%elem_of_flat_map. simpl. intros ->.
    by rewrite (deadline_heading line h Hy).
  - eexists _, i. split; [exact Hout|].
    unfold extract_dates.
    by rewrite dates_results_split, unique_first_occurrences.
Qed.

(** C6 (counterexample). Twenty dated lines with distinct contents precede
    the deadline line of an accepted text: the dates category is full
    before the line is reached. *)
Lemma deadline_line_counterexample :
  analyze_document no_entities late_deadline
  = Return (results_dict late_deadline (no_entities late_deadline))
  ∧ deadline_line ∈ Str.split newline late_deadline
  ∧ results_dict late_deadline (no_entities late_deadline) !! "dates"
    = Some (map (fun n => ("Hearing Date", hearing_line n)) (seq 1 20))
  ∧ ("Deadline", deadline_line)
    ∉ map (fun n => ("Hearing Date", hearing_line n)) (seq 1 20).
Proof.
  split; [by vm_compute|]. split; [decide_closed|].
  split; [by vm_compute|]. decide_closed.
Qed.

(** C6 (witness): the notice has the deadline line. *)
Lemma deadline_line_in_dates_witness :
  analyze_document no_entities notice
  = Return (results_dict notice (no_entities notice))
  ∧ deadline_line ∈ Str.split newline (truncate notice)
  ∧ exists (out : list item) (i : nat),
      results_dict notice (no_entities notice) !! "dates" = Some out
      ∧ (("Deadline", deadline_line) ∈ out ↔ (i < 20)%nat).
Proof.
  assert (H1 : analyze_document no_entities notice
               = Return (results_dict notice (no_entities notice)))
    by (vm_compute; reflexivity).
  assert (H2 : deadline_line ∈ Str.split newline (truncate notice))
    by decide_closed.
  split; [exact H1|]. split; [exact H2|].
  destruct (proj2 (proj2 (deadline_line_in_dates no_entities notice _)) H1 H2)
    as (out & i & Hout & _ & _ & Hiff).
  exists out, i. split; [exact Hout|exact Hiff].
Defined.

(** * The legal-reference line scan *)

Lemma section_line_found (pre post : string) :
  Re.search Pat.section_pattern (pre +:+ (section_line +:+ post)) = true.
Proof. apply search_app_l. by vm_compute. Qed.

(** Every line whose trimmed form is the section line gets the heading
    "Section". *)
Lemma section_heading (line : string) (h : string) :
  (h, section_line) ∈ legal_line_step [] line -> h = "Section".
Proof.
  rewrite legal_line_step_nil.
  destruct (in_window line); [|by intros ?%elem_of_nil].
  destruct (strip_decompose line) as (pre & post & Hline).
  destruct (first_pattern_heading Pat.legal_patterns line) as [h'|] eqn:Hh;
    [|by intros ?%elem_of_nil].
  intros [= -> Hstrip]%list_elem_of_singleton.
  rewrite <- Hstrip in Hline.
  unfold Pat.legal_patterns, first_pattern_heading in Hh.
  rewrite Hline, section_line_found in Hh. congruence.
Qed.

Lemma legal_lines (text : string) :
  legal_refs_results text
  = flat_map (legal_line_step []) (Str.split newline text) ++ [].
Proof.
  unfold legal_refs_results.
  by rewrite (fold_left_emit _ _ legal_line_step_emit), app_nil_r.
Qed.

(** C8 (amended). The legal line scan tests each line whose trimmed length
    is between 10 and 200, bounds included, against the six patterns in
    the order Section, USC Reference, IRC Section, CFR Reference, Title
    Reference, Public Law, and emits the heading of the first one that
    matches with the trimmed line, so at most one item for a line: a line
    that names a title and a section yields its "Section" item only.  When
    the analysed text has the line "See Section 501(c)(3) for exemption
    details", the item ("Section", that line) is among the first
    occurrences of the collected references, and it is in the legal_refs
    category exactly when it is among the first 25 of them. *)
Theorem legal_line_scan
        (nlp : string -> Doc) (text : string) (r : gmap string (list item)) :
  (forall line,
      legal_line_step [] line
      = if in_window line
        then match first_pattern_heading Pat.legal_patterns line with
             | Some heading => [(heading, Str.strip line)]
             | None => []
             end
        else [])
  ∧ (forall line,
        in_window line = true
        ↔ (10 <= Str.len (Str.strip line))%nat
          ∧ (Str.len (Str.strip line) <= 200)%nat)
  ∧ map snd Pat.legal_patterns
    = ["Section"; "USC Reference"; "IRC Section"; "CFR Reference";
       "Title Reference"; "Public Law"]
  ∧ (Re.search Pat.section_pattern title_and_section_line = true
     ∧ Re.search Pat.title_pattern title_and_section_line = true
     ∧ legal_line_step [] title_and_section_line
       = [("Section", title_and_section_line)])
  ∧ (analyze_document nlp text = Return r ->
     section_line ∈ Str.split newline (truncate text) ->
     exists (out : list item) (i : nat),
       r !! "legal_refs" = Some out
       ∧ out = take 25 (first_occurrences content_key
                          (legal_refs_results (truncate text)))
       ∧ first_occurrences content_key (legal_refs_results (truncate text)) !! i
         = Some ("Section", section_line)
       ∧ (("Section", section_line) ∈ out ↔ (i < 25)%nat)).
Proof.
  split; [apply legal_line_step_nil|]. split; [apply in_window_spec|].
  split; [done|]. split; [repeat split; by vm_compute|]. intros Hr Hline.
  destruct (analysis_result nlp text r Hr) as (_ & _ & _ & Hout & _).
  rewrite legal_lines.
  destruct (kept_item_position content_key 25
              (flat_map (legal_line_step []) (Str.split newline (truncate text)))
              [] ("Section", section_line)) as (i & Hi & Hiff).
  - apply elem_of_flat_map.
    exists section_line. split; [done|]. decide_closed.
  - intros [h c]. intros (line & _ & Hy)%elem_of_flat_map. simpl. intros ->.
    by rewrite (section_heading line h Hy).
  - eexists _, i. split; [exact Hout|].
    unfold extract_legal_references.
    by rewrite legal_lines, unique_first_occurrences.
Qed.

(** C8 (counterexample). A line of trimmed length exactly 10 is tested and
    emitted; and twenty-five section lines with distinct contents before
    the section line of an accepted text fill the category. *)
Lemma legal_line_scan_counterexample :
  (Str.len (Str.strip "Section 12") = 10%nat
   ∧ strictly_in_window "Section 12" = false
   ∧ legal_line_step [] "Section 12" = [("Section", "Section 12")])
  ∧ analyze_document no_entities late_section
    = Return (results_dict late_section (no_entities late_section))
  ∧ section_line ∈ Str.split newline late_section
  ∧ results_dict late_section (no_entities late_section) !! "legal_refs"
    = Some (map (fun n => ("Section", numbered_section_line n)) (seq 1 25))
  ∧ ("Section", section_line)
    ∉ map (fun n => ("Section", numbered_section_line n)) (seq 1 25).
Proof.
  split; [repeat split; by vm_compute|].
  split; [by vm_compute|]. split; [decide_closed|].
  split; [by vm_compute|]. decide_closed.
Qed.

(** C8 (witness): the notice has the section line. *)
Lemma legal_line_scan_witness :
  analyze_document no_entities notice
  = Return (results_dict notice (no_entities notice))
  ∧ section_line ∈ Str.split newline (truncate notice)
  ∧ exists (out : list item) (i : nat),
      results_dict notice (no_entities notice) !! "legal_refs" = Some out
      ∧ (("Section", section_line) ∈ out ↔ (i < 25)%nat).
Proof.
  assert (H1 : analyze_document no_entities notice
               = Return (results_dict notice (no_entities notice)))
    by (vm_compute; reflexivity).
  assert (H2 : section_line ∈ Str.split newline (truncate notice))
    by decide_closed.
  split; [exact H1|]. split; [exact H2|].
  destruct (proj2 (proj2 (proj2 (proj2 (legal_line_scan no_entities notice _))))
              H1 H2)
    as (out & i & Hout & _ & _ & Hiff).
  exists out, i. split; [exact Hout|exact Hiff].
Defined.

(** * The case-number scan *)

(** A pattern that begins with a word fails where the text does not begin
    with that word, letter case apart. *)
Lemma run_word_i_fail (w : string) (r : Re.regex) (s : string) (pos : nat)
      (g : string) (k : Re.cont) :
  Str.startswith (Str.lower w) (Str.lower s) = false ->
  Re.run (Re.Cat (Re.word_i w) r) s pos g k = None.
Proof.
  revert s pos. induction w as [|a w IH]; intros s pos Hs; [done|].
  destruct s as [|c s]; [done|].
  simpl in Hs. cbn [Re.word_i Re.run Re.lit_i].
  unfold Char.eqb in *. rewrite (Ascii.eqb_sym (Char.lower c)).
  destruct (Ascii.eqb (Char.lower a) (Char.lower c)); [|done].
  simpl in Hs. apply (IH s (S pos) Hs).
Qed.

Lemma case_no_needs_case (s : string) :
  Str.startswith "case" (Str.lower s) = false ->
  Re.match_at Pat.case_no_pattern s = None.
Proof. intros Hs. by apply (run_word_i_fail "Case"). Qed.

Lemma startswith_within (w x y : string) :
  (Str.len w <= Str.len x)%nat ->
  Str.startswith w (x +:+ y) = Str.startswith w x.
Proof.
  revert x. induction w as [|a w IH]; intros [|b x]; unfold Str.len; simpl;
    intros Hlen; try done; try lia.
  rewrite IH; [done|]. unfold Str.len. lia.
Qed.

Lemma len_lower (s : string) : Str.len (Str.lower s) = Str.len s.
Proof. unfold Str.len. induction s; simpl; [done|by f_equal]. Qed.

(** The scan for "Case No." passes over a text that does not contain
    "case". *)
Lemma finditer_skips_prefix (pre s : string) (fuel : nat) :
  Str.contains "case" (Str.lower pre) = false ->
  (forall u, u ≠ "" -> (Str.len u <= 3)%nat ->
             Str.startswith "case" (Str.lower (u +:+ s)) = false) ->
  Re.finditer_from (Str.len pre + fuel) Pat.case_no_pattern (pre +:+ s)
  = Re.finditer_from fuel Pat.case_no_pattern s.
Proof.
  intros Hpre Hshort. induction pre as [|c pre IH]; [done|].
  simpl in Hpre. apply orb_false_iff in Hpre as [Hhere Hlater].
  change (Str.len (String c pre) + fuel)%nat with (S (Str.len pre + fuel)).
  cbn [Re.finditer_from]. simpl String.append.
  rewrite (case_no_needs_case (String c (pre +:+ s))).
  - by apply IH.
  - destruct (decide (Str.len (String c pre) <= 3)%nat) as [Hle|Hgt].
    + by apply (Hshort (String c pre)).
    + change (String c (pre +:+ s)) with (String c pre +:+ s).
      rewrite lower_app, startswith_within; [done|].
      rewrite len_lower. unfold Str.len in *. simpl in *. lia.
Qed.

Lemma case_no_line_match (tail : string) :
  at_line_end tail = true ->
  Re.match_at Pat.case_no_pattern (case_no_line +:+ tail)
  = Some (23%nat, tail, "2024-TX-00123").
Proof.
  destruct tail as [|c rest]; [by vm_compute|].
  unfold at_line_end, Char.eqb. intros ->%Ascii.eqb_eq. by vm_compute.
Qed.

(** A word does not start a text in which a character at one of its
    positions differs from the word's. *)
Lemma startswith_mismatch (w x : string) (c d : ascii) (y : string) :
  String.get (Str.len x) w = Some d -> d ≠ c ->
  Str.startswith w (x +:+ String c y) = false.
Proof.
  revert w. unfold Str.len.
  induction x as [|b x IH]; intros [|a w] Hget Hne; simpl in *; try done.
  - injection Hget as ->. unfold Char.eqb.
    by destruct (Ascii.eqb_spec d c).
  - rewrite (IH w Hget Hne). apply andb_false_r.
Qed.

Lemma case_no_line_no_overlap (u tail : string) :
  u ≠ "" -> (Str.len u <= 3)%nat ->
  Str.startswith "case" (Str.lower (u +:+ (case_no_line +:+ tail))) = false.
Proof.
  intros Hu Hlen. rewrite lower_app.
  change (Str.lower (case_no_line +:+ tail))
    with (String "c" (Str.lower ("ase No.: 2024-TX-00123" +:+ tail))).
  assert (Hcase : exists d, String.get (Str.len (Str.lower u)) "case" = Some d
                            ∧ d ≠ "c"%char).
  { rewrite len_lower. unfold Str.len in *.
    destruct u as [|a [|b [|c [|d u]]]]; simpl in Hlen; try done; try lia;
      eexists; (split; [reflexivity|done]). }
  destruct Hcase as (d & Hget & Hne).
  by apply (startswith_mismatch _ _ _ d).
Qed.

Lemma finditer_from_S (fuel : nat) (r : Re.regex) (s : string) :
  Re.finditer_from (S fuel) r s
  = match Re.match_at r s with
    | Some (n, rest, g) =>
        if (0 <? n)%nat then g :: Re.finditer_from fuel r rest
        else match s with
             | EmptyString => [g]
             | String _ s' => g :: Re.finditer_from fuel r s'
             end
    | None =>
        match s with
        | EmptyString => []
        | String _ s' => Re.finditer_from fuel r s'
        end
    end.
Proof. reflexivity. Qed.

(** The scan for "Case No." finds the scenario's line first when no
    "case" precedes it. *)
Lemma finditer_case_no_line (pre tail : string) :
  Str.contains "case" (Str.lower pre) = false ->
  at_line_end tail = true ->
  exists rest : list string,
    Re.finditer Pat.case_no_pattern (pre +:+ (case_no_line +:+ tail))
    = "2024-TX-00123" :: rest.
Proof.
  intros Hpre Htail. unfold Re.finditer.
  rewrite len_app, <- Nat.add_succ_r.
  rewrite finditer_skips_prefix;
    [|done|intros u Hu Hlen; by apply case_no_line_no_overlap].
  rewrite finditer_from_S, (case_no_line_match tail Htail).
  eexists. reflexivity.
Qed.

Lemma first_occurrences_head {K : Type} `{EqDecision K} (key : item -> K)
      (cap : nat) (x : item) (l : list item) :
  exists rest : list item,
    take (S cap) (first_occurrences key (x :: l)) = x :: rest.
Proof. simpl. by eexists. Qed.

Lemma case_number_items_head (text : string) (g : string) (gs : list string) :
  Re.finditer Pat.case_no_pattern text = g :: gs ->
  exists rest : list item,
    case_number_items text = ("Case Number", g) :: rest.
Proof.
  intros Hg. unfold case_number_items, Pat.case_patterns.
  cbn [flat_map]. rewrite Hg. by eexists.
Qed.

(** Every identifier that [finditer] yields for one of the three patterns
    is collected, and it reaches case_info exactly when its item is among
    the first 15 first occurrences. *)
Lemma case_number_item_position (text : string) (doc : Doc)
      (pattern : Re.regex) (g : string) :
  pattern ∈ Pat.case_patterns ->
  g ∈ Re.finditer pattern text ->
  exists i : nat,
    first_occurrences pair_key (case_info_results text doc) !! i
    = Some ("Case Number", g)
    ∧ (("Case Number", g) ∈ extract_case_info text doc ↔ (i < 15)%nat).
Proof.
  intros Hp Hg. unfold extract_case_info.
  rewrite unique_first_occurrences.
  rewrite <- (app_nil_r (case_info_results text doc)).
  apply kept_item_position; [|by intros y _ Hy].
  rewrite case_info_results_passes. apply elem_of_app. left.
  apply elem_of_flat_map. exists pattern. split; [done|].
  apply list_elem_of_In, in_map. by apply list_elem_of_In.
Qed.

(** C7 (amended). The case-number scan runs the three patterns over the
    whole text, before the party lines and the court entities; every match
    that [finditer] yields gives ("Case Number", captured identifier) in
    the collected stream, and the item is in case_info exactly when it is
    among the first 15 first occurrences.  When the analysed text has the
    line "Case No.: 2024-TX-00123", and the text before that line is ASCII
    and has no "case" in any letter case, case_info starts with
    ("Case Number", "2024-TX-00123").  The text before the line is taken
    to be ASCII because under [re.IGNORECASE] the letter s of the patterns
    also matches U+017F, which [str.lower] leaves as it is. *)
Theorem case_number_scan
        (nlp : string -> Doc) (text : string) (r : gmap string (list item))
        (pre tail : string) :
  case_info_results (truncate text) (nlp (truncate text))
  = flat_map (fun pattern =>
                map (fun g => ("Case Number", g))
                    (Re.finditer pattern (truncate text)))
             Pat.case_patterns
    ++ flat_map (case_party_step [])
                (take 50 (Str.split newline (truncate text)))
    ++ flat_map (case_court_step []) (ents (nlp (truncate text)))
  ∧ (analyze_document nlp text = Return r ->
     forall (pattern : Re.regex) (g : string),
       pattern ∈ Pat.case_patterns ->
       g ∈ Re.finditer pattern (truncate text) ->
       exists (out : list item) (i : nat),
         r !! "case_info" = Some out
         ∧ first_occurrences pair_key
             (case_info_results (truncate text) (nlp (truncate text))) !! i
           = Some ("Case Number", g)
         ∧ (("Case Number", g) ∈ out ↔ (i < 15)%nat))
  ∧ (analyze_document nlp text = Return r ->
     truncate text = pre +:+ (case_no_line +:+ tail) ->
     at_line_end tail = true ->
     isascii pre = true ->
     Str.contains "case" (Str.lower pre) = false ->
     exists rest : list item,
       r !! "case_info" = Some (("Case Number", "2024-TX-00123") :: rest)).
Proof.
  split; [apply case_info_results_passes|]. split.
  { intros Hr pattern g Hp Hg.
    destruct (analysis_result nlp text r Hr) as (Hout & _).
    destruct (case_number_item_position (truncate text) (nlp (truncate text))
                pattern g Hp Hg) as (i & Hi & Hiff).
    by eexists _, i. }
  intros Hr Htext Htail _ Hpre.
  destruct (analysis_result nlp text r Hr) as (Hout & _).
  assert (Hhead : exists rest : list item,
             extract_case_info (truncate text) (nlp (truncate text))
             = ("Case Number", "2024-TX-00123") :: rest).
  { unfold extract_case_info.
    rewrite unique_first_occurrences, case_info_results_passes.
    destruct (finditer_case_no_line pre tail Hpre Htail) as [gs Hgs].
    rewrite <- Htext in Hgs.
    destruct (case_number_items_head _ _ _ Hgs) as [items ->].
    rewrite <- app_comm_cons.
    apply (first_occurrences_head pair_key 14). }
  destruct Hhead as [rest Hrest]. exists rest. rewrite <- Hrest. exact Hout.
Qed.

(** C7 (counterexample). In two accepted texts that have the line, the
    item is missing: a header cut after "Case No." takes the word "Case"
    of the line as its identifier and the scan resumes behind it; and
    fifteen earlier case numbers fill the category. *)
Lemma case_number_scan_counterexample :
  (analyze_document no_entities split_header
   = Return (results_dict split_header (no_entities split_header))
   ∧ case_no_line ∈ Str.split newline split_header
   ∧ results_dict split_header (no_entities split_header) !! "case_info"
     = Some [("Case Number", "Case")])
  ∧ analyze_document no_entities late_case_no
    = Return (results_dict late_case_no (no_entities late_case_no))
  ∧ case_no_line ∈ Str.split newline late_case_no
  ∧ results_dict late_case_no (no_entities late_case_no) !! "case_info"
    = Some (map (fun n => ("Case Number", "D-" +:+ numeral (100 + n)))
                (seq 1 15))
  ∧ ("Case Number", "2024-TX-00123")
    ∉ map (fun n => ("Case Number", "D-" +:+ numeral (100 + n))) (seq 1 15).
Proof.
  split; [split; [by vm_compute|split; [decide_closed|by vm_compute]]|].
  split; [by vm_compute|]. split; [decide_closed|].
  split; [by vm_compute|]. decide_closed.
Qed.

(** C7 (witness): a notice with an ASCII heading before the case-number
    line. *)
Lemma case_number_scan_witness :
  analyze_document no_entities headed_notice
  = Return (results_dict headed_notice (no_entities headed_notice))
  ∧ truncate headed_notice
    = ("Notice of deficiency" +:+ nl)
      +:+ (case_no_line +:+ (nl +:+ unlines [filler]))
  ∧ isascii ("Notice of deficiency" +:+ nl) = true
  ∧ Str.contains "case" (Str.lower ("Notice of deficiency" +:+ nl)) = false
  ∧ exists rest : list item,
      results_dict headed_notice (no_entities headed_notice) !! "case_info"
      = Some (("Case Number", "2024-TX-00123") :: rest).
Proof.
  assert (H1 : analyze_document no_entities headed_notice
               = Return (results_dict headed_notice
                                      (no_entities headed_notice)))
    by (vm_compute; reflexivity).
  assert (H2 : truncate headed_notice
               = ("Notice of deficiency" +:+ nl)
                 +:+ (case_no_line +:+ (nl +:+ unlines [filler])))
    by (vm_compute; reflexivity).
  split; [exact H1|]. split; [exact H2|].
  split; [reflexivity|]. split; [reflexivity|].
  exact (proj2 (proj2 (case_number_scan no_entities headed_notice _
                         ("Notice of deficiency" +:+ nl) _))
               H1 H2 eq_refl eq_refl eq_refl).
Defined.

(** * Two consequences of plain substring tests *)

Lemma accepted_result (nlp : string -> Doc) (text : string) :
  (100 <=? Str.len (Str.strip text))%nat = true ->
  truncate text = text ->
  analyze_document nlp text = Return (results_dict text (nlp text)).
Proof.
  intros Hlen%Nat.leb_le Htrunc.
  destruct (analyze_document_cases nlp text) as [[Hbad _]|[_ ->]].
  - destruct Hbad as [->|Hlt]; [|lia].
    assert (Str.len (Str.strip "") = 0%nat) by done. lia.
  - by rewrite Htrunc.
Qed.

(** C9. The party scan can produce an item with empty content: the line
    "Plaintiff:" is among the first 50 lines of an accepted text, its
    trimmed length is strictly between 5 and 100, nothing follows its
    colon, and case_info has ("Plaintiff", "") whatever the recognizer
    finds. *)
Theorem plaintiff_line_empty_content :
  (exists i : nat, (i < 50)%nat
                   ∧ Str.split newline plaintiff_header !! i = Some "Plaintiff:")
  ∧ (5 < Str.len (Str.strip "Plaintiff:"))%nat
  ∧ (Str.len (Str.strip "Plaintiff:") < 100)%nat
  ∧ party_content "Plaintiff:" = ""
  ∧ case_party_step [] "Plaintiff:" = [("Plaintiff", "")]
  ∧ forall nlp : string -> Doc,
      exists (r : gmap string (list item)) (out : list item),
        analyze_document nlp plaintiff_header = Return r
        ∧ r !! "case_info" = Some out
        ∧ ("Plaintiff", "") ∈ out.
Proof.
  split; [exists 0%nat; split; [lia|by vm_compute]|].
  split; [vm_compute; lia|]. split; [vm_compute; lia|].
  split; [by vm_compute|]. split; [by vm_compute|].
  intros nlp. eexists _, _.
  split; [apply accepted_result; by vm_compute|].
  split; [apply results_dict_lookup|].
  unfold extract_case_info.
  rewrite unique_first_occurrences, case_info_results_split.
  replace (case_text_pass plaintiff_header) with [("Plaintiff", "")]
    by (by vm_compute).
  simpl. left.
Qed.

Lemma startswith_spec (p s : string) :
  Str.startswith p s = true <-> exists post, s = p +:+ post.
Proof.
  split.
  - revert s. induction p as [|a p IH]; intros s Hs; [by exists s|].
    destruct s as [|b s]; [done|]. simpl in Hs.
    apply andb_true_iff in Hs as [Hab Hp].
    apply Ascii.eqb_eq in Hab as ->.
    destruct (IH s Hp) as [post ->]. by exists post.
  - intros [post ->]. induction p as [|a p IH]; simpl; [done|].
    rewrite IH. unfold Char.eqb. by rewrite Ascii.eqb_refl.
Qed.

(** [sub in s] holds exactly when [s] has [sub] somewhere inside, with
    anything before it and after it. *)
Lemma contains_spec (sub s : string) :
  Str.contains sub s = true <-> exists pre post, s = pre +:+ (sub +:+ post).
Proof.
  split.
  - induction s as [|c s IH].
    + simpl. rewrite orb_false_r. intros [post Hpost]%startswith_spec.
      by exists "", post.
    + cbn [Str.contains]. intros [Hhere|Hlater]%orb_true_iff.
      * apply startswith_spec in Hhere as [post Hpost]. by exists "", post.
      * destruct (IH Hlater) as (pre & post & ->).
        by exists (String c pre), post.
  - intros (pre & post & ->).
    apply contains_app_l, startswith_contains, startswith_spec.
    by exists post.
Qed.

Lemma any_in_spec (keywords : list string) (s : string) :
  any_in keywords s = true
  <-> exists kw pre post, kw ∈ keywords ∧ s = pre +:+ (kw +:+ post).
Proof.
  unfold any_in. rewrite existsb_exists. split.
  - intros (kw & Hkw%list_elem_of_In & (pre & post & Hs)%contains_spec).
    by exists kw, pre, post.
  - intros (kw & pre & post & Hkw%list_elem_of_In & Hs).
    exists kw. split; [done|]. apply contains_spec. by exists pre, post.
Qed.

(** C10. Keyword detection in the tax line scan is plain substring
    containment.  For every line: the keyword test holds exactly when the
    lowercased line has a keyword somewhere inside it, whatever stands
    before and after; a line for which it fails adds nothing; a line for
    which it holds, within the length window and with a money pattern,
    adds its item.  The line "the syntax error costs $5 now" has no tax
    keyword among its words, "tax" is the only keyword it contains (inside
    "syntax"), a money pattern matches it, its trimmed length is strictly
    between 10 and 200, no priority keyword occurs in it, and tax_amounts
    has ("Amount", that line) whatever the recognizer finds.  The same
    line with "syntx" for "syntax" contains no keyword and gives no tax
    amount. *)
Theorem syntax_line_is_a_tax_amount :
  (forall line : string,
      (any_in tax_keywords (Str.lower line) = true
       <-> exists kw pre post,
           kw ∈ tax_keywords ∧ Str.lower line = pre +:+ (kw +:+ post))
      ∧ (any_in tax_keywords (Str.lower line) = false ->
         forall results, tax_line_step results line = results)
      ∧ (any_in tax_keywords (Str.lower line) = true ->
         in_window line = true ->
         any_search Pat.money_patterns line = true ->
         forall results,
           tax_line_step results line
           = results ++ [(tax_line_heading (Str.lower line), Str.strip line)]))
  ∧ Str.split " " (Str.lower syntax_line)
    = ["the"; "syntax"; "error"; "costs"; "$5"; "now"]
  ∧ Forall (fun w => w ∉ tax_keywords) (Str.split " " (Str.lower syntax_line))
  ∧ filter (fun kw => Str.contains kw (Str.lower syntax_line) = true) tax_keywords
    = ["tax"]
  ∧ Str.contains "tax" "syntax" = true
  ∧ any_in tax_keywords (Str.lower syntax_line) = true
  ∧ any_search Pat.money_patterns syntax_line = true
  ∧ strictly_in_window syntax_line = true
  ∧ tax_line_heading (Str.lower syntax_line) = "Amount"
  ∧ syntax_line ∈ Str.split newline syntax_notice
  ∧ (forall nlp : string -> Doc,
        exists (r : gmap string (list item)) (out : list item),
          analyze_document nlp syntax_notice = Return r
          ∧ r !! "tax_amounts" = Some out
          ∧ ("Amount", syntax_line) ∈ out)
  ∧ any_in tax_keywords (Str.lower syntx_line) = false
  ∧ any_search Pat.money_patterns syntx_line = true
  ∧ strictly_in_window syntx_line = true
  ∧ syntx_line ∈ Str.split newline syntx_notice
  ∧ analyze_document no_entities syntx_notice
    = Return (results_dict syntx_notice (no_entities syntx_notice))
  ∧ results_dict syntx_notice (no_entities syntx_notice) !! "tax_amounts"
    = Some [].
Proof.
  split.
  { intros line. split; [apply any_in_spec|]. split.
    - intros Hnone results.
      rewrite tax_line_step_emit, tax_line_step_nil, Hnone.
      by rewrite andb_false_r, app_nil_r.
    - intros Hkw Hwin Hmoney results.
      rewrite tax_line_step_emit, tax_line_step_nil, Hkw, Hwin, Hmoney.
      by rewrite tax_line_heading_table. }
  split; [by vm_compute|]. split; [decide_closed|].
  split; [by vm_compute|]. split; [by vm_compute|].
  split; [by vm_compute|].
  split; [by vm_compute|]. split; [by vm_compute|].
  split; [by vm_compute|]. split; [decide_closed|].
  split.
  { intros nlp. eexists _, _.
    split; [apply accepted_result; by vm_compute|].
    split; [apply results_dict_lookup|].
    unfold extract_tax_amounts.
    rewrite unique_first_occurrences, tax_amounts_results_split.
    replace (tax_text_pass syntax_notice) with [("Amount", syntax_line)]
      by (by vm_compute).
    simpl. left. }
  split; [by vm_compute|]. split; [by vm_compute|].
  split; [by vm_compute|]. split; [decide_closed|].
  split; [by vm_compute|]. by vm_compute.
Qed.

(** * Soundness of the matcher *)

Lemma str_app_nil_r (s : string) : s +:+ "" = s.
Proof. induction s as [|c s IH]; simpl; [done|by rewrite IH]. Qed.

Lemma star_loop_sound (r1 : Re.regex)
      (body : string -> nat -> string -> Re.cont -> option Re.result) :
  (forall s pos g k m,
      body s pos g k = Some m ->
      exists u s' g', s = u +:+ s' ∧ derives r1 u g g'
                      ∧ k s' (pos + Str.len u)%nat g' = Some m) ->
  forall fuel s pos g k m,
    Re.star_loop body fuel s pos g k = Some m ->
    exists u s' g', s = u +:+ s' ∧ derives (Re.Star r1) u g g'
                    ∧ k s' (pos + Str.len u)%nat g' = Some m.
Proof.
  intros Hbody fuel. induction fuel as [|fuel IH]; intros s pos g k m; simpl.
  - intros Hk. exists "", s, g. rewrite Nat.add_0_r.
    split; [done|]. split; [constructor|done].
  - destruct (body s pos g _) as [m'|] eqn:Hb.
    + intros [= ->]. apply Hbody in Hb as (u & s1 & g1 & -> & Hu & Hk).
      destruct (pos <? pos + Str.len u)%nat; [|done].
      apply IH in Hk as (v & s2 & g2 & -> & Hv & Hk).
      exists (u +:+ v), s2, g2. split; [by rewrite app_assoc_str|].
      split; [by econstructor|]. by rewrite len_app, Nat.add_assoc.
    + intros Hk. exists "", s, g. rewrite Nat.add_0_r.
      split; [done|]. split; [constructor|done].
Qed.

(** Whatever [run] returns was returned by the continuation, called
    behind a string that the pattern matches. *)
Lemma run_sound (r : Re.regex) :
  forall s pos g k m,
    Re.run r s pos g k = Some m ->
    exists u s' g', s = u +:+ s' ∧ derives r u g g'
                    ∧ k s' (pos + Str.len u)%nat g' = Some m.
Proof.
  induction r as [|p|r1 IH1 r2 IH2|r1 IH1 r2 IH2|r1 IH1|r1 IH1];
    intros s pos g k m; cbn [Re.run].
  - intros Hk. exists "", s, g. rewrite Nat.add_0_r.
    split; [done|]. split; [constructor|done].
  - destruct s as [|c s]; [done|]. destruct (p c) eqn:Hp; [|done].
    intros Hk. exists (String c ""), s, g.
    split; [done|]. split; [by constructor|]. by rewrite Nat.add_1_r.
  - intros (u & s1 & g1 & -> & Hu & Hk)%IH1.
    apply IH2 in Hk as (v & s2 & g2 & -> & Hv & Hk).
    exists (u +:+ v), s2, g2. split; [by rewrite app_assoc_str|].
    split; [by econstructor|]. by rewrite len_app, Nat.add_assoc.
  - destruct (Re.run r1 s pos g k) as [m'|] eqn:H1.
    + intros [= ->]. apply IH1 in H1 as (u & s' & g' & -> & Hu & Hk).
      exists u, s', g'. split; [done|]. split; [by constructor|done].
    + intros (u & s' & g' & -> & Hu & Hk)%IH2.
      exists u, s', g'. split; [done|]. split; [by apply derives_alt_r|done].
  - apply star_loop_sound. apply IH1.
  - intros (u & s' & g' & -> & Hu & Hk)%IH1.
    exists u, s', u. split; [done|]. split; [by econstructor|].
    replace (pos + Str.len u - pos)%nat with (Str.len u) in Hk by lia.
    by rewrite take_app_exact in Hk.
Qed.

Lemma match_at_sound (r : Re.regex) (s rest g : string) (n : nat) :
  Re.match_at r s = Some (n, rest, g) ->
  exists u, s = u +:+ rest ∧ derives r u "" g ∧ n = Str.len u.
Proof.
  unfold Re.match_at. intros (u & s' & g' & -> & Hu & [= <- <- <-])%run_sound.
  by exists u.
Qed.

(** [re.search] succeeds only where the pattern matches a piece of the
    text. *)
Lemma search_sound (r : Re.regex) (s : string) :
  Re.search r s = true ->
  exists pre u post g, s = pre +:+ (u +:+ post) ∧ derives r u "" g.
Proof.
  induction s as [|c s IH]; simpl.
  - destruct (Re.match_at r "") as [[[n rest] g]|] eqn:Hm; [|done].
    intros _. apply match_at_sound in Hm as (u & Hs & Hu & _).
    by exists "", u, rest, g.
  - destruct (Re.match_at r (String c s)) as [[[n rest] g]|] eqn:Hm.
    + intros _. apply match_at_sound in Hm as (u & Hs & Hu & _).
      by exists "", u, rest, g.
    + intros (pre & u & post & g & -> & Hu)%IH.
      by exists (String c pre), u, post, g.
Qed.

(** Every identifier that [finditer] yields is group 1 of a match of a
    piece of the text. *)
Lemma finditer_from_sound (r : Re.regex) (fuel : nat) :
  forall s g, g ∈ Re.finditer_from fuel r s ->
  exists pre u post, s = pre +:+ (u +:+ post) ∧ derives r u "" g.
Proof.
  induction fuel as [|fuel IH]; intros s g; [by intros ?%elem_of_nil|].
  rewrite finditer_from_S.
  destruct (Re.match_at r s) as [[[n rest] g0]|] eqn:Hm.
  - apply match_at_sound in Hm as (u & -> & Hu & ->).
    assert (Hrest : g ∈ Re.finditer_from fuel r rest ->
              exists pre u0 post,
                u +:+ rest = pre +:+ (u0 +:+ post) ∧ derives r u0 "" g).
    { intros (pre & u0 & post & -> & Hu0)%IH.
      exists (u +:+ pre), u0, post. by rewrite app_assoc_str. }
    destruct (0 <? Str.len u)%nat.
    + intros [->|Hin]%elem_of_cons; [by exists "", u, rest|by apply Hrest].
    + destruct (u +:+ rest) as [|c s'] eqn:Hs.
      * intros ->%list_elem_of_singleton. exists "", u, rest. by rewrite Hs.
      * intros [->|Hin]%elem_of_cons; [exists "", u, rest; by rewrite Hs|].
        apply IH in Hin as (pre & u0 & post & -> & Hu0).
        by exists (String c pre), u0, post.
  - destruct s as [|c s']; [by intros ?%elem_of_nil|].
    intros (pre & u & post & -> & Hu)%IH.
    by exists (String c pre), u, post.
Qed.

Lemma has_char_app (P : ascii -> bool) (s t : string) :
  has_char P (s +:+ t) = has_char P s || has_char P t.
Proof. induction s as [|c s IH]; simpl; [done|]. by rewrite IH, orb_assoc. Qed.

Lemma all_chars_complete (c : ascii) : c ∈ all_chars.
Proof.
  unfold all_chars. apply list_elem_of_In, in_map_iff.
  exists (nat_of_ascii c). split; [apply ascii_nat_embedding|].
  apply in_seq. pose proof (nat_ascii_bounded c). lia.
Qed.

(** The test [always_has] is sound. *)
Lemma always_has_sound (P : ascii -> bool) (r : Re.regex) (u g g' : string) :
  always_has P r = true -> derives r u g g' -> has_char P u = true.
Proof.
  intros Hr Hd. induction Hd; cbn [always_has] in Hr; try done.
  - rewrite forallb_forall in Hr.
    specialize (Hr c (proj1 (list_elem_of_In _ _) (all_chars_complete c))).
    rewrite H in Hr. cbn [implb] in Hr. cbn [has_char]. by rewrite Hr.
  - rewrite has_char_app. apply orb_true_iff in Hr as [Hr|Hr].
    + by rewrite IHHd1.
    + rewrite IHHd2 by done. apply orb_true_r.
  - apply andb_true_iff in Hr as [Hr _]. by apply IHHd.
  - apply andb_true_iff in Hr as [_ Hr]. by apply IHHd.
  - by apply IHHd.
Qed.
(** * Invariants of the extracted items *)

Lemma extracted_Forall {K : Type} `{Countable K} (key : item -> K)
      (cap : nat) (stream : list item) (P : item -> Prop) :
  Forall P stream -> Forall P (take cap (unique key stream)).
Proof.
  intros Hs. apply Forall_take. rewrite Forall_forall in *.
  intros x Hx. apply Hs. rewrite unique_unique_from in Hx.
  eapply elem_of_sublist; [exact Hx|apply unique_from_sublist].
Qed.

Lemma Forall_flat_map {A B : Type} (f : A -> list B) (l : list A)
      (P : B -> Prop) :
  (forall x, x ∈ l -> Forall P (f x)) -> Forall P (flat_map f l).
Proof.
  intros Hf. apply Forall_forall. intros y (x & Hx & Hy)%elem_of_flat_map.
  specialize (Hf x Hx). rewrite Forall_forall in Hf. by apply Hf.
Qed.

Lemma rstrip_cons (c : ascii) (s : string) :
  Str.rstrip (String c s)
  = match Str.rstrip s with
    | EmptyString => if Char.isspace c then EmptyString else String c EmptyString
    | String d r => String c (String d r)
    end.
Proof. reflexivity. Qed.

Lemma rstrip_idem (s : string) : Str.rstrip (Str.rstrip s) = Str.rstrip s.
Proof.
  induction s as [|c s IH]; [done|]. rewrite rstrip_cons.
  destruct (Str.rstrip s) as [|d r] eqn:Hr.
  - destruct (Char.isspace c) eqn:Hc; [done|].
    rewrite rstrip_cons. simpl. by rewrite Hc.
  - rewrite rstrip_cons. by rewrite IH.
Qed.

Lemma lstrip_keeps_trimmed_start (s : string) :
  Str.lstrip (Str.rstrip (Str.lstrip s)) = Str.rstrip (Str.lstrip s).
Proof.
  induction s as [|c s IH]; [done|]. simpl Str.lstrip at 2 3.
  destruct (Char.isspace c) eqn:Hc; [exact IH|]. rewrite rstrip_cons.
  destruct (Str.rstrip s); rewrite ?Hc; simpl; by rewrite Hc.
Qed.

(** Trimming a trimmed string changes nothing. *)
Lemma strip_idem (s : string) : Str.strip (Str.strip s) = Str.strip s.
Proof.
  unfold Str.strip. by rewrite lstrip_keeps_trimmed_start, rstrip_idem.
Qed.

Lemma len_strip_le (s : string) : (Str.len (Str.strip s) <= Str.len s)%nat.
Proof.
  destruct (strip_decompose s) as (pre & post & Hs).
  rewrite Hs at 2. rewrite !len_app. lia.
Qed.

Lemma split1_shape (c : ascii) (s : string) :
  Str.split1 c s = [s]
  ∨ exists a b, Str.split1 c s = [a; b] ∧ (Str.len b < Str.len s)%nat.
Proof.
  induction s as [|d s IH]; [by left|]. simpl.
  destruct (Char.eqb d c).
  - right. exists "", s. split; [done|]. unfold Str.len. simpl. lia.
  - destruct IH as [->|(a & b & -> & Hlen)]; [by left|].
    right. exists (String d a), b. split; [done|].
    unfold Str.len in *. simpl. lia.
Qed.

Lemma len_last_split1 (c : ascii) (s : string) :
  (Str.len (Str.last_item (Str.split1 c s)) <= Str.len s)%nat.
Proof.
  destruct (split1_shape c s) as [->|(a & b & -> & Hlen)];
    unfold Str.last_item; simpl; lia.
Qed.

Lemma first_heading_in (table : list (list string * string))
      (default s : string) :
  first_heading table default s ∈ default :: map snd table.
Proof.
  induction table as [|[kws h] table IH]; simpl; [by left|].
  destruct (any_in kws s).
  - right. by left.
  - apply elem_of_cons in IH as [->|IH]; [by left|]. right. by right.
Qed.

Lemma first_pattern_heading_in (patterns : list (Re.regex * string))
      (line h : string) :
  first_pattern_heading patterns line = Some h -> h ∈ map snd patterns.
Proof.
  induction patterns as [|[p h'] patterns IH]; simpl; [done|].
  destruct (Re.search p line).
  - intros [= ->]. by left.
  - intros Hh. right. by apply IH.
Qed.

Ltac split_ifs :=
  repeat match goal with
         | |- context [if ?b then _ else _] =>
             lazymatch b with
             | true => fail
             | false => fail
             | _ => destruct b eqn:?; cbv iota
             end
         end.

Ltac in_list := repeat first [by left | right]; fail.

Ltac emitted_items :=
  split_ifs; rewrite ?app_nil_l;
  first [apply Forall_nil_2 | apply Forall_cons_2; [|apply Forall_nil_2]].

(** X1. Every heading of every category is one of the fixed labels of that
    category. *)
Theorem headings_are_known (text : string) (doc : Doc) :
  Forall (fun it => fst it ∈ ["Case Number"; "Plaintiff"; "Defendant";
                              "Petitioner"; "Respondent"; "Court"])
         (extract_case_info text doc)
  ∧ Forall (fun it => fst it ∈ ["Amount"; "Penalty"; "Interest"; "Amount Due";
                                "Refund"; "Assessment"; "Payment";
                                "Liability"; "Deficiency"])
           (extract_tax_amounts text doc)
  ∧ Forall (fun it => fst it ∈ ["Date"; "Deadline"; "Filing Date";
                                "Hearing Date"; "Trial Date";
                                "Effective Date"; "Tax Year"])
           (extract_dates text doc)
  ∧ Forall (fun it => fst it ∈ ["Section"; "USC Reference"; "IRC Section";
                                "CFR Reference"; "Title Reference";
                                "Public Law"])
           (extract_legal_references text)
  ∧ Forall (fun it => fst it ∈ ["Key Point"; "Person"; "Organization"])
           (extract_other_details text doc).
Proof.
  repeat split; apply extracted_Forall.
  - rewrite case_info_results_passes, !Forall_app. repeat split.
    + apply Forall_flat_map. intros p _. apply Forall_forall.
      intros it Hit%list_elem_of_In%in_map_iff. destruct Hit as (g & <- & _). by left.
    + apply Forall_flat_map. intros line _. unfold case_party_step.
      emitted_items; simpl; in_list.
    + apply Forall_flat_map. intros ent _. unfold case_court_step.
      emitted_items; simpl; in_list.
  - rewrite tax_amounts_results_passes, Forall_app. split.
    + apply Forall_flat_map. intros line _. rewrite tax_line_step_nil.
      emitted_items. apply (first_heading_in tax_heading_table).
    + apply Forall_flat_map. intros ent _. unfold tax_ent_step.
      emitted_items; simpl; in_list.
  - rewrite dates_results_passes, Forall_app. split.
    + apply Forall_flat_map. intros line _. rewrite date_line_step_nil.
      emitted_items. apply (first_heading_in date_heading_table).
    + apply Forall_flat_map. intros ent _. unfold date_ent_step.
      emitted_items; simpl; in_list.
  - rewrite legal_refs_results_passes.
    apply Forall_flat_map. intros line _. rewrite legal_line_step_nil.
    destruct (in_window line); [|constructor].
    destruct (first_pattern_heading _ _) as [h|] eqn:Hh; [|constructor].
    apply Forall_singleton. by apply first_pattern_heading_in in Hh.
  - rewrite other_results_split, Forall_app. split.
    + rewrite other_line_results_passes.
      apply Forall_flat_map. intros line _. unfold other_line_step.
      emitted_items; simpl; in_list.
    + apply Forall_take. unfold other_ent_items.
      apply Forall_flat_map. intros ent _.
      emitted_items; simpl; in_list.
Qed.

(** X2. Every content of tax_amounts, dates and legal_refs is trimmed and
    has at most 200 characters; a legal reference has at least 10. *)
Theorem contents_are_trimmed_and_bounded (text : string) (doc : Doc) :
  Forall (fun it => Str.strip (snd it) = snd it
                    ∧ (Str.len (snd it) <= 200)%nat)
         (extract_tax_amounts text doc)
  ∧ Forall (fun it => Str.strip (snd it) = snd it
                      ∧ (Str.len (snd it) <= 200)%nat)
           (extract_dates text doc)
  ∧ Forall (fun it => Str.strip (snd it) = snd it
                      ∧ (10 <= Str.len (snd it))%nat
                      ∧ (Str.len (snd it) <= 200)%nat)
           (extract_legal_references text).
Proof.
  repeat split; apply extracted_Forall.
  - rewrite tax_amounts_results_passes, Forall_app. split.
    + apply Forall_flat_map. intros line _. rewrite tax_line_step_nil.
      destruct (in_window line) eqn:Hw; [|constructor].
      apply in_window_spec in Hw.
      emitted_items. simpl. split; [apply strip_idem|lia].
    + apply Forall_flat_map. intros ent _. unfold tax_ent_step.
      destruct (String.eqb _ _); [|constructor].
      destruct (any_in _ _); [|constructor].
      destruct (Nat.ltb_spec (Str.len (Str.strip (span_text doc
                  (Nat.max 0 (ent_start ent - 10))
                  (Nat.min (doc_len doc) (ent_end ent + 10))))) 200);
        [|constructor].
      apply Forall_singleton. cbn [fst snd]. split; [apply strip_idem|lia].
  - rewrite dates_results_passes, Forall_app. split.
    + apply Forall_flat_map. intros line _. rewrite date_line_step_nil.
      destruct (in_window line) eqn:Hw; [|constructor].
      apply in_window_spec in Hw.
      emitted_items. simpl. split; [apply strip_idem|lia].
    + apply Forall_flat_map. intros ent _. unfold date_ent_step.
      destruct (String.eqb _ _); [|constructor].
      destruct (any_in _ _); [|constructor].
      destruct (Nat.ltb_spec (Str.len (Str.strip (span_text doc
                  (Nat.max 0 (ent_start ent - 8))
                  (Nat.min (doc_len doc) (ent_end ent + 8))))) 200);
        [|constructor].
      apply Forall_singleton. cbn [fst snd]. split; [apply strip_idem|lia].
  - rewrite legal_refs_results_passes.
    apply Forall_flat_map. intros line _. rewrite legal_line_step_nil.
    destruct (in_window line) eqn:Hw; [|constructor].
    apply in_window_spec in Hw.
    destruct (first_pattern_heading _ _); [|constructor].
    apply Forall_singleton. simpl. split; [apply strip_idem|lia].
Qed.

(** X3. In the other category an Organization never mentions a court, and
    a Key Point is a trimmed line of 21 to 149 characters that begins with
    a list marker. *)
Theorem other_details_items (text : string) (doc : Doc) :
  Forall (fun it =>
            (fst it = "Organization" ->
             Str.contains "court" (Str.lower (snd it)) = false)
            ∧ (fst it = "Key Point" ->
               Str.strip (snd it) = snd it
               ∧ (20 < Str.len (snd it))%nat ∧ (Str.len (snd it) < 150)%nat
               ∧ Re.matches Pat.list_marker (snd it) = true))
         (extract_other_details text doc).
Proof.
  apply extracted_Forall. rewrite other_results_split, Forall_app. split.
  - rewrite other_line_results_passes.
    apply Forall_flat_map. intros line _. unfold other_line_step.
    destruct (Nat.ltb_spec 20 (Str.len (Str.strip line))); [|constructor].
    destruct (Nat.ltb_spec (Str.len (Str.strip line)) 150); [|constructor].
    simpl. destruct (Re.matches Pat.list_marker (Str.strip line)) eqn:Hm;
      [|constructor].
    apply Forall_singleton. simpl. split; [done|]. intros _.
    split; [apply strip_idem|done].
  - apply Forall_take. unfold other_ent_items.
    apply Forall_flat_map. intros ent _.
    destruct (String.eqb (label_ ent) "PERSON"); [by apply Forall_singleton|].
    destruct (String.eqb (label_ ent) "ORG"); [|constructor].
    destruct (Str.contains "court" (Str.lower (ent_text ent))) eqn:Hc;
      [constructor|].
    by apply Forall_singleton.
Qed.

Lemma len_party_content (line : string) :
  (Str.len (party_content line) <= Str.len (Str.strip line))%nat.
Proof.
  unfold party_content. destruct (Str.contains ":" line).
  - etrans; [apply len_strip_le|]. apply len_last_split1.
  - lia.
Qed.

Lemma party_content_trimmed (line : string) :
  Str.strip (party_content line) = party_content line.
Proof. unfold party_content. destruct (Str.contains ":" line); apply strip_idem. Qed.

(** X4. In case_info the content of a party item is trimmed and shorter
    than 100 characters, and a Court content mentions a court or a
    tribunal. *)
Theorem case_info_items (text : string) (doc : Doc) :
  Forall (fun it =>
            (fst it ∈ ["Plaintiff"; "Defendant"; "Petitioner"; "Respondent"] ->
             Str.strip (snd it) = snd it ∧ (Str.len (snd it) < 100)%nat)
            ∧ (fst it = "Court" ->
               any_in ["court"; "tribunal"] (Str.lower (snd it)) = true))
         (extract_case_info text doc).
Proof.
  apply extracted_Forall.
  rewrite case_info_results_passes, !Forall_app. repeat split.
  - apply Forall_flat_map. intros p _. apply Forall_forall.
    intros it Hit%list_elem_of_In%in_map_iff. destruct Hit as (g & <- & _).
    simpl. split; [|done]. intros Hin. by repeat (apply elem_of_cons in Hin as [?|Hin]; [done|]); apply elem_of_nil in Hin.
  - apply Forall_flat_map. intros line _. unfold case_party_step.
    pose proof (len_party_content line) as Hlen.
    pose proof (party_content_trimmed line) as Htrim.
    destruct (Nat.ltb_spec (Str.len (Str.strip line)) 100) as [Hlt|Hge];
      [|rewrite !andb_false_r; constructor].
    emitted_items; simpl; (split; [intros _; split; [done|lia]|done]).
  - apply Forall_flat_map. intros ent _. unfold case_court_step.
    destruct (String.eqb _ _); [|constructor].
    destruct (any_in _ _) eqn:Hany; [|constructor].
    apply Forall_singleton. simpl. split; [|done].
    intros Hin. by repeat (apply elem_of_cons in Hin as [?|Hin]; [done|]); apply elem_of_nil in Hin.
Qed.

(** * What the patterns guarantee *)

Lemma derives_eps_inv (u g g' : string) :
  derives Re.Eps u g g' -> u = "" ∧ g' = g.
Proof. by inversion 1. Qed.

Lemma derives_cat_inv (r1 r2 : Re.regex) (w g g2 : string) :
  derives (Re.Cat r1 r2) w g g2 ->
  exists u v g1, w = u +:+ v ∧ derives r1 u g g1 ∧ derives r2 v g1 g2.
Proof. inversion 1; subst. by eexists _, _, _. Qed.

Lemma derives_grp_inv (r : Re.regex) (u g g' : string) :
  derives (Re.Grp r) u g g' -> g' = u ∧ exists g1, derives r u g g1.
Proof. inversion 1; subst. split; [done|by eexists]. Qed.

(** A sequence that ends with the group leaves the group's text, which is
    the end of the match. *)
Lemma derives_seq_last_group (rs : list Re.regex) (body : Re.regex)
      (u g g' : string) :
  derives (Pat.seq (rs ++ [Re.Grp body])) u g g' ->
  exists u1 g0 g1, u = u1 +:+ g' ∧ derives body g' g0 g1.
Proof.
  revert u g. induction rs as [|r rs IH]; intros u g; simpl.
  - intros (u1 & v & g1 & -> & Hg & He)%derives_cat_inv.
    apply derives_eps_inv in He as [-> ->].
    apply derives_grp_inv in Hg as [-> [g0 Hb]].
    exists "", g, g0. by rewrite str_app_nil_r.
  - intros (u1 & v & g1 & -> & _ & Hrest)%derives_cat_inv.
    apply IH in Hrest as (u2 & g0 & g2 & -> & Hb).
    exists (u1 +:+ u2), g0, g2. by rewrite app_assoc_str.
Qed.

Lemma derives_star_chr (p : ascii -> bool) (w g g' : string) :
  derives (Re.Star (Re.Chr p)) w g g' -> all_char p w = true.
Proof.
  intros Hd. remember (Re.Star (Re.Chr p)) as r eqn:Hr.
  induction Hd; try done. injection Hr as ->.
  inversion Hd1; subst. simpl. rewrite IHHd2 by done. by rewrite H0.
Qed.

Lemma derives_plus_chr (p : ascii -> bool) (w g g' : string) :
  derives (Re.Plus (Re.Chr p)) w g g' -> w ≠ "" ∧ all_char p w = true.
Proof.
  intros (u & v & g1 & -> & Hc & Hs)%derives_cat_inv.
  inversion Hc; subst. apply derives_star_chr in Hs.
  split; [done|]. simpl. by rewrite H0, Hs.
Qed.

Lemma contains_refl (s : string) : Str.contains s s = true.
Proof.
  apply startswith_contains. induction s as [|c s IH]; simpl; [done|].
  rewrite IH. unfold Char.eqb. by rewrite Ascii.eqb_refl.
Qed.

Lemma contains_inside (pre s post : string) :
  Str.contains s (pre +:+ (s +:+ post)) = true.
Proof. apply contains_app_l, contains_app_r, contains_refl. Qed.

Lemma case_pattern_identifier (p : Re.regex) (text g : string) :
  p ∈ Pat.case_patterns -> g ∈ Re.finditer p text ->
  g ≠ "" ∧ all_char is_ident_char g = true ∧ Str.contains g text = true.
Proof.
  intros Hp (pre & u & post & -> & Hu)%finditer_from_sound.
  assert (Hlast : exists u1 g0 g1,
             u = u1 +:+ g ∧ derives (Re.Plus Pat.ident_char) g g0 g1).
  { repeat (apply elem_of_cons in Hp as [->|Hp]);
      [| | |by apply elem_of_nil in Hp].
    - apply (derives_seq_last_group
               [Re.word_i "Case"; Re.Plus Re.space; Re.word_i "No";
                Re.Opt (Re.lit "."); Re.Star Re.space; Re.Opt Pat.colon_or_dot;
                Re.Star Re.space] _ _ _ _ Hu).
    - apply (derives_seq_last_group
               [Re.word_i "Docket"; Re.Plus Re.space; Re.word_i "No";
                Re.Opt (Re.lit "."); Re.Star Re.space; Re.Opt Pat.colon_or_dot;
                Re.Star Re.space] _ _ _ _ Hu).
    - apply (derives_seq_last_group
               [Re.word_i "Case"; Re.Plus Re.space; Re.word_i "Number";
                Re.Star Re.space; Re.Opt Pat.colon_or_dot; Re.Star Re.space]
               _ _ _ _ Hu). }
  destruct Hlast as (u1 & g0 & g1 & -> & Hg).
  apply derives_plus_chr in Hg as [Hne Hall].
  split; [done|]. split; [exact Hall|].
  rewrite app_assoc_str, <- (app_assoc_str pre u1). apply contains_inside.
Qed.

Lemma ident_char_no_space (c : ascii) :
  is_ident_char c = true -> Char.isspace c = false.
Proof.
  assert (Hall : forallb (fun c => implb (is_ident_char c)
                                         (negb (Char.isspace c)))
                         all_chars = true) by (by vm_compute).
  rewrite forallb_forall in Hall. intros Hc.
  specialize (Hall c (proj1 (list_elem_of_In _ _) (all_chars_complete c))).
  rewrite Hc in Hall. by destruct (Char.isspace c).
Qed.

Lemma all_char_has_none (P Q : ascii -> bool) (s : string) :
  (forall c, P c = true -> Q c = false) ->
  all_char P s = true -> has_char Q s = false.
Proof.
  intros HPQ. induction s as [|c s IH]; simpl; [done|].
  intros [Hc Hs]%andb_true_iff. by rewrite (HPQ c Hc), (IH Hs).
Qed.

(** X5. Every Case Number content is a non-empty piece of the text
    without white space; when it is ASCII, it is made of letters, digits
    and hyphens only. *)
Theorem case_numbers_are_identifiers (text : string) (doc : Doc) :
  Forall (fun it => fst it = "Case Number" ->
                    snd it ≠ ""
                    ∧ Str.contains (snd it) text = true
                    ∧ has_char Char.isspace (snd it) = false
                    ∧ (isascii (snd it) = true ->
                       all_char is_ident_char (snd it) = true))
         (extract_case_info text doc).
Proof.
  apply extracted_Forall.
  rewrite case_info_results_passes, !Forall_app. repeat split.
  - apply Forall_flat_map. intros p Hp. apply Forall_forall.
    intros it Hit%list_elem_of_In%in_map_iff.
    destruct Hit as (g & <- & Hg%list_elem_of_In). intros _. simpl.
    destruct (case_pattern_identifier p text g Hp Hg) as (Hne & Hall & Hin).
    split; [done|]. split; [done|]. split; [|done].
    by apply (all_char_has_none is_ident_char _ _ ident_char_no_space).
  - apply Forall_flat_map. intros line _. unfold case_party_step.
    emitted_items; by simpl.
  - apply Forall_flat_map. intros ent _. unfold case_court_step.
    emitted_items; by simpl.
Qed.

Lemma any_search_has (P : ascii -> bool) (patterns : list Re.regex)
      (line : string) :
  forallb (always_has P) patterns = true ->
  has_char P line = false -> any_search patterns line = false.
Proof.
  intros Hall Hline. unfold any_search.
  destruct (existsb _ patterns) eqn:Hex; [|done].
  apply existsb_exists in Hex as (p & Hp & Hs).
  rewrite forallb_forall in Hall. specialize (Hall p Hp).
  apply search_sound in Hs as (pre & u & post & g & -> & Hu).
  apply (always_has_sound P) in Hu; [|done].
  rewrite !has_char_app, Hu in Hline. by rewrite orb_true_r in Hline.
Qed.

Lemma first_pattern_heading_has (P : ascii -> bool)
      (patterns : list (Re.regex * string)) (line : string) :
  forallb (always_has P) (map fst patterns) = true ->
  has_char P line = false -> first_pattern_heading patterns line = None.
Proof.
  intros Hall Hline. induction patterns as [|[p h] patterns IH]; [done|].
  simpl in *. apply andb_true_iff in Hall as [Hp Hall].
  destruct (Re.search p line) eqn:Hs; [|by apply IH].
  apply search_sound in Hs as (pre & u & post & g & -> & Hu).
  apply (always_has_sound P) in Hu; [|done].
  rewrite !has_char_app, Hu in Hline. by rewrite orb_true_r in Hline.
Qed.

(** X6. The line scans need figures: a line without a digit and without a
    comma adds no tax amount, and a line without a digit adds no date and
    no legal reference. *)
Theorem line_scans_need_digits (results : list item) (line : string) :
  (has_char is_digit_or_comma line = false ->
   tax_line_step results line = results)
  ∧ (has_char Char.isdigit line = false ->
     date_line_step results line = results
     ∧ legal_line_step results line = results).
Proof.
  split; [|split].
  - intros Hline. rewrite tax_line_step_emit, tax_line_step_nil.
    rewrite (any_search_has is_digit_or_comma) by (done || by vm_compute).
    by rewrite andb_false_r, app_nil_r.
  - rewrite date_line_step_emit, date_line_step_nil.
    rewrite (any_search_has Char.isdigit) by (done || by vm_compute).
    by rewrite andb_false_r, app_nil_r.
  - rewrite legal_line_step_emit, legal_line_step_nil.
    rewrite (first_pattern_heading_has Char.isdigit) by (done || by vm_compute).
    destruct (in_window line); by rewrite app_nil_r.
Qed.

(** X6 (witness): a line that names a tax but no figure. *)
Lemma line_scans_need_digits_witness :
  has_char is_digit_or_comma "the penalty tax is due in dollars" = false
  ∧ tax_line_step [] "the penalty tax is due in dollars" = [].
Proof.
  assert (H : has_char is_digit_or_comma "the penalty tax is due in dollars"
              = false) by (by vm_compute).
  split; [exact H|].
  exact (proj1 (line_scans_need_digits [] _) H).
Defined.

(** * Lines *)

Lemma split_head (c : ascii) (s : string) :
  exists h t post, Str.split c s = h :: t ∧ s = h +:+ post.
Proof.
  induction s as [|d s (h & t & post & Hs & Hpost)]; simpl.
  - by exists "", [], "".
  - destruct (Char.eqb d c).
    + by exists "", (Str.split c s), (String d s).
    + rewrite Hs. exists (String d h), t, post. split; [done|].
      simpl. by rewrite <- Hpost.
Qed.

(** A line of [s.split(c)] is a piece of [s]. *)
Lemma split_elem_inside (c : ascii) (s line : string) :
  line ∈ Str.split c s -> exists pre post, s = pre +:+ (line +:+ post).
Proof.
  revert line. induction s as [|d s IH]; intros line; simpl.
  - intros ->%list_elem_of_singleton. by exists "", "".
  - destruct (Char.eqb d c).
    + intros [->|Hin]%elem_of_cons; [by exists "", (String d s)|].
      apply IH in Hin as (pre & post & ->). by exists (String d pre), post.
    + destruct (split_head c s) as (h & t & post & Hs & Hpost).
      rewrite Hs. intros [->|Hin]%elem_of_cons.
      * exists "", post. simpl. by rewrite <- Hpost.
      * assert (Hline : line ∈ Str.split c s) by (rewrite Hs; by right).
        apply IH in Hline as (pre & post' & ->).
        by exists (String d pre), post'.
Qed.

Lemma stripped_line_inside (text line : string) :
  line ∈ Str.split newline text -> Str.contains (Str.strip line) text = true.
Proof.
  intros (pre & post & ->)%split_elem_inside.
  destruct (strip_decompose line) as (a & b & Hline).
  rewrite Hline at 2.
  rewrite !app_assoc_str, <- (app_assoc_str pre a). apply contains_inside.
Qed.

(** X7. The contents that the line scans collect are lines of the text,
    trimmed: every legal reference, every tax amount and date of the line
    scans and every Key Point is such a line and so occurs in the text. *)
Theorem line_items_are_lines (text : string) :
  Forall (fun it => is_line_of text it ∧ Str.contains (snd it) text = true)
         (extract_legal_references text)
  ∧ Forall (fun it => is_line_of text it ∧ Str.contains (snd it) text = true)
           (tax_text_pass text)
  ∧ Forall (fun it => is_line_of text it ∧ Str.contains (snd it) text = true)
           (date_text_pass text)
  ∧ Forall (fun it => is_line_of text it ∧ Str.contains (snd it) text = true)
           (other_line_results text).
Proof.
  assert (Hline : forall line, line ∈ Str.split newline text ->
            forall h, is_line_of text (h, Str.strip line)
                      ∧ Str.contains (snd (h, Str.strip line)) text = true).
  { intros line Hin h. split; [by exists line|by apply stripped_line_inside]. }
  repeat split.
  - apply extracted_Forall. rewrite legal_refs_results_passes.
    apply Forall_flat_map. intros line Hin. rewrite legal_line_step_nil.
    destruct (in_window line); [|constructor].
    destruct (first_pattern_heading _ _); [|constructor].
    apply Forall_singleton. by apply Hline.
  - unfold tax_text_pass. rewrite (fold_left_emit _ _ tax_line_step_emit).
    apply Forall_flat_map. intros line Hin. rewrite tax_line_step_nil.
    destruct (_ && _); [|constructor]. apply Forall_singleton. by apply Hline.
  - rewrite date_text_pass_lines.
    apply Forall_flat_map. intros line Hin. rewrite date_line_step_nil.
    destruct (_ && _); [|constructor]. apply Forall_singleton. by apply Hline.
  - rewrite other_line_results_passes.
    apply Forall_flat_map. intros line Hin. unfold other_line_step.
    destruct (_ && _); [|constructor].
    destruct (Re.matches _ _); [|constructor].
    apply Forall_singleton. by apply Hline.
Qed.

(** X8. Parties are looked for in the first 50 lines only: when none of
    them names a role, case_info has no party item, whatever the later
    lines say. *)
Theorem parties_come_from_first_fifty_lines (text : string) (doc : Doc) :
  Forall (fun line =>
            any_in ["plaintiff"; "defendant"; "petitioner"; "respondent"]
                   (Str.lower line) = false)
         (take 50 (Str.split newline text)) ->
  Forall (fun it => fst it ∉ ["Plaintiff"; "Defendant"; "Petitioner";
                              "Respondent"])
         (extract_case_info text doc).
Proof.
  intros Hlines. apply extracted_Forall.
  assert (Hno : forall h : string,
             h = "Case Number" ∨ h = "Court" ->
             h ∉ ["Plaintiff"; "Defendant"; "Petitioner"; "Respondent"]).
  { intros h [-> | ->] Hin;
      by repeat (apply elem_of_cons in Hin as [?|Hin]; [done|]);
         apply elem_of_nil in Hin. }
  rewrite case_info_results_passes, !Forall_app. repeat split.
  - apply Forall_flat_map. intros p _. apply Forall_forall.
    intros it Hit%list_elem_of_In%in_map_iff. destruct Hit as (g & <- & _).
    apply Hno. by left.
  - apply Forall_flat_map. intros line Hin.
    rewrite Forall_forall in Hlines. specialize (Hlines line Hin).
    unfold any_in, existsb in Hlines. rewrite orb_false_r in Hlines.
    apply orb_false_iff in Hlines as [Hp Hlines].
    apply orb_false_iff in Hlines as [Hd Hlines].
    apply orb_false_iff in Hlines as [Hpe Hr].
    unfold case_party_step. rewrite Hp, Hd, Hpe, Hr. constructor.
  - apply Forall_flat_map. intros ent _. unfold case_court_step.
    destruct (_ && _); [|constructor]. apply Forall_singleton.
    apply Hno. by right.
Qed.

(** X8 (witness): the plaintiff line is the 51st. *)
Lemma parties_come_from_first_fifty_lines_witness :
  "Plaintiff: John Smith" ∈ Str.split newline late_plaintiff
  ∧ Forall (fun it => fst it ∉ ["Plaintiff"; "Defendant"; "Petitioner";
                                "Respondent"])
           (extract_case_info late_plaintiff (no_entities late_plaintiff)).
Proof.
  split; [decide_closed|].
  apply (parties_come_from_first_fifty_lines late_plaintiff).
  decide_closed.
Defined.

(** * The result and the analysed text *)

(** X9. A result has exactly the five category keys. *)
Theorem result_has_the_five_keys
        (nlp : string -> Doc) (text : string) (r : gmap string (list item)) :
  analyze_document nlp text = Return r ->
  dom r = {[ "case_info"; "tax_amounts"; "dates"; "legal_refs"; "other" ]}.
Proof.
  intros Hr.
  destruct (analyze_document_cases nlp text) as [[_ Hraise]|[_ Hret]];
    [congruence|].
  rewrite Hret in Hr. injection Hr as <-. unfold results_dict.
  rewrite !dom_insert_L, dom_empty_L. set_solver.
Qed.

(** X9 (witness): the notice. *)
Lemma result_has_the_five_keys_witness :
  dom (results_dict notice (no_entities notice))
  = {[ "case_info"; "tax_amounts"; "dates"; "legal_refs"; "other" ]}.
Proof.
  exact (result_has_the_five_keys no_entities notice _ notice_analysis).
Defined.

Lemma take_prefix (n : nat) (s : string) :
  exists rest, s = Str.take n s +:+ rest.
Proof.
  revert s. induction n as [|n IH]; intros s; [by exists s|].
  destruct s as [|c s]; [by exists ""|].
  destruct (IH s) as [rest Hrest]. exists rest. simpl. by rewrite <- Hrest.
Qed.

(** X10. The text that reaches the recognizer and the extractors is a
    prefix of the input of at most 1,000,000 characters, the input itself
    when it is no longer than that; truncating twice changes nothing. *)
Theorem truncate_bounds (text : string) :
  (Z.of_nat (Str.len (truncate text)) <= max_length)%Z
  ∧ (exists rest, text = truncate text +:+ rest)
  ∧ ((Z.of_nat (Str.len text) <= max_length)%Z -> truncate text = text)
  ∧ truncate (truncate text) = truncate text.
Proof.
  assert (Hle : (Z.of_nat (Str.len (truncate text)) <= max_length)%Z).
  { rewrite truncate_take, len_take. unfold max_length. lia. }
  split; [exact Hle|]. split; [rewrite truncate_take; apply take_prefix|].
  split; [apply truncate_short|]. by apply truncate_short.
Qed.

(** ** The text extractors *)

Lemma char_eqb_refl (c : ascii) : Char.eqb c c = true.
Proof. unfold Char.eqb. apply Ascii.eqb_refl. Qed.

Lemma split_app_sep (c : ascii) (s t : string) :
  Str.split c (s +:+ String c t) = Str.split c s ++ Str.split c t.
Proof.
  induction s as [|d s IH]; simpl.
  - by rewrite char_eqb_refl.
  - destruct (Char.eqb d c); rewrite IH; [done|].
    destruct (split_head c s) as (h & tl & post & -> & _). done.
Qed.

Lemma split_join (c : ascii) (x : string) (l : list string) :
  Str.split c (StrExt.join (String c "") (x :: l))
  = flat_map (Str.split c) (x :: l).
Proof.
  revert x. induction l as [|y l IH]; intros x.
  - simpl. by rewrite app_nil_r.
  - change (StrExt.join (String c "") (x :: y :: l))
      with (x +:+ (String c "" +:+ StrExt.join (String c "") (y :: l))).
    change (String c "" +:+ ?s) with (String c s).
    rewrite split_app_sep, IH. done.
Qed.

Lemma split_no_sep (c : ascii) (s : string) :
  has_char (fun d => Char.eqb d c) s = false -> Str.split c s = [s].
Proof.
  induction s as [|d s IH]; simpl; [done|].
  intros [Hd Hs]%orb_false_iff. by rewrite Hd, (IH Hs).
Qed.

(** X11: the text of a DOCX file with at least one paragraph has, as its
    lines, the lines of the paragraphs in order; paragraphs without a line
    break are the lines themselves. *)
Theorem docx_lines_are_paragraph_lines
        (docx_paragraph_texts : list Byte.byte -> string + list string)
        (file_bytes : list Byte.byte) (paragraphs : list string) :
  docx_paragraph_texts file_bytes = inr paragraphs ->
  paragraphs ≠ [] ->
  exists text,
    Api.extract_text_from_docx docx_paragraph_texts file_bytes = inr text
    ∧ Str.split newline text = flat_map (Str.split newline) paragraphs
    ∧ (Forall (fun p => has_char (fun d => Char.eqb d newline) p = false)
              paragraphs ->
       Str.split newline text = paragraphs).
Proof.
  intros Hdoc Hne. unfold Api.extract_text_from_docx. rewrite Hdoc.
  eexists. split; [done|].
  destruct paragraphs as [|x l]; [done|].
  assert (Hsplit : Str.split newline (StrExt.join nl (x :: l))
                   = flat_map (Str.split newline) (x :: l))
    by apply split_join.
  split; [done|].
  intros Hall. rewrite Hsplit. clear Hsplit Hdoc Hne.
  induction Hall as [|p ps Hp _ IH]; [done|].
  simpl. rewrite (split_no_sep _ _ Hp). simpl. by f_equal.
Qed.

Lemma docx_lines_are_paragraph_lines_witness :
  exists text,
    Api.extract_text_from_docx (fun _ => inr ["Notice of deficiency"; "Tax due: $500"])
                               [] = inr text
    ∧ Str.split newline text
      = flat_map (Str.split newline) ["Notice of deficiency"; "Tax due: $500"]
    ∧ (Forall (fun p => has_char (fun d => Char.eqb d newline) p = false)
              ["Notice of deficiency"; "Tax due: $500"] ->
       Str.split newline text = ["Notice of deficiency"; "Tax due: $500"]).
Proof.
  apply (docx_lines_are_paragraph_lines
           (fun _ => inr ["Notice of deficiency"; "Tax due: $500"]) []);
    [reflexivity|discriminate].
Defined.

(** ** The [/analyze] endpoint *)

Lemma length_zero_nil {A : Type} (l : list A) :
  (List.length l =? 0)%nat = true <-> l = [].
Proof. destruct l; simpl; split; done. Qed.

(** The handler's file-name test is [supported_name]. *)
Lemma name_test (name : string) :
  String.eqb name ""
  || negb (StrExt.endswith_any [".pdf"; ".docx"] (Str.lower name))
  = negb (Api.supported_name (Some name)).
Proof.
  unfold Api.supported_name.
  destruct (String.eqb name ""), (StrExt.endswith_any _ _); done.
Qed.

(** The ways through the [try] block. *)
Lemma analyze_body_cases (nlp : string -> Doc)
      (pdf docx : list Byte.byte -> string + list string) (icons : Icons)
      (filename : option string) (file_bytes : list Byte.byte) :
  Api.supported_name filename = false
  ∧ Api.analyze_body nlp pdf docx icons filename file_bytes
    = inl (RHTTPException 400 "Only PDF and DOCX files are supported")
  ∨ Api.supported_name filename = true ∧ file_bytes = []
    ∧ Api.analyze_body nlp pdf docx icons filename file_bytes
      = inl (RHTTPException 400 "Empty file uploaded")
  ∨ exists name,
      filename = Some name ∧ Api.supported_name filename = true
      ∧ file_bytes ≠ []
      ∧ ((exists msg,
             Api.extracted_text pdf docx name file_bytes = inl (RException msg)
             ∧ Api.analyze_body nlp pdf docx icons filename file_bytes
               = inl (RException msg))
         ∨ (exists text,
               Api.extracted_text pdf docx name file_bytes = inr text
               ∧ (text = "" ∨ (Str.len (Str.strip text) < 100)%nat)
               ∧ Api.analyze_body nlp pdf docx icons filename file_bytes
                 = inl (RValueError "Document text is too short or empty"))
         ∨ (exists text,
               Api.extracted_text pdf docx name file_bytes = inr text
               ∧ text ≠ "" ∧ (100 <= Str.len (Str.strip text))%nat
               ∧ Api.analyze_body nlp pdf docx icons filename file_bytes
                 = inr (Api.format_results_html icons
                          (results_dict (truncate text)
                                        (nlp (truncate text)))))).
Proof.
  destruct filename as [name|]; [|by left].
  unfold Api.analyze_body. rewrite name_test.
  destruct (Api.supported_name (Some name)) eqn:Hname; [|by left].
  right. cbn [negb].
  destruct (List.length file_bytes =? 0)%nat eqn:Hlen.
  { apply length_zero_nil in Hlen. by left. }
  right. exists name. split; [done|]. split; [done|].
  split. { intros ->. done. }
  destruct (Api.extracted_text pdf docx name file_bytes) as [e|text] eqn:Htext.
  - left. unfold Api.extracted_text, Api.extract_text_from_pdf,
      Api.extract_text_from_docx in Htext.
    destruct (StrExt.endswith ".pdf" (Str.lower name)).
    + destruct (pdf file_bytes); simplify_eq. by eexists.
    + destruct (docx file_bytes); simplify_eq. by eexists.
  - right.
    destruct (analyze_document_cases nlp text) as [[Hshort ->]|[[Hne Hlong] ->]].
    + left. by exists text.
    + right. by exists text.
Qed.

(** X12: an upload that the handler rejects itself, for its name or for
    being empty, is answered with status 500, not 400: the exception that
    carries 400 is raised inside the [try] block and caught there. *)
Theorem rejected_upload_is_answered_500 (nlp : string -> Doc)
        (pdf docx : list Byte.byte -> string + list string)
        (http_exception_str : nat -> string -> string) (icons : Icons)
        (filename : option string) (file_bytes : list Byte.byte) :
  Api.supported_name filename && negb (List.length file_bytes =? 0)%nat = false ->
  Api.analyze_document nlp pdf docx http_exception_str icons filename file_bytes
  = HTTPError 500
      ("Error processing document: "
       +:+ http_exception_str 400
             (if Api.supported_name filename then "Empty file uploaded"
              else "Only PDF and DOCX files are supported")).
Proof.
  intros Hrej. unfold Api.analyze_document.
  destruct (analyze_body_cases nlp pdf docx icons filename file_bytes)
    as [[Hname ->]|[(Hname & Hbytes & ->)|(name & _ & Hname & Hbytes & _)]].
  - by rewrite Hname.
  - by rewrite Hname.
  - rewrite Hname in Hrej. destruct file_bytes; done.
Qed.

Lemma rejected_upload_is_answered_500_witness :
  Api.analyze_document no_entities one_page_pdf broken_docx status_and_detail
                       plain_icons (Some "notes.txt") [Byte.x25; Byte.x50]
  = HTTPError 500
      "Error processing document: 400: Only PDF and DOCX files are supported".
Proof.
  exact (rejected_upload_is_answered_500
           no_entities one_page_pdf broken_docx status_and_detail plain_icons
           (Some "notes.txt") [Byte.x25; Byte.x50] eq_refl).
Defined.

(** X13: status 400 is the answer exactly when the upload was accepted, its
    text was extracted, and the text is empty or shorter than 100
    characters when trimmed; the detail is then the analyzer's message. *)
Theorem status_400_iff_short_text (nlp : string -> Doc)
        (pdf docx : list Byte.byte -> string + list string)
        (http_exception_str : nat -> string -> string) (icons : Icons)
        (filename : option string) (file_bytes : list Byte.byte)
        (detail : string) :
  Api.analyze_document nlp pdf docx http_exception_str icons filename file_bytes
  = HTTPError 400 detail
  <-> exists name text,
      filename = Some name ∧ Api.supported_name filename = true
      ∧ file_bytes ≠ []
      ∧ Api.extracted_text pdf docx name file_bytes = inr text
      ∧ (text = "" ∨ (Str.len (Str.strip text) < 100)%nat)
      ∧ detail = "Document text is too short or empty".
Proof.
  unfold Api.analyze_document.
  destruct (analyze_body_cases nlp pdf docx icons filename file_bytes)
    as [[Hname ->]|[(Hname & Hbytes & ->)
       |(name & Hfile & Hname & Hbytes
         & [(msg & Htext & ->)|[(text & Htext & Hshort & ->)
                               |(text & Htext & Hne & Hlong & ->)]])]].
  - split; [done|]. intros (? & ? & _ & ? & _). congruence.
  - split; [done|]. intros (? & ? & _ & _ & ? & _). done.
  - split; [done|]. intros (? & ? & ? & _ & _ & ? & _). congruence.
  - split.
    + intros [= <-]. by exists name, text.
    + intros (? & ? & _ & _ & _ & _ & _ & ->). done.
  - split; [done|].
    intros (name' & text' & ? & _ & _ & Htext' & Hshort & _).
    assert (text' = text) as -> by congruence.
    destruct Hshort as [->|Hshort]; [done|lia].
Qed.

(** X14: the page is the answer exactly when the upload was accepted, its
    text was extracted, and the text is not empty and has at least 100
    characters when trimmed; the page is then the report of the analysis
    of the first million characters. *)
Theorem page_iff_document_accepted (nlp : string -> Doc)
        (pdf docx : list Byte.byte -> string + list string)
        (http_exception_str : nat -> string -> string) (icons : Icons)
        (filename : option string) (file_bytes : list Byte.byte)
        (html : string) :
  Api.analyze_document nlp pdf docx http_exception_str icons filename file_bytes
  = HTMLResponse html
  <-> exists name text,
      filename = Some name ∧ Api.supported_name filename = true
      ∧ file_bytes ≠ []
      ∧ Api.extracted_text pdf docx name file_bytes = inr text
      ∧ text ≠ "" ∧ (100 <= Str.len (Str.strip text))%nat
      ∧ html = Api.format_results_html icons
                 (results_dict (truncate text) (nlp (truncate text))).
Proof.
  unfold Api.analyze_document.
  destruct (analyze_body_cases nlp pdf docx icons filename file_bytes)
    as [[Hname ->]|[(Hname & Hbytes & ->)
       |(name & Hfile & Hname & Hbytes
         & [(msg & Htext & ->)|[(text & Htext & Hshort & ->)
                               |(text & Htext & Hne & Hlong & ->)]])]].
  - split; [done|]. intros (? & ? & _ & ? & _). congruence.
  - split; [done|]. intros (? & ? & _ & _ & ? & _). done.
  - split; [done|]. intros (? & ? & ? & _ & _ & ? & _). congruence.
  - split; [done|].
    intros (name' & text' & ? & _ & _ & Htext' & Hne & Hlong & _).
    assert (text' = text) as -> by congruence.
    destruct Hshort as [->|Hshort]; [done|lia].
  - split.
    + intros [= <-]. by exists name, text.
    + intros (name' & text' & ? & _ & _ & Htext' & _ & _ & ->).
      assert (text' = text) as -> by congruence. done.
Qed.

(** X15: when the reader of an accepted upload fails, the answer has
    status 500 and a detail that chains the handler's prefix, the
    extractor's prefix and the reader's message. *)
Theorem extraction_failure_is_answered_500 (nlp : string -> Doc)
        (pdf docx : list Byte.byte -> string + list string)
        (http_exception_str : nat -> string -> string) (icons : Icons)
        (name : string) (file_bytes : list Byte.byte) (msg : string) :
  Api.supported_name (Some name) = true ->
  file_bytes ≠ [] ->
  (if StrExt.endswith ".pdf" (Str.lower name)
   then pdf file_bytes else docx file_bytes) = inl msg ->
  Api.analyze_document nlp pdf docx http_exception_str icons (Some name)
                       file_bytes
  = HTTPError 500
      ("Error processing document: Error extracting "
       +:+ (if StrExt.endswith ".pdf" (Str.lower name) then "PDF" else "DOCX")
       +:+ ": " +:+ msg).
Proof.
  intros Hname Hbytes Hread. unfold Api.analyze_document, Api.analyze_body.
  rewrite name_test, Hname. cbn [negb].
  destruct (List.length file_bytes =? 0)%nat eqn:Hlen.
  { by apply length_zero_nil in Hlen. }
  unfold Api.extracted_text, Api.extract_text_from_pdf,
    Api.extract_text_from_docx.
  destruct (StrExt.endswith ".pdf" (Str.lower name)); by rewrite Hread.
Qed.

Lemma extraction_failure_is_answered_500_witness :
  Api.analyze_document no_entities one_page_pdf broken_docx status_and_detail
                       plain_icons (Some "Notice.DOCX") [Byte.x50; Byte.x4b]
  = HTTPError 500
      "Error processing document: Error extracting DOCX: File is not a zip file".
Proof.
  apply (extraction_failure_is_answered_500
           no_entities one_page_pdf broken_docx status_and_detail plain_icons
           "Notice.DOCX" [Byte.x50; Byte.x4b] "File is not a zip file");
    [reflexivity|discriminate|reflexivity].
Defined.

Lemma lower_empty (s t : string) :
  Str.lower s = Str.lower t -> String.eqb s "" = String.eqb t "".
Proof. destruct s, t; simpl; done. Qed.

(** X16: the letter case of the file name does not matter: two names that
    are equal when lowercased get the same answer. *)
Theorem file_name_matters_up_to_case (nlp : string -> Doc)
        (pdf docx : list Byte.byte -> string + list string)
        (http_exception_str : nat -> string -> string) (icons : Icons)
        (name1 name2 : string) (file_bytes : list Byte.byte) :
  Str.lower name1 = Str.lower name2 ->
  Api.analyze_document nlp pdf docx http_exception_str icons (Some name1)
                       file_bytes
  = Api.analyze_document nlp pdf docx http_exception_str icons (Some name2)
                         file_bytes.
Proof.
  intros Hlower.
  unfold Api.analyze_document, Api.analyze_body, Api.extracted_text.
  by rewrite Hlower, (lower_empty _ _ Hlower).
Qed.

Lemma file_name_matters_up_to_case_witness :
  Api.analyze_document no_entities one_page_pdf broken_docx status_and_detail
                       plain_icons (Some "NOTICE.Pdf") [Byte.x25]
  = Api.analyze_document no_entities one_page_pdf broken_docx status_and_detail
                         plain_icons (Some "notice.pdf") [Byte.x25].
Proof.
  apply (file_name_matters_up_to_case
           no_entities one_page_pdf broken_docx status_and_detail plain_icons
           "NOTICE.Pdf" "notice.pdf" [Byte.x25]).
  reflexivity.
Defined.

Lemma docx_not_pdf (s : string) :
  StrExt.endswith ".docx" s = true -> StrExt.endswith ".pdf" s = false.
Proof.
  induction s as [|c s IH]; [done|].
  cbn [StrExt.endswith]. intros [Heq|Hs]%orb_true_iff.
  - apply String.eqb_eq in Heq. injection Heq as <- <-. reflexivity.
  - rewrite (IH Hs), orb_false_r.
    destruct (String.eqb ".pdf" (String c s)) eqn:Heq; [|done].
    apply String.eqb_eq in Heq. injection Heq as <- <-. done.
Qed.

(** X17: an upload whose name ends in [.docx] never reaches the PDF
    reader: the answer is the same whatever that reader would do. *)
Theorem docx_upload_never_reaches_pdf_reader (nlp : string -> Doc)
        (pdf pdf' docx : list Byte.byte -> string + list string)
        (http_exception_str : nat -> string -> string) (icons : Icons)
        (name : string) (file_bytes : list Byte.byte) :
  StrExt.endswith ".docx" (Str.lower name) = true ->
  Api.analyze_document nlp pdf docx http_exception_str icons (Some name)
                       file_bytes
  = Api.analyze_document nlp pdf' docx http_exception_str icons (Some name)
                         file_bytes.
Proof.
  intros Hdocx%docx_not_pdf.
  unfold Api.analyze_document, Api.analyze_body, Api.extracted_text.
  by rewrite Hdocx.
Qed.

Lemma docx_upload_never_reaches_pdf_reader_witness :
  Api.analyze_document no_entities one_page_pdf broken_docx status_and_detail
                       plain_icons (Some "a.pdf.docx") [Byte.x50]
  = Api.analyze_document no_entities (fun _ => inl "not a PDF") broken_docx
                         status_and_detail plain_icons (Some "a.pdf.docx")
                         [Byte.x50].
Proof.
  apply (docx_upload_never_reaches_pdf_reader
           no_entities one_page_pdf (fun _ => inl "not a PDF") broken_docx
           status_and_detail plain_icons "a.pdf.docx" [Byte.x50]).
  reflexivity.
Defined.

(** ** The HTML report *)

Lemma format_items_length (items : list item) (html_parts : list string) :
  List.length (fold_left Api.format_item_step items html_parts)
  = (List.length html_parts + 4 * List.length items)%nat.
Proof.
  revert html_parts. induction items as [|[heading content] items IH];
    intros html_parts; simpl; [lia|].
  rewrite IH, length_app. simpl. lia.
Qed.

Lemma format_items_keeps (items : list item) (html_parts : list string)
      (part : string) :
  part ∈ html_parts -> part ∈ fold_left Api.format_item_step items html_parts.
Proof.
  revert html_parts. induction items as [|[heading content] items IH];
    intros html_parts Hin; simpl; [done|].
  apply IH, elem_of_app. by left.
Qed.

Lemma format_items_card (items : list item) (html_parts : list string)
      (heading content : string) :
  (heading, content) ∈ items ->
  div_open "item-heading" +:+ heading +:+ "</div>"
    ∈ fold_left Api.format_item_step items html_parts
  ∧ div_open "item-content" +:+ content +:+ "</div>"
    ∈ fold_left Api.format_item_step items html_parts.
Proof.
  revert html_parts. induction items as [|[h c] items IH];
    intros html_parts Hin; [by apply elem_of_nil in Hin|].
  apply elem_of_cons in Hin as [[= <- <-]|Hin]; [|by apply IH].
  simpl. split; apply format_items_keeps, elem_of_app; right.
  - apply elem_of_cons; right. by left.
  - do 2 (apply elem_of_cons; right). by left.
Qed.

Lemma format_category_length (results : gmap string (list item))
      (html_parts : list string) (key title empty_msg : string) :
  List.length (Api.format_category_step results html_parts
                                        (key, title, empty_msg))
  = (List.length html_parts + 8
     + grid_lines (default [] (results !! key)))%nat.
Proof.
  unfold Api.format_category_step.
  destruct (default [] (results !! key)) as [|it items].
  - rewrite !length_app. simpl. lia.
  - rewrite !length_app, format_items_length, !length_app. simpl. lia.
Qed.

Lemma format_category_keeps (results : gmap string (list item))
      (html_parts : list string) (category : string * string * string)
      (part : string) :
  part ∈ html_parts ->
  part ∈ Api.format_category_step results html_parts category.
Proof.
  intros Hin. destruct category as [[key title] empty_msg].
  unfold Api.format_category_step.
  destruct (default [] (results !! key)) as [|it items].
  - rewrite !elem_of_app. by do 3 left.
  - rewrite !elem_of_app. do 2 left. apply format_items_keeps.
    rewrite !elem_of_app. by do 2 left.
Qed.

Lemma format_category_card (results : gmap string (list item))
      (html_parts : list string) (key title empty_msg : string)
      (items : list item) (heading content : string) :
  results !! key = Some items -> (heading, content) ∈ items ->
  div_open "item-heading" +:+ heading +:+ "</div>"
    ∈ Api.format_category_step results html_parts (key, title, empty_msg)
  ∧ div_open "item-content" +:+ content +:+ "</div>"
    ∈ Api.format_category_step results html_parts (key, title, empty_msg).
Proof.
  intros Hkey Hin. unfold Api.format_category_step. rewrite Hkey. simpl.
  destruct items as [|it items]; [by apply elem_of_nil in Hin|].
  destruct (format_items_card (it :: items)
              ((html_parts
                ++ [div_open "category"; div_open "category-header";
                    span_open "category-icon"
                    +:+ hd "" (StrExt.split_ws title) +:+ "</span>";
                    "<span>" +:+ StrExt.join " " (tl (StrExt.split_ws title))
                    +:+ "</span>";
                    "</div>"; div_open "category-content"])
               ++ [div_open "items-grid"]) heading content Hin) as [Hh Hc].
  split; rewrite !elem_of_app; by do 2 left.
Qed.

Lemma line_breaks_app (s t : string) :
  line_breaks (s +:+ t) = (line_breaks s + line_breaks t)%nat.
Proof. induction s as [|c s IH]; simpl; [done|]. rewrite IH. lia. Qed.

Lemma length_split_newline (s : string) :
  List.length (Str.split newline s) = S (line_breaks s).
Proof.
  induction s as [|c s IH]; simpl; [done|].
  destruct (Char.eqb c newline); simpl; [by rewrite IH|].
  destruct (split_head newline s) as (h & t & post & Hs & _).
  rewrite Hs in *. exact IH.
Qed.

(** The lines of parts joined by line feeds: one for each part and one
    for each line feed inside a part. *)
Lemma page_lines_join (parts : list string) :
  parts ≠ [] ->
  page_lines (StrExt.join nl parts)
  = (List.length parts + sum_list_with line_breaks parts)%nat.
Proof.
  intros Hne. destruct parts as [|x l]; [done|]. clear Hne.
  unfold page_lines, nl. rewrite split_join.
  generalize (x :: l). intros parts.
  induction parts as [|part parts IH]; [done|].
  cbn [flat_map sum_list_with List.length].
  rewrite length_app, IH, length_split_newline. lia.
Qed.

Lemma no_space_no_break (s : string) :
  has_char Char.isspace s = false -> line_breaks s = 0%nat.
Proof.
  induction s as [|c s IH]; simpl; [done|].
  intros [Hc Hs]%orb_false_iff. rewrite (IH Hs).
  destruct (Char.eqb c newline) eqn:Heq; [|done].
  apply Ascii.eqb_eq in Heq. by rewrite Heq in Hc.
Qed.

Lemma split_ws_no_space (s : string) :
  Forall (fun w => has_char Char.isspace w = false) (StrExt.split_ws s).
Proof.
  induction s as [|c s IH]; [by constructor|].
  cbn [StrExt.split_ws].
  destruct (Char.isspace c) eqn:Hc; [exact IH|].
  destruct s as [|d s].
  { constructor; [|by constructor]. simpl. by rewrite Hc. }
  destruct (Char.isspace d) eqn:Hd.
  { constructor; [|exact IH]. simpl. by rewrite Hc. }
  destruct (StrExt.split_ws (String d s)) as [|w ws].
  { constructor; [|by constructor]. simpl. by rewrite Hc. }
  apply Forall_cons in IH as [Hw Hws].
  constructor; [|exact Hws]. simpl. by rewrite Hc, Hw.
Qed.

Lemma join_words_no_break (words : list string) :
  Forall (fun w => has_char Char.isspace w = false) words ->
  line_breaks (StrExt.join " " words) = 0%nat.
Proof.
  induction 1 as [|w words Hw Hwords IH]; [done|].
  destruct words as [|v words]; [by apply no_space_no_break|].
  change (StrExt.join " " (w :: v :: words))
    with (w +:+ (" " +:+ StrExt.join " " (v :: words))).
  rewrite !line_breaks_app, IH, (no_space_no_break w Hw). done.
Qed.

Lemma format_items_breaks (items : list item) (html_parts : list string) :
  sum_list_with line_breaks (fold_left Api.format_item_step items html_parts)
  = (sum_list_with line_breaks html_parts
     + sum_list_with item_line_breaks items)%nat.
Proof.
  revert html_parts. induction items as [|[heading content] items IH];
    intros html_parts; simpl; [lia|].
  rewrite IH, sum_list_with_app. cbn [sum_list_with].
  unfold div_open, item_line_breaks. simpl. rewrite !line_breaks_app.
  simpl. lia.
Qed.

(** The frame of a category has no line feed of its own. *)
Lemma format_category_breaks (results : gmap string (list item))
      (html_parts : list string) (key title empty_msg : string) :
  line_breaks empty_msg = 0%nat ->
  sum_list_with line_breaks
    (Api.format_category_step results html_parts (key, title, empty_msg))
  = (sum_list_with line_breaks html_parts
     + sum_list_with item_line_breaks (default [] (results !! key)))%nat.
Proof.
  intros Hmsg. unfold Api.format_category_step.
  assert (Hicon : line_breaks (hd "" (StrExt.split_ws title)) = 0%nat).
  { apply no_space_no_break.
    destruct (split_ws_no_space title) as [|w ws Hw _]; done. }
  assert (Hname : line_breaks (StrExt.join " " (tl (StrExt.split_ws title)))
                  = 0%nat).
  { apply join_words_no_break.
    destruct (split_ws_no_space title) as [|w ws _ Hws]; [constructor|done]. }
  destruct (default [] (results !! key)) as [|it items].
  - rewrite !sum_list_with_app. cbn [sum_list_with].
    unfold div_open, span_open. simpl.
    rewrite !line_breaks_app, Hicon, Hname, Hmsg. simpl. lia.
  - rewrite !sum_list_with_app, format_items_breaks, !sum_list_with_app.
    cbn [sum_list_with].
    unfold div_open, span_open. simpl.
    rewrite !line_breaks_app, Hicon, Hname. simpl. lia.
Qed.

Lemma html_parts_breaks (icons : Icons) (results : gmap string (list item)) :
  sum_list_with line_breaks (Api.html_parts_of icons results)
  = result_line_breaks results.
Proof.
  unfold Api.html_parts_of, Api.categories. cbn [fold_left].
  rewrite !format_category_breaks by reflexivity.
  unfold result_line_breaks, category_keys. simpl. lia.
Qed.

Lemma html_parts_not_nil (icons : Icons) (results : gmap string (list item)) :
  Api.html_parts_of icons results ≠ [].
Proof.
  intros Hnil%(f_equal List.length). revert Hnil.
  unfold Api.html_parts_of, Api.categories. cbn [fold_left].
  rewrite !format_category_length. simpl. lia.
Qed.

(** X18: the size of the report.  It is made of 40 frame parts (eight for
    each of the five categories) and, for the items of a category, one
    empty-state part, or two parts for the grid and four for each card;
    the page joins the parts by line feeds, so its lines are one for each
    part and one more for every line feed inside the heading or the
    content of an item. *)
Theorem report_size (icons : Icons) (results : gmap string (list item)) :
  List.length (Api.html_parts_of icons results)
  = (40 + sum_list_with (fun key => grid_lines (default [] (results !! key)))
                        category_keys)%nat
  ∧ page_lines (Api.format_results_html icons results)
    = (40 + sum_list_with (fun key => grid_lines (default [] (results !! key)))
                          category_keys
       + result_line_breaks results)%nat.
Proof.
  assert (Hparts : List.length (Api.html_parts_of icons results)
            = (40 + sum_list_with
                      (fun key => grid_lines (default [] (results !! key)))
                      category_keys)%nat).
  { unfold Api.html_parts_of, Api.categories. cbn [fold_left].
    rewrite !format_category_length. simpl. lia. }
  split; [exact Hparts|].
  unfold Api.format_results_html.
  rewrite page_lines_join by apply html_parts_not_nil.
  by rewrite Hparts, html_parts_breaks.
Qed.

Lemma join_elem_inside (sep part : string) (l : list string) :
  part ∈ l -> exists pre post, StrExt.join sep l = pre +:+ (part +:+ post).
Proof.
  induction l as [|x l IH]; [by intros ?%elem_of_nil|].
  intros [->|Hin]%elem_of_cons.
  - destruct l as [|y l].
    + exists "", "". simpl. by rewrite str_app_nil_r.
    + by exists "", (sep +:+ StrExt.join sep (y :: l)).
  - destruct (IH Hin) as (pre & post & Hjoin).
    destruct l as [|y l]; [by apply elem_of_nil in Hin|].
    exists (x +:+ sep +:+ pre), post.
    change (StrExt.join sep (x :: y :: l))
      with (x +:+ (sep +:+ StrExt.join sep (y :: l))).
    by rewrite Hjoin, !app_assoc_str.
Qed.

Lemma part_text_in_page (sep open text close : string) (l : list string) :
  open +:+ text +:+ close ∈ l ->
  Str.contains text (StrExt.join sep l) = true.
Proof.
  intros (pre & post & ->)%(join_elem_inside sep).
  rewrite !app_assoc_str, <- (app_assoc_str pre open).
  apply contains_inside.
Qed.

(** X19: the heading and the content of every item of the five categories
    are put into the report as they are, each on a line between its
    opening tag and [</div>], with no character escaped or changed. *)
Theorem item_text_is_inserted_verbatim (icons : Icons)
        (results : gmap string (list item)) (key : string)
        (items : list item) (heading content : string) :
  key ∈ category_keys ->
  results !! key = Some items ->
  (heading, content) ∈ items ->
  div_open "item-heading" +:+ heading +:+ "</div>"
    ∈ Api.html_parts_of icons results
  ∧ div_open "item-content" +:+ content +:+ "</div>"
    ∈ Api.html_parts_of icons results
  ∧ Str.contains heading (Api.format_results_html icons results) = true
  ∧ Str.contains content (Api.format_results_html icons results) = true.
Proof.
  intros Hkey Hitems Hin.
  assert (Hparts :
            div_open "item-heading" +:+ heading +:+ "</div>"
              ∈ Api.html_parts_of icons results
            ∧ div_open "item-content" +:+ content +:+ "</div>"
              ∈ Api.html_parts_of icons results).
  { unfold Api.html_parts_of, Api.categories. cbn [fold_left].
    unfold category_keys in Hkey.
    repeat (apply elem_of_cons in Hkey as [->|Hkey]);
      [..|by apply elem_of_nil in Hkey].
    - split; do 4 apply format_category_keeps;
        by apply (format_category_card _ _ _ _ _ items heading content).
    - split; do 3 apply format_category_keeps;
        by apply (format_category_card _ _ _ _ _ items heading content).
    - split; do 2 apply format_category_keeps;
        by apply (format_category_card _ _ _ _ _ items heading content).
    - split; do 1 apply format_category_keeps;
        by apply (format_category_card _ _ _ _ _ items heading content).
    - split; by apply (format_category_card _ _ _ _ _ items heading content). }
  destruct Hparts as [Hh Hc]. repeat split; [done|done| |].
  - by apply (part_text_in_page _ (div_open "item-heading") _ "</div>").
  - by apply (part_text_in_page _ (div_open "item-content") _ "</div>").
Qed.

Lemma item_text_is_inserted_verbatim_witness :
  div_open "item-heading" +:+ "Key Point" +:+ "</div>"
    ∈ Api.html_parts_of plain_icons
        {[ "other" := [("Key Point", "1. file <b>Form 1040</b> & pay the tax")] ]}
  ∧ div_open "item-content" +:+ "1. file <b>Form 1040</b> & pay the tax"
    +:+ "</div>"
    ∈ Api.html_parts_of plain_icons
        {[ "other" := [("Key Point", "1. file <b>Form 1040</b> & pay the tax")] ]}
  ∧ Str.contains "Key Point"
      (Api.format_results_html plain_icons
         {[ "other" := [("Key Point", "1. file <b>Form 1040</b> & pay the tax")] ]})
    = true
  ∧ Str.contains "1. file <b>Form 1040</b> & pay the tax"
      (Api.format_results_html plain_icons
         {[ "other" := [("Key Point", "1. file <b>Form 1040</b> & pay the tax")] ]})
    = true.
Proof.
  apply (item_text_is_inserted_verbatim
           plain_icons
           {[ "other" := [("Key Point", "1. file <b>Form 1040</b> & pay the tax")] ]}
           "other"
           [("Key Point", "1. file <b>Form 1040</b> & pay the tax")]).
  - unfold category_keys. do 4 (apply elem_of_cons; right).
    apply elem_of_cons. by left.
  - by simplify_map_eq.
  - apply elem_of_cons. by left.
Defined.

Lemma grid_lines_take (n : nat) (items : list item) :
  (grid_lines (take n items) <= 2 + 4 * n)%nat.
Proof.
  unfold grid_lines. pose proof (length_take items n) as Hlen.
  destruct (take n items); simpl in *; lia.
Qed.

(** X20: the page of an analysis has at most 430 lines, and one more for
    every line feed inside the heading or the content of an item: the caps
    of the five categories bound the number of cards. *)
Theorem report_of_an_analysis_is_bounded (nlp : string -> Doc)
        (icons : Icons) (text : string) (r : gmap string (list item)) :
  analyze_document nlp text = Return r ->
  (page_lines (Api.format_results_html icons r)
   <= 430 + result_line_breaks r)%nat.
Proof.
  intros (Hcase & Htax & Hdates & Hlegal & Hother)%analysis_result.
  unfold Api.format_results_html.
  rewrite page_lines_join, html_parts_breaks by apply html_parts_not_nil.
  apply Nat.add_le_mono_r.
  unfold Api.html_parts_of, Api.categories. cbn [fold_left].
  rewrite !format_category_length.
  rewrite Hcase, Htax, Hdates, Hlegal, Hother. cbn [default from_option].
  change (List.length (@nil string)) with 0%nat.
  pose proof (grid_lines_take 15 (unique pair_key
    (case_info_results (truncate text) (nlp (truncate text))))).
  pose proof (grid_lines_take 20 (unique content_key
    (tax_amounts_results (truncate text) (nlp (truncate text))))).
  pose proof (grid_lines_take 20 (unique content_key
    (dates_results (truncate text) (nlp (truncate text))))).
  pose proof (grid_lines_take 25 (unique content_key
    (legal_refs_results (truncate text)))).
  pose proof (grid_lines_take 15 (unique content_key
    (other_results (truncate text) (nlp (truncate text))))).
  unfold extract_case_info, extract_tax_amounts, extract_dates,
    extract_legal_references, extract_other_details, id.
  lia.
Qed.

Lemma report_of_an_analysis_is_bounded_witness :
  (page_lines (Api.format_results_html plain_icons
                 (results_dict notice (no_entities notice)))
   <= 430 + result_line_breaks (results_dict notice (no_entities notice)))%nat.
Proof.
  apply (report_of_an_analysis_is_bounded no_entities plain_icons notice).
  apply notice_analysis.
Defined.

(** X21: the report reads the five category keys only, and a missing key
    is shown like an empty list: two results that agree on the five keys,
    a missing key counting as empty, give the same page. *)
Theorem report_reads_the_five_keys (icons : Icons)
        (results1 results2 : gmap string (list item)) :
  (forall key, key ∈ category_keys ->
               default [] (results1 !! key) = default [] (results2 !! key)) ->
  Api.format_results_html icons results1
  = Api.format_results_html icons results2.
Proof.
  intros Hkeys.
  assert (H1 := Hkeys "case_info"). assert (H2 := Hkeys "tax_amounts").
  assert (H3 := Hkeys "dates"). assert (H4 := Hkeys "legal_refs").
  assert (H5 := Hkeys "other"). unfold category_keys in *.
  unfold Api.format_results_html, Api.html_parts_of, Api.categories.
  cbn [fold_left]. unfold Api.format_category_step.
  rewrite H1, H2, H3, H4, H5; [done|..];
    repeat first [by apply elem_of_cons; left | apply elem_of_cons; right].
Qed.

Lemma report_reads_the_five_keys_witness :
  Api.format_results_html plain_icons ∅
  = Api.format_results_html plain_icons
      {[ "notes" := [("Remark", "not a category")] ]}.
Proof.
  apply (report_reads_the_five_keys
           plain_icons ∅ {[ "notes" := [("Remark", "not a category")] ]}).
  intros key Hkey. unfold category_keys in Hkey.
  repeat (apply elem_of_cons in Hkey as [->|Hkey]);
    [..|by apply elem_of_nil in Hkey]; reflexivity.
Defined.

Lemma format_items_app (items : list item) (html_parts : list string) :
  fold_left Api.format_item_step items html_parts
  = html_parts ++ fold_left Api.format_item_step items [].
Proof.
  revert html_parts. induction items as [|[heading content] items IH];
    intros html_parts; simpl; [by rewrite app_nil_r|].
  rewrite IH, (IH [_; _; _; _]). by rewrite <- app_assoc.
Qed.

(** The lines that the cards of a category consist of. *)
Lemma item_lines_shape (items : list item) (part : string) :
  part ∈ fold_left Api.format_item_step items [] ->
  part = div_open "item-card"
  ∨ (exists heading, part = div_open "item-heading" +:+ heading +:+ "</div>")
  ∨ (exists content, part = div_open "item-content" +:+ content +:+ "</div>")
  ∨ part = "</div>".
Proof.
  induction items as [|[heading content] items IH]; simpl.
  { by intros ?%elem_of_nil. }
  rewrite format_items_app, elem_of_app, !elem_of_cons, elem_of_nil.
  intros [[->|[->|[->|[->|[]]]]]|Hin]; eauto 6.
Qed.

Ltac other_line H :=
  exfalso; unfold div_open, span_open, dq in H; simpl in H; discriminate H.

Lemma category_empty_line (results : gmap string (list item))
      (html_parts : list string) (key title empty_msg msg : string) :
  div_open "empty-state" +:+ msg +:+ "</div>"
    ∈ Api.format_category_step results html_parts (key, title, empty_msg)
  <-> div_open "empty-state" +:+ msg +:+ "</div>" ∈ html_parts
      ∨ default [] (results !! key) = []
        ∧ div_open "empty-state" +:+ msg +:+ "</div>"
          = div_open "empty-state" +:+ empty_msg +:+ "</div>".
Proof.
  unfold Api.format_category_step.
  destruct (default [] (results !! key)) as [|it items].
  - rewrite !elem_of_app, !elem_of_cons, !elem_of_nil. split.
    + intros [[[Hin|[H|[H|[H|[H|[H|[H|[]]]]]]]]|[H|[]]]|[H|[H|[]]]];
        [by left|try other_line H..]. by right.
    + intros [Hin|[_ Hmsg]]; [by do 3 left|]. left. right. by left.
  - rewrite format_items_app.
    rewrite !elem_of_app, !elem_of_cons, !elem_of_nil. split.
    + intros [[[[[Hin|[H|[H|[H|[H|[H|[H|[]]]]]]]]|[H|[]]]|Hin]|[H|[]]]
             |[H|[H|[]]]]; [by left|try other_line H..].
      apply item_lines_shape in Hin as [H|[[h H]|[[c H]|H]]]; other_line H.
    + intros [Hin|[? _]]; [by do 5 left|done].
Qed.

(** X22: a category shows its empty message exactly when it has no item,
    a missing key counting as none. *)
Theorem empty_message_iff_no_items (icons : Icons)
        (results : gmap string (list item)) (key title empty_msg : string) :
  (key, title, empty_msg) ∈ Api.categories icons ->
  div_open "empty-state" +:+ empty_msg +:+ "</div>"
    ∈ Api.html_parts_of icons results
  <-> default [] (results !! key) = [].
Proof.
  intros Hcat. unfold Api.html_parts_of. unfold Api.categories in *.
  cbn [fold_left]. rewrite !category_empty_line, elem_of_nil.
  repeat (apply elem_of_cons in Hcat as [[= -> -> ->]|Hcat]);
    [..|by apply elem_of_nil in Hcat].
  all: split;
    [ intros [[[[[[]|[? H]]|[? H]]|[? H]]|[? H]]|[? H]];
      first [done | other_line H]
    | intros Hnone; eauto 10 ].
Qed.

Lemma empty_message_iff_no_items_witness :
  div_open "empty-state" +:+ "No dates found" +:+ "</div>"
    ∈ Api.html_parts_of plain_icons
        {[ "other" := [("Key Point", "1. keep the records of the year")] ]}
  <-> default [] (({[ "other" := [("Key Point", "1. keep the records of the year")] ]}
                   : gmap string (list item)) !! "dates") = [].
Proof.
  apply (empty_message_iff_no_items
           plain_icons
           {[ "other" := [("Key Point", "1. keep the records of the year")] ]}
           "dates" "@ Important Dates / Deadlines" "No dates found").
  unfold Api.categories. do 2 (apply elem_of_cons; right).
  apply elem_of_cons. by left.
Defined.

(** ** A PDF without text *)

Lemma all_char_app (P : ascii -> bool) (s t : string) :
  all_char P (s +:+ t) = all_char P s && all_char P t.
Proof. induction s as [|c s IH]; simpl; [done|]. by rewrite IH, andb_assoc. Qed.

Lemma all_space_strip (s : string) :
  all_char Char.isspace s = true -> Str.strip s = "".
Proof.
  unfold Str.strip. induction s as [|c s IH]; simpl; [done|].
  intros [-> Hs]%andb_true_iff. by apply IH.
Qed.

Lemma pages_all_space (pages : list string) (text : string) :
  all_char Char.isspace text = true ->
  Forall (fun page => all_char Char.isspace page = true) pages ->
  all_char Char.isspace (fold_left (fun text page => text +:+ page) pages text)
  = true.
Proof.
  intros Htext Hpages. revert text Htext.
  induction Hpages as [|page pages Hpage _ IH]; intros text Htext; [done|].
  simpl. apply IH. by rewrite all_char_app, Htext, Hpage.
Qed.

Lemma pdf_name_supported (name : string) :
  StrExt.endswith ".pdf" (Str.lower name) = true ->
  Api.supported_name (Some name) = true.
Proof.
  intros Hpdf. unfold Api.supported_name, StrExt.endswith_any.
  cbn [existsb]. rewrite Hpdf. by destruct name.
Qed.

(** X23: a PDF whose pages hold no text, or white space only (a scanned
    document), is answered with status 400 and the analyzer's message. *)
Theorem pdf_without_text_is_answered_400 (nlp : string -> Doc)
        (pdf docx : list Byte.byte -> string + list string)
        (http_exception_str : nat -> string -> string) (icons : Icons)
        (name : string) (file_bytes : list Byte.byte) (pages : list string) :
  StrExt.endswith ".pdf" (Str.lower name) = true ->
  file_bytes ≠ [] ->
  pdf file_bytes = inr pages ->
  Forall (fun page => all_char Char.isspace page = true) pages ->
  Api.analyze_document nlp pdf docx http_exception_str icons (Some name)
                       file_bytes
  = HTTPError 400 "Document text is too short or empty".
Proof.
  intros Hpdf Hbytes Hread Hpages.
  unfold Api.analyze_document, Api.analyze_body.
  rewrite name_test, (pdf_name_supported _ Hpdf). cbn [negb].
  destruct (List.length file_bytes =? 0)%nat eqn:Hlen.
  { by apply length_zero_nil in Hlen. }
  unfold Api.extracted_text, Api.extract_text_from_pdf. rewrite Hpdf, Hread.
  unfold analyze_document.
  rewrite (all_space_strip _ (pages_all_space pages "" eq_refl Hpages)).
  by rewrite orb_true_r.
Qed.

Lemma pdf_without_text_is_answered_400_witness :
  Api.analyze_document no_entities (fun _ => inr [""; nl; "  "]) broken_docx
                       status_and_detail plain_icons (Some "scan.pdf")
                       [Byte.x25; Byte.x50; Byte.x44; Byte.x46]
  = HTTPError 400 "Document text is too short or empty".
Proof.
  apply (pdf_without_text_is_answered_400
           no_entities (fun _ => inr [""; nl; "  "]) broken_docx
           status_and_detail plain_icons "scan.pdf"
           [Byte.x25; Byte.x50; Byte.x44; Byte.x46] [""; nl; "  "]);
    [reflexivity|discriminate|reflexivity|].
  repeat constructor.
Defined.
